(** * Tenant scoping and role gating in the MediSync EHR backend

    A shallow embedding of the four Express routers of the backend
    (patients, appointments, staff, doctors) over an explicit model of the
    document store, followed by the properties of tenant isolation, role
    gating, pagination and route dispatch that the routers have.

    Layout of the development:
    - [Js]      : the ECMAScript primitives the handlers call
                  ([parseInt], [||], [trim]);
    - [Mongo]   : values, documents and the three schema files;
    - [Env]     : what is taken as given (the two schema files that are
                  not among the sources, and library functions whose
                  results are not computed here);
    - [Odm]     : casting, validation and the collection operations the
                  handlers call ([save], [findOne], [findOneAndUpdate],
                  [findOneAndDelete], [find], [countDocuments],
                  [populate]);
    - [Express] : requests, responses, middleware, route matching;
    - one module per router, each handler transcribed from its source;
    - [Api]     : the routers side by side;
    - [Sample]  : a concrete environment and store to run the routers on;
    - [Cases]   : further requests on the sample stores;
    - the facts and the theorems: tenant isolation, role gating, dispatch,
      creation, updates, deletion and pagination first, then what a
      request may write, what the reads return, the body checks, and the
      enums of the schemas as an invariant.

    Conventions of the model:
    - a handler is a function from the request and the store to a response
      and a store; [await] is sequencing in the monad [M], a rejected
      promise is [Throw], and [try/catch] is [tryCatch];
    - a collection is a finite map from [_id] to document, a document a
      finite map from field name to value; the object spread
      [{ ...body, k: v }] is insertion into the map of the body;
    - strict mode drops the fields a schema does not declare; casting and
      update validation happen before a query is sent, document validation
      before an insert; [timestamps: true] maintains [createdAt] and
      [updatedAt]; the version key is not represented;
    - numbers are integers, times are integers (milliseconds); a string is
      the sequence of the bytes of its UTF-8 encoding. *)

From stdpp Require Import gmap strings list fin_maps sorting pretty.
From Stdlib Require Import ZArith String Ascii.

#[local] Set Warnings "-register-all".
#[local] Open Scope Z_scope.

(* ===================================================================== *)
(** ** ECMAScript primitives                                              *)
(* ===================================================================== *)

Module Js.

(** White space: the characters [parseInt] skips and [trim] removes
    (WhiteSpace and LineTerminator of ECMAScript).  A string is read as
    UTF-8, so a character of white space is one, two or three bytes:
    U+0009 to U+000D and U+0020; U+00A0; U+1680, U+2000 to U+200A, U+2028,
    U+2029, U+202F, U+205F, U+3000 and U+FEFF. *)
Definition isWhite (c : ascii) : bool :=
  let n := N_of_ascii c in
  ((n =? 32) || (n =? 9) || (n =? 10) || (n =? 11) || (n =? 12) || (n =? 13))%N.

Definition isWhite2 (c1 c2 : ascii) : bool :=
  ((N_of_ascii c1 =? 194) && (N_of_ascii c2 =? 160))%N.

Definition isWhite3 (c1 c2 c3 : ascii) : bool :=
  let a := N_of_ascii c1 in
  let b := N_of_ascii c2 in
  let c := N_of_ascii c3 in
  (((a =? 225) && (b =? 154) && (c =? 128))
   || ((a =? 226) && (b =? 128)
       && (((128 <=? c) && (c <=? 138)) || (c =? 168) || (c =? 169)
           || (c =? 175)))
   || ((a =? 226) && (b =? 129) && (c =? 159))
   || ((a =? 227) && (b =? 128) && (c =? 128))
   || ((a =? 239) && (b =? 187) && (c =? 191)))%N.

(** The string without the white space it starts with.  On the reversed
    string ([back]) the bytes of a character come last byte first. *)
Fixpoint strip (back : bool) (s : string) : string :=
  match s with
  | String c1 r1 =>
      if isWhite c1 then strip back r1
      else
        match r1 with
        | String c2 r2 =>
            if (if back then isWhite2 c2 c1 else isWhite2 c1 c2)
            then strip back r2
            else
              match r2 with
              | String c3 r3 =>
                  if (if back then isWhite3 c3 c2 c1 else isWhite3 c1 c2 c3)
                  then strip back r3
                  else s
              | EmptyString => s
              end
        | EmptyString => s
        end
  | EmptyString => EmptyString
  end.

Definition trimStart (s : string) : string := strip false s.

Definition trimEnd (s : string) : string :=
  String.rev (strip true (String.rev s)).

Definition trim (s : string) : string := trimEnd (trimStart s).

(** Letters as the [i] flag of a regular expression compares them with the
    ASCII letters of a pattern: A to Z are folded to a to z, and no other
    character is taken for an ASCII letter. *)
Definition lowerChar (c : ascii) : ascii :=
  let n := N_of_ascii c in
  if ((65 <=? n) && (n <=? 90))%N then ascii_of_N (n + 32) else c.

Fixpoint foldCase (s : string) : string :=
  match s with
  | String c r => String (lowerChar c) (foldCase r)
  | EmptyString => EmptyString
  end.

(** The value of a digit in the given radix, if it is one. *)
Definition digitVal (radix : Z) (c : ascii) : option Z :=
  let n := Z.of_N (N_of_ascii c) in
  let d :=
    if (48 <=? n) && (n <=? 57) then Some (n - 48)
    else if (97 <=? n) && (n <=? 122) then Some (n - 87)
    else if (65 <=? n) && (n <=? 90) then Some (n - 55)
    else None in
  match d with
  | Some v => if v <? radix then Some v else None
  | None => None
  end.

(** Longest prefix of digits; [None] when there is no digit at all. *)
Fixpoint digits (radix : Z) (s : string) (acc : option Z) : option Z :=
  match s with
  | String c r =>
      match digitVal radix c with
      | Some d => digits radix r (Some (radix * default 0 acc + d))
      | None => acc
      end
  | EmptyString => acc
  end.

(** [parseInt(s)] with no radix argument; [None] stands for NaN.
    An absent query parameter is [parseInt(undefined)], NaN as well.
    The result is the integer the digits denote, which is the number
    [parseInt] returns as long as it lies within 2^53 in absolute value;
    beyond that a number is rounded, and a statement about the value
    assumes the bound. *)
Definition parseInt (s : string) : option Z :=
  let s1 := trimStart s in
  let '(neg, s2) :=
    match s1 with
    | String "-"%char r => (true, r)
    | String "+"%char r => (false, r)
    | _ => (false, s1)
    end in
  let '(radix, s3) :=
    match s2 with
    | String "0"%char (String "x"%char r) => (16, r)
    | String "0"%char (String "X"%char r) => (16, r)
    | _ => (10, s2)
    end in
  match digits radix s3 None with
  | Some n => Some (if neg : bool then - n else n)
  | None => None
  end.

Definition parseIntOpt (o : option string) : option Z :=
  match o with Some s => parseInt s | None => None end.

(** [n || d] on numbers: NaN and 0 are falsy. *)
Definition orElse (n : option Z) (d : Z) : Z :=
  match n with
  | Some 0 => d
  | Some v => v
  | None => d
  end.

(** Truthiness of an optional string ([undefined] and [''] are falsy). *)
Definition truthy (o : option string) : bool :=
  match o with
  | Some EmptyString => false
  | Some _ => true
  | None => false
  end.

(** [Math.ceil(a / b)] for [b <> 0]. *)
Definition ceilDiv (a b : Z) : Z := - ((- a) / b).

End Js.

(* ===================================================================== *)
(** ** Documents and schemas                                              *)
(* ===================================================================== *)

Module Mongo.

(** Values held by request bodies and stored documents.  Numbers are
    integers; [VDate] is a time in milliseconds; [VId] is an ObjectId,
    read as the number its 24 hexadecimal digits denote. *)
Inductive value :=
  | VNull
  | VBool (b : bool)
  | VNum (z : Z)
  | VStr (s : string)
  | VDate (t : Z)
  | VId (o : N)
  | VArr (l : list value)
  | VObj (m : gmap string value).

(** A JS object used as a record: field name to value. *)
Abbreviation doc := (gmap string value).

(** A collection: documents by [_id].  The [_id] is the key and is not
    repeated inside the document. *)
Abbreviation collection := (gmap N doc).

Abbreviation entry := (N * doc)%type.

Inductive SchemaType :=
  | TString | TNumber | TDate | TObjectId | TMixed
  | TArray (t : SchemaType)          (* [t] *)
  | TNested (name : string).         (* a nested object, named by its path *)

Inductive Default :=
  | NoDefault
  | DefaultValue (v : value)
  | DefaultNow.                      (* default: Date.now *)

(** The options of one schema path.  The sub-paths of a nested object are
    not listed: what they do to a value is taken from [Env], under the
    name of the nested object. *)
Record Path := mkPath {
  ptype : SchemaType;
  required : bool;
  enum : option (list string);
  pdefault : Default;
  ptrim : bool;
  plowercase : bool;
  unique : bool;
  pmin : option Z;
  pmax : option Z
}.

Record Schema := mkSchema {
  paths : gmap string Path;
  timestamps : bool
}.

(** Path declarations as the schema files write them. *)
Definition path (t : SchemaType) : Path :=
  mkPath t false None NoDefault false false false None None.
Definition req (p : Path) : Path :=
  mkPath (ptype p) true (enum p) (pdefault p) (ptrim p) (plowercase p)
         (unique p) (pmin p) (pmax p).
Definition withEnum (l : list string) (p : Path) : Path :=
  mkPath (ptype p) (required p) (Some l) (pdefault p) (ptrim p)
         (plowercase p) (unique p) (pmin p) (pmax p).
Definition withDefault (d : Default) (p : Path) : Path :=
  mkPath (ptype p) (required p) (enum p) d (ptrim p) (plowercase p)
         (unique p) (pmin p) (pmax p).
Definition trimmed (p : Path) : Path :=
  mkPath (ptype p) (required p) (enum p) (pdefault p) true (plowercase p)
         (unique p) (pmin p) (pmax p).
Definition lowercased (p : Path) : Path :=
  mkPath (ptype p) (required p) (enum p) (pdefault p) (ptrim p) true
         (unique p) (pmin p) (pmax p).
Definition uniq (p : Path) : Path :=
  mkPath (ptype p) (required p) (enum p) (pdefault p) (ptrim p)
         (plowercase p) true (pmin p) (pmax p).
Definition bounded (lo hi : Z) (p : Path) : Path :=
  mkPath (ptype p) (required p) (enum p) (pdefault p) (ptrim p)
         (plowercase p) (unique p) (Some lo) (Some hi).

(** [hospitalId: { type: String, required: true }], the declaration the
    three schema files under models/ share. *)
Definition hospitalIdPath : Path := req (path TString).

(** A String path without setters stores the string it is given. *)
Definition plainString (p : Path) : bool :=
  match ptype p with
  | TString => negb (ptrim p) && negb (plowercase p)
  | _ => false
  end.

(** A path that holds a nested object. *)
Definition isNested (p : Path) : bool :=
  match ptype p with
  | TNested _ => true
  | _ => false
  end.

(** An ObjectId given as a string: exactly 24 hexadecimal digits. *)
Fixpoint hexValue (s : string) (acc : N) : option N :=
  match s with
  | String c r =>
      match Js.digitVal 16 c with
      | Some d => hexValue r (16 * acc + Z.to_N d)%N
      | None => None
      end
  | EmptyString => Some acc
  end.

Definition castObjectId (s : string) : option N :=
  if (String.length s =? 24)%nat then hexValue s 0%N else None.

(** models/Appointment.js *)
Definition appointmentStatuses : list string :=
  ["Scheduled"; "Confirmed"; "Completed"; "Cancelled"; "No-Show"]%string.

Definition appointmentSchema : Schema :=
  mkSchema (list_to_map [
    ("hospitalId", req (path TString));
    ("patientId", req (path TObjectId));
    ("doctorId", req (path TObjectId));
    ("appointmentDate", req (path TDate));
    ("appointmentTime", req (path TString));
    ("duration", withDefault (DefaultValue (VNum 30)) (path TNumber));
    ("department", path TString);
    ("reason", req (path TString));
    ("type", withDefault (DefaultValue (VStr "In-Person"))
               (withEnum ["In-Person"; "Virtual"] (path TString)));
    ("status", withDefault (DefaultValue (VStr "Scheduled"))
                 (withEnum appointmentStatuses (path TString)));
    ("location", path TString);
    ("notes", path TString);
    ("createdBy", req (path TObjectId))
  ]%string) true.

(** models/Staff.js *)
Definition staffDepartments : list string :=
  ["Administration"; "Nursing"; "Laboratory"; "Pharmacy"; "Radiology";
   "Reception"; "Billing"; "IT Support"; "Maintenance"; "Security";
   "Human Resources"; "Other"]%string.

Definition staffSchema : Schema :=
  mkSchema (list_to_map [
    ("userId", req (path TObjectId));
    ("employeeId", uniq (req (path TString)));
    ("firstName", trimmed (req (path TString)));
    ("lastName", trimmed (req (path TString)));
    ("department", withEnum staffDepartments (req (path TString)));
    ("role", req (path TString));
    ("phone", req (path TString));
    ("email", lowercased (req (path TString)));
    ("address", path (TNested "Staff.address"));
    ("dateOfBirth", path TDate);
    ("gender", req (withEnum ["Male"; "Female"; "Other"] (path TString)));
    ("emergencyContact", path (TNested "Staff.emergencyContact"));
    ("joiningDate", withDefault DefaultNow (req (path TDate)));
    ("salary", req (path TNumber));
    ("workSchedule", path (TNested "Staff.workSchedule"));
    ("qualifications", withDefault (DefaultValue (VArr [])) (path (TArray TString)));
    ("certifications", withDefault (DefaultValue (VArr [])) (path (TArray TString)));
    ("status", withDefault (DefaultValue (VStr "active"))
                 (withEnum ["active"; "inactive"; "on-leave"] (path TString)));
    ("hospitalId", req (path TString));
    ("notes", path TString)
  ]%string) true.

(** models/Doctor.js *)
Definition doctorSchema : Schema :=
  mkSchema (list_to_map [
    ("userId", req (path TObjectId));
    ("hospitalId", req (path TString));
    ("licenseNumber", path TString);
    ("specialization", path TString);
    ("department", path TString);
    ("experience", path TNumber);
    ("qualifications", withDefault (DefaultValue (VArr [])) (path (TArray TString)));
    ("consultationFee", path TNumber);
    ("availableHours", path (TNested "Doctor.availableHours"));
    ("status", withDefault (DefaultValue (VStr "Available"))
                 (withEnum ["Available"; "Busy"; "Off Duty"] (path TString)));
    ("rating", bounded 0 5 (withDefault (DefaultValue (VNum 0)) (path TNumber)));
    ("totalPatients", withDefault (DefaultValue (VNum 0)) (path TNumber))
  ]%string) true.

End Mongo.
Export Mongo.

(** The authenticated identity a credential decodes to. *)
Record Identity := mkIdentity {
  uid : N;                (* req.user._id *)
  urole : string;         (* req.user.role *)
  utenant : string        (* the tenant identifier carried by the credential *)
}.

(** What the development takes as given: the two schema files that are not
    among the sources, and the library functions whose results are not
    computed here.  No field is constrained beyond what is written. *)
Class Env := {
  (** Modelled from the spec: models/Patient.js.  A domain entity carries a
      tenant identifier field, declared as in the other schema files. *)
  patientSchema : Schema;
  patient_hospitalId :
    paths patientSchema !! "hospitalId"%string = Some hospitalIdPath;
  (** Modelled from the spec: models/User.js.  A user has a role and
      belongs to a tenant. *)
  userSchema : Schema;
  user_hospitalId :
    ∃ p, paths userSchema !! "hospitalId"%string = Some p ∧ plainString p = true;
  user_role :
    ∃ p, paths userSchema !! "role"%string = Some p ∧ plainString p = true;
  (** Verification of a bearer credential (signature, expiry). *)
  verifyToken : string → option Identity;
  (** Messages of the 401 and 403 responses of middleware/auth.js. *)
  unauthenticatedMessage : string;
  forbiddenMessage : string;
  (** The conversions of the ODM between different kinds of value
      (a number given for a String path, a date string for a Date path...);
      [None] is a CastError. *)
  coerce : SchemaType → value → option value;
  (** [String.prototype.toLowerCase], the case mapping of Unicode, which the
      [lowercase] setter of a String path applies. *)
  toLowerCase : string → string;
  (** The nested objects of the schema files (Staff: address,
      emergencyContact, workSchedule; Doctor: availableHours), by name.
      Their sub-paths are cast one by one and have validators of their
      own.  [castNested] is the value an update sets for what its body
      gives ([None] is a CastError); [validNested] are the validators of
      the sub-paths on the values a nested object holds; [newNested] is
      the nested object of a new document, from what the data gives for
      it if anything, with the defaults of the sub-paths filled in
      ([None] is a CastError, [Some None] a nested object that is not
      stored). *)
  castNested : string → value → option value;
  validNested : string → value → bool;
  newNested : string → option value → option (option value);
  (** Whether the enum validator of the installed ODM version accepts null. *)
  enumAcceptsNull : bool;
  (** Updates that are not a plain list of top-level fields (operators such
      as [$set] and [$inc], dotted paths, [_id]), for a schema, the current
      time and the [runValidators] option: [None] when the update is
      rejected before the query is sent, else the effect on the matched
      document, which may itself fail. *)
  operatorUpdate : Schema → Z → bool → doc → option (N → doc → option doc);
  (** [new RegExp(s, 'i')]: [None] is a SyntaxError. *)
  regExp : string → option (string → bool);
  (** [new Date(s)]: [None] is an Invalid Date. *)
  parseDate : string → option Z;
  (** Local-calendar arithmetic on times. *)
  startOfDay : Z → Z;               (* d.setHours(0, 0, 0, 0) *)
  daysBefore : Z → Z → Z;           (* d.setDate(d.getDate() - n) *)
  (** The order in which the store returns documents for a sort
      specification (path, ascending); the empty specification is the
      natural order. *)
  sortDocs : list (string * bool) → list entry → list entry;
  sortDocs_perm : ∀ spec l, sortDocs spec l ≡ₚ l;
  (** express-validator: the string a field value is validated as, the
      length [isLength] compares with its bound (characters, which the
      versions of the library count differently beyond ASCII), and the two
      format checks. *)
  fieldString : value → string;
  validatorLength : string → nat;
  isEmail : string → bool;
  isISO8601 : string → bool
}.

(* ===================================================================== *)
(** ** The store and the collection operations                            *)
(* ===================================================================== *)

Record Store := mkStore {
  patients : collection;
  appointments : collection;
  staff : collection;
  doctors : collection;
  users : collection
}.

Inductive Coll := Patients | Appointments | Staffs | Doctors | Users.

Definition getColl (c : Coll) (s : Store) : collection :=
  match c with
  | Patients => patients s
  | Appointments => appointments s
  | Staffs => staff s
  | Doctors => doctors s
  | Users => users s
  end.

Definition setColl (c : Coll) (x : collection) (s : Store) : Store :=
  match c with
  | Patients => mkStore x (appointments s) (staff s) (doctors s) (users s)
  | Appointments => mkStore (patients s) x (staff s) (doctors s) (users s)
  | Staffs => mkStore (patients s) (appointments s) x (doctors s) (users s)
  | Doctors => mkStore (patients s) (appointments s) (staff s) x (users s)
  | Users => mkStore (patients s) (appointments s) (staff s) (doctors s) x
  end.

(** The result of awaiting a promise: a value, or a rejection that the
    enclosing [try] catches. *)
Inductive outcome (A : Type) :=
  | Ok (a : A)
  | Throw.
Arguments Ok {A} a.
Arguments Throw {A}.

(** Store-passing computations.  A write that happened before a rejection
    stays in the store. *)
Definition M (A : Type) : Type := Store → Store * outcome A.

Definition ret {A} (a : A) : M A := λ s, (s, Ok a).
Definition throw {A} : M A := λ s, (s, Throw).
Definition bind {A B} (m : M A) (k : A → M B) : M B :=
  λ s, match m s with
       | (s', Ok a) => k a s'
       | (s', Throw) => (s', Throw)
       end.
Definition lift {A} (o : option A) : M A :=
  match o with Some a => ret a | None => throw end.

Declare Scope store_scope.
Delimit Scope store_scope with M.
Notation "'let*' x := m 'in' k" :=
  (bind m (λ x, k))
  (at level 10, x pattern, m at level 100, k at level 200) : store_scope.

(** A model: a collection together with its schema. *)
Record Model := mkModel {
  mcoll : Coll;
  mschema : Schema
}.

(** The filter [{ _id, hospitalId }] of the by-identifier operations;
    [findById...] has no tenant condition. *)
Record IdFilter := mkIdFilter {
  f_id : N;
  f_hospitalId : option string
}.

(** The conditions the list queries are built from. *)
Inductive Cond :=
  | CStr (p : string) (s : string)                  (* p: s *)
  | CRef (p : string) (o : N)                       (* p: o, an ObjectId *)
  | CRegexAny (ps : list string) (re : string → bool) (* $or: [{p: re}...] *)
  | CDateBetween (p : string) (lo hi : Z)           (* p: { $gte, $lte } *)
  | CDateGte (p : string) (lo : Z)                  (* p: { $gte } *)
  | CStrIn (p : string) (l : list string).          (* p: { $in } *)

Module Odm.
Section Ops.
Context `{E : Env}.

Definition Patient : Model := mkModel Patients patientSchema.
Definition Appointment : Model := mkModel Appointments appointmentSchema.
Definition Staff : Model := mkModel Staffs staffSchema.
Definition Doctor : Model := mkModel Doctors doctorSchema.
Definition User : Model := mkModel Users userSchema.

(** *** Casting *)

(** A value given for a path that is neither an array nor a nested
    object. *)
Definition castScalar (t : SchemaType) (v : value) : option value :=
  match t, v with
  | _, VNull => Some VNull
  | TString, VStr _ => Some v
  | TNumber, VNum _ => Some v
  | TDate, VDate _ => Some v
  | TObjectId, VId _ => Some v
  | TObjectId, VStr s =>
    match castObjectId s with
    | Some o => Some (VId o)
    | None => coerce t v
    end
  | TMixed, _ => Some v
  | _, _ => coerce t v
  end.

(** The elements of an array are cast one by one, and one that does not
    cast fails the array. *)
Fixpoint castType (t : SchemaType) (v : value) : option value :=
  match t, v with
  | TNested n, _ => castNested n v
  | TArray t', VArr l => VArr <$> mapM (castType t') l
  | TArray _, _ => coerce t v
  | _, _ => castScalar t v
  end.

Definition applySetters (p : Path) (v : value) : value :=
  match ptype p, v with
  | TString, VStr s =>
    let s1 := if ptrim p then Js.trim s else s in
    VStr (if plowercase p then toLowerCase s1 else s1)
  | _, _ => v
  end.

Definition castValue (p : Path) (v : value) : option value :=
  applySetters p <$> castType (ptype p) v.

(** The [_id] of a filter, given as the string of the request path. *)
Definition castId (s : string) : option N :=
  match castType TObjectId (VStr s) with
  | Some (VId o) => Some o
  | _ => None
  end.

(** With [timestamps: true] the schema also has the two Date paths. *)
Definition allPaths (sch : Schema) : gmap string Path :=
  if timestamps sch
  then paths sch ∪ {[ "createdAt"%string := path TDate;
                    "updatedAt"%string := path TDate ]}
  else paths sch.

(** Strict mode: fields outside the schema are dropped, the others are
    cast; a field that does not cast makes the whole document fail. *)
Definition castPaths (ps : gmap string Path) (d : doc)
  : gmap string (option value) :=
  merge (λ p v, match p, v with
              | Some p, Some v => Some (castValue p v)
              | _, _ => None
              end) ps d.

Definition castDoc (ps : gmap string Path) (d : doc) : option doc :=
  let c := castPaths ps d in
  if bool_decide (map_Forall (λ _ o, is_Some o) c)
  then Some (omap id c) else None.

Definition defaultOf (now : Z) (p : Path) : option value :=
  match pdefault p with
  | NoDefault => None
  | DefaultValue v => Some v
  | DefaultNow => Some (VDate now)
  end.

Definition isNull (o : option value) : bool :=
  match o with
  | None | Some VNull => true
  | Some _ => false
  end.

(** Timestamps of a new document: [createdAt] is the current time unless
    the data gave one, and [updatedAt] is set to [createdAt]. *)
Definition createdOf (now : Z) (d : doc) : value :=
  if isNull (d !! "createdAt"%string) then VDate now
  else default (VDate now) (d !! "createdAt"%string).

Definition stampNew (sch : Schema) (now : Z) (d : doc) : doc :=
  if timestamps sch
  then <["updatedAt"%string := createdOf now d]>
       (<["createdAt"%string := createdOf now d]> d)
  else d.

(** The paths that are not nested objects. *)
Definition scalarPaths (ps : gmap string Path) : gmap string Path :=
  omap (λ p, if isNested p then None else Some p) ps.

(** The nested objects of a new document, from what the data gives for
    each; one that does not cast makes the whole document fail. *)
Definition nestedPaths (ps : gmap string Path) (data : doc)
  : gmap string (option (option value)) :=
  map_imap (λ k p, match ptype p with
                 | TNested n => Some (newNested n (data !! k))
                 | _ => None
                 end) ps.

Definition nestedOf (ps : gmap string Path) (data : doc) : option doc :=
  let r := nestedPaths ps data in
  if bool_decide (map_Forall (λ _ o, is_Some o) r)
  then Some (omap (λ o : option (option value), o ≫= id) r) else None.

(** [new Model(data)]: the identifier is the one the data carries, else
    the freshly generated [oid]. *)
Definition newDocument (sch : Schema) (oid : N) (now : Z) (data : doc)
  : option entry :=
  match castDoc (scalarPaths (allPaths sch)) data,
        nestedOf (paths sch) data with
  | Some c, Some nd =>
    let d := stampNew sch now
               (nd ∪ c ∪ omap (defaultOf now) (scalarPaths (paths sch))) in
    match data !! "_id"%string with
    | None => Some (oid, d)
    | Some v =>
        match castType TObjectId v with
        | Some (VId o) => Some (o, d)
        | _ => None
        end
    end
  | _, _ => None
  end.

(** *** Validation *)

Definition inEnum (p : Path) (s : string) : bool :=
  match enum p with
  | Some l => bool_decide (s ∈ l)
  | None => true
  end.

Definition inRange (p : Path) (z : Z) : bool :=
  match pmin p with Some lo => lo <=? z | None => true end
  && match pmax p with Some hi => z <=? hi | None => true end.

(** The validators of a path on a value that is set; those of a nested
    object are the validators of its sub-paths. *)
Definition validValue (p : Path) (v : value) : bool :=
  match v with
  | VNull =>
    negb (required p)
    && match enum p with Some _ => enumAcceptsNull | None => true end
  | VStr s => (negb (required p) || negb (String.eqb s EmptyString)) && inEnum p s
  | VNum z => inRange p z
  | VObj _ | VArr _ =>
    match ptype p with
    | TNested n => validNested n v
    | _ => true
    end
  | _ => true
  end.

(** Validation of a whole document before it is inserted. *)
Definition validPath (d : doc) (k : string) (p : Path) : bool :=
  match d !! k with
  | None => negb (required p)
  | Some v => validValue p v
  end.

Definition validate (sch : Schema) (d : doc) : bool :=
  bool_decide (map_Forall (λ k p, validPath d k p = true) (paths sch)).

(** Update validators: only the paths the update sets are checked. *)
Definition validKey (sch : Schema) (k : string) (v : value) : bool :=
  match paths sch !! k with
  | Some p => validValue p v
  | None => true
  end.

Definition validSet (sch : Schema) (upd : doc) : bool :=
  bool_decide (map_Forall (λ k v, validKey sch k v = true) upd).

(** A unique index: another document already holds the string. *)
Definition holds (k : string) (s : string) (d : doc) : bool :=
  match d !! k with
  | Some (VStr s') => String.eqb s s'
  | _ => false
  end.

Definition clashOn (others : collection) (d : doc) (k : string) (p : Path)
  : bool :=
  unique p
  && match d !! k with
   | Some (VStr s) =>
       existsb (λ e : entry, holds k s e.2) (map_to_list others)
   | _ => false
   end.

Definition uniqueClash (sch : Schema) (others : collection) (d : doc) : bool :=
  existsb (λ kp : string * Path, clashOn others d kp.1 kp.2)
        (map_to_list (paths sch)).

(** *** Writes *)

(** [new Model(data)] followed by [save()]. *)
Definition save (m : Model) (oid : N) (now : Z) (data : doc) : M entry :=
  λ s,
  let c := getColl (mcoll m) s in
  match newDocument (mschema m) oid now data with
  | None => (s, Throw)
  | Some (id, d) =>
      if validate (mschema m) d
         && negb (bool_decide (is_Some (c !! id)))
         && negb (uniqueClash (mschema m) c d)
      then (setColl (mcoll m) (<[id := d]> c) s, Ok (id, d))
      else (s, Throw)
  end.

Definition startsWithDollar (k : string) : bool :=
  match k with
  | String "$"%char _ => true
  | _ => false
  end.

Fixpoint hasDot (k : string) : bool :=
  match k with
  | String c r => Ascii.eqb c "."%char || hasDot r
  | EmptyString => false
  end.

(** An update that names top-level fields only. *)
Definition plainKey (k : string) : bool :=
  negb (startsWithDollar k) && negb (String.eqb k "_id") && negb (hasDot k).

Definition isPlain (body : doc) : bool :=
  bool_decide (map_Forall (λ k (_ : value), plainKey k = true) body).

(** The [$set] a plain update amounts to: strict casting; under
    [timestamps] what the body gives for [createdAt] and [updatedAt] is
    taken out before anything is cast, [createdAt] is left alone and
    [updatedAt] is set to the current time. *)
Definition castSet (sch : Schema) (now : Z) (body : doc) : option doc :=
  if timestamps sch
  then (λ c : doc, <["updatedAt"%string := VDate now]> c)
       <$> castDoc (allPaths sch)
             (delete "updatedAt"%string (delete "createdAt"%string body))
  else castDoc (allPaths sch) body.

(** Casting and update validation happen before the query is sent. *)
Definition prepareUpdate (sch : Schema) (now : Z) (runValidators : bool)
  (body : doc) : option (N → doc → option doc) :=
  if isPlain body then
  match castSet sch now body with
  | None => None
  | Some upd =>
      if negb runValidators || validSet sch upd
      then Some (λ _ old, Some (upd ∪ old))
      else None
  end
  else operatorUpdate sch now runValidators body.

Definition inTenant (h : option string) (d : doc) : bool :=
  match h with
  | None => true
  | Some t => holds "hospitalId" t d
  end.

Definition lookupBy (f : IdFilter) (c : collection) : option doc :=
  match c !! f_id f with
  | Some d => if inTenant (f_hospitalId f) d then Some d else None
  | None => None
  end.

(** [Model.findOne(filter)] *)
Definition findOne (m : Model) (f : IdFilter) : M (option entry) :=
  λ s, (s, Ok ((λ d, (f_id f, d)) <$> lookupBy f (getColl (mcoll m) s))).

(** [Model.findOneAndUpdate(filter, update, { new: true, runValidators })] *)
Definition findOneAndUpdate (m : Model) (f : IdFilter) (now : Z)
  (body : doc) (runValidators : bool) : M (option entry) :=
  λ s,
  let c := getColl (mcoll m) s in
  match prepareUpdate (mschema m) now runValidators body with
  | None => (s, Throw)
  | Some apply =>
      match lookupBy f c with
      | None => (s, Ok None)
      | Some old =>
          match apply (f_id f) old with
          | None => (s, Throw)
          | Some d =>
              if uniqueClash (mschema m) (delete (f_id f) c) d
              then (s, Throw)
              else (setColl (mcoll m) (<[f_id f := d]> c) s,
                    Ok (Some (f_id f, d)))
          end
      end
  end.

(** [Model.findOneAndDelete(filter)] *)
Definition findOneAndDelete (m : Model) (f : IdFilter) : M (option entry) :=
  λ s,
  let c := getColl (mcoll m) s in
  match lookupBy f c with
  | None => (s, Ok None)
  | Some d => (setColl (mcoll m) (delete (f_id f) c) s, Ok (Some (f_id f, d)))
  end.

(** *** Reads *)

Definition strAt (k : string) (d : doc) : option string :=
  match d !! k with
  | Some (VStr s) => Some s
  | _ => None
  end.

Definition dateAt (k : string) (d : doc) : option Z :=
  match d !! k with
  | Some (VDate t) => Some t
  | _ => None
  end.

Definition matches (c : Cond) (d : doc) : bool :=
  match c with
  | CStr p s => holds p s d
  | CRef p o =>
    match d !! p with
    | Some (VId o') => (o =? o')%N
    | _ => false
    end
  | CRegexAny ps re =>
    existsb (λ p, match strAt p d with Some s => re s | None => false end) ps
  | CDateBetween p lo hi =>
    match dateAt p d with Some t => (lo <=? t) && (t <=? hi) | None => false end
  | CDateGte p lo =>
    match dateAt p d with Some t => lo <=? t | None => false end
  | CStrIn p l =>
    match strAt p d with Some s => bool_decide (s ∈ l) | None => false end
  end.

Definition matchesAll (q : list Cond) (e : entry) : bool :=
  forallb (λ c, matches c e.2) q.

(** The documents a query selects, in the order of the sort. *)
Definition selected (m : Model) (q : list Cond) (sort : list (string * bool))
  (s : Store) : list entry :=
  sortDocs sort (List.filter (matchesAll q) (map_to_list (getColl (mcoll m) s))).

(** [.limit(n)]: zero is no limit, and the driver sends a negative limit
    as its absolute value. *)
Definition applyLimit (limit : option Z) (l : list entry) : list entry :=
  match limit with
  | None | Some 0 => l
  | Some n => take (Z.to_nat (Z.abs n)) l
  end.

(** [Model.find(q).sort(sort).skip(skip).limit(limit)]; the store rejects
    a negative skip. *)
Definition find (m : Model) (q : list Cond) (sort : list (string * bool))
  (skip : Z) (limit : option Z) : M (list entry) :=
  λ s,
  if skip <? 0 then (s, Throw)
  else (s, Ok (applyLimit limit (drop (Z.to_nat skip) (selected m q sort s)))).

(** [Model.countDocuments(q)] *)
Definition countDocuments (m : Model) (q : list Cond) : M Z :=
  λ s, (s, Ok (Z.of_nat (List.length (selected m q [] s)))).

(** A document as the response carries it: the identifier and the fields
    of the stored document.  (Paths that the stored document lacks and
    that have a default are not added.) *)
Definition toJSON (e : entry) : value := VObj (<["_id"%string := VId e.1]> e.2).

(** [.populate(path, select)]: the reference is replaced by the selected
    fields of the document it points to, or null when there is none. *)
Definition populate (target : Model) (k : string) (select : list string)
  (e : entry) : M entry :=
  λ s,
  match e.2 !! k with
  | Some (VId o) =>
      let v :=
        match getColl (mcoll target) s !! o with
        | Some r => toJSON (o, filter (λ kv, kv.1 ∈ select) r)
        | None => VNull
        end in
      (s, Ok (e.1, <[k := v]> e.2))
  | _ => (s, Ok e)
  end.

Fixpoint mapM {A B} (f : A → M B) (l : list A) : M (list B) :=
  match l with
  | [] => ret []
  | a :: r => (let* b := f a in let* bs := mapM f r in ret (b :: bs))%M
  end.

End Ops.
End Odm.

(* ===================================================================== *)
(** ** Requests, responses, middleware and routing                        *)
(* ===================================================================== *)

Module Express.

Inductive Method := GET | POST | PUT | DELETE.

Record Request := mkRequest {
  rmethod : Method;
  rpath : list string;              (* the segments of the path below the mount point *)
  rquery : gmap string string;      (* req.query *)
  rbody : doc;                      (* req.body *)
  rtoken : option string;           (* the bearer credential, if any *)
  rtenant : string                  (* the tenant the request was resolved to *)
}.

(** What [auth] attaches to the request. *)
Record Ctx := mkCtx {
  user : Identity;                  (* req.user *)
  hospitalId : string               (* req.hospitalId *)
}.

(** What is known of the moment a request is handled: the clock, and the
    ObjectIds the driver generates for the documents it constructs. *)
Record Ambient := mkAmbient {
  now : Z;
  oid1 : N;
  oid2 : N
}.

Record Pagination := mkPagination {
  page : Z;
  limit : Z;
  total : Z;
  pages : Z
}.

(** [res.status(status).json({ success, message, data, errors, pagination })] *)
Record Response := mkResponse {
  status : Z;
  success : bool;
  message : option string;
  data : option value;
  errors : option (list string);
  pagination : option Pagination
}.

Definition json (st : Z) (ok : bool) (msg : option string) (d : option value)
    : Response :=
  mkResponse st ok msg d None None.

Definition serverError : Response := json 500 false (Some "Server error"%string) None.
Definition notFound (what : string) : Response :=
  json 404 false (Some (what ++ " not found")%string) None.

(** [try { ... } catch (error) { res.status(500).json(...) }] *)
Definition tryCatch (body : M Response) (s : Store) : Response * Store :=
  match body s with
  | (s', Ok r) => (r, s')
  | (s', Throw) => (serverError, s')
  end.

Section Middleware.
Context `{E : Env}.

(** Modelled from the spec: the answers of middleware/auth.js, an
    authentication error (401) and an authorization error (403) in the
    envelope of every response. *)
Definition unauthenticated : Response :=
  json 401 false (Some unauthenticatedMessage) None.
Definition forbidden : Response :=
  json 403 false (Some forbiddenMessage) None.

(** Modelled from the spec: [auth] of middleware/auth.js.  The bearer
    credential is verified and decoded; an absent or invalid one is an
    authentication error; a credential minted for another tenant than
    the one the request was resolved to is an authorization error; on
    success the identity and its tenant are attached to the request. *)
Definition auth (r : Request) : Response + Ctx :=
  match rtoken r with
  | None => inl unauthenticated
  | Some t =>
      match verifyToken t with
      | None => inl unauthenticated
      | Some u =>
          if String.eqb (utenant u) (rtenant r)
          then inr (mkCtx u (utenant u))
          else inl forbidden
      end
  end.

(** Modelled from the spec: [authorize(...roles)] of middleware/auth.js.
    The authenticated role is compared against the permitted set; the
    request proceeds only on membership, otherwise it fails with a
    permission-denied error. *)
Definition authorize (roles : list string) (c : Ctx) : option Response :=
  if bool_decide (urole (user c) ∈ roles) then None
  else Some forbidden.

End Middleware.

(** *** Route matching *)

Inductive Segment :=
  | Lit (s : string)                (* a literal segment, matched without regard to case *)
  | Param (name : string).          (* :name, any one segment *)

Fixpoint matchPath (pat : list Segment) (p : list string)
    : option (gmap string string) :=
  match pat, p with
  | [], [] => Some ∅
  | Lit s :: pat', x :: p' =>
      if String.eqb (Js.foldCase s) (Js.foldCase x)
      then matchPath pat' p' else None
  | Param n :: pat', x :: p' => <[n := x]> <$> matchPath pat' p'
  | _, _ => None
  end.

(** *** Body checks (express-validator) *)

Inductive Test :=
  | IsLength (min : nat)
  | IsEmail
  | NotEmpty
  | IsISO8601
  | IsIn (l : list string).

(** [body(field).trim()?.test().withMessage(msg)] *)
Record Check := mkCheck {
  field : string;
  sanitizeTrim : bool;
  test : Test;
  msg : string
}.

(** A registered route: [router.METHOD(path, [auth, authorize(...roles),
    ...checks], handler)], the handler being named by a label of the
    router. *)
Record Route (L : Type) := mkRoute {
  method : Method;
  pattern : list Segment;
  roles : option (list string);     (* the roles of [authorize], when the route has one *)
  checks : list Check;
  label : L
}.
Arguments mkRoute {L}.
Arguments method {L}.
Arguments pattern {L}.
Arguments roles {L}.
Arguments checks {L}.
Arguments label {L}.

Definition methodEq (a b : Method) : bool :=
  match a, b with
  | GET, GET | POST, POST | PUT, PUT | DELETE, DELETE => true
  | _, _ => false
  end.

(** The first registered route whose method and path match, with the
    parameters the path binds.  No handler passes the request on, so no
    later route is tried. *)
Fixpoint dispatch {L} (router : list (Route L)) (m : Method) (p : list string)
    : option (Route L * gmap string string) :=
  match router with
  | [] => None
  | r :: rest =>
      if methodEq (method r) m then
        match matchPath (pattern r) p with
        | Some ps => Some (r, ps)
        | None => dispatch rest m p
        end
      else dispatch rest m p
  end.

(** A handler receives the request, what [auth] attached to it, the
    parameters of the path and the errors the body checks recorded, and
    answers. *)
Definition Handler : Type :=
  Request → Ctx → gmap string string → list string → Ambient → Store
  → Response * Store.

Definition param (ps : gmap string string) (n : string) : string :=
  default EmptyString (ps !! n).

Section Run.
Context `{E : Env}.

(** The string a check looks at: the empty string for an absent field. *)
Definition asString (o : option value) : string :=
  match o with
  | None => EmptyString
  | Some (VStr s) => s
  | Some v => fieldString v
  end.

Definition passes (t : Test) (s : string) : bool :=
  match t with
  | IsLength n => bool_decide (n ≤ validatorLength s)%nat
  | IsEmail => isEmail s
  | NotEmpty => negb (String.eqb s EmptyString)
  | IsISO8601 => isISO8601 s
  | IsIn l => bool_decide (s ∈ l)
  end.

(** One check: the sanitized value is written back to the body, and a
    failed test records its message. *)
Definition runCheck (c : Check) (st : doc * list string) : doc * list string :=
  let '(b, errs) := st in
  let raw := asString (b !! field c) in
  let v := if sanitizeTrim c then Js.trim raw else raw in
  let b' := if sanitizeTrim c then <[field c := VStr v]> b else b in
  (b', if passes (test c) v then errs else errs ++ [msg c]).

Definition runChecks (cs : list Check) (b : doc) : doc * list string :=
  fold_left (λ st c, runCheck c st) cs (b, []).

Definition withBody (q : Request) (b : doc) : Request :=
  mkRequest (rmethod q) (rpath q) (rquery q) b (rtoken q) (rtenant q).

(** The chain of a route: [auth], then [authorize] when present, then
    the body checks, then the handler.  A middleware that answers ends
    the chain. *)
Definition runRoute {L} (handlers : L → Handler) (r : Route L)
    (ps : gmap string string) (q : Request) (a : Ambient) (s : Store)
    : Response * Store :=
  match auth q with
  | inl resp => (resp, s)
  | inr c =>
      match from_option (λ rs, authorize rs c) None (roles r) with
      | Some resp => (resp, s)
      | None =>
          let '(b, errs) := runChecks (checks r) (rbody q) in
          handlers (label r) (withBody q b) c ps errs a s
      end
  end.

(** A router; [None] when no route matches and the request goes on to
    whatever the application mounts next. *)
Definition handle {L} (router : list (Route L)) (handlers : L → Handler)
    (q : Request) (a : Ambient) (s : Store) : option (Response * Store) :=
  match dispatch router (rmethod q) (rpath q) with
  | Some (r, ps) => Some (runRoute handlers r ps q a s)
  | None => None
  end.

End Run.

End Express.
Export Express.

(** The roles as the routes name them. *)
Definition doctor : string := "doctor".
Definition hospitalOwner : string := "hospitalOwner".
Definition staffRole : string := "staff".

Definition ok (st : Z) (msg : option string) (d : option value) : Response :=
  json st true msg d.

(* ===================================================================== *)
(** ** routes/patients.js                                                 *)
(* ===================================================================== *)

Module PatientsRouter.

Inductive Label :=
  | ListPatients | GetPatient | CreatePatient | UpdatePatient
  | DeletePatient | RecentPatients.

Section Handlers.
Context `{E : Env}.
Import Odm.

(** The [query] object of the list route: the tenant, then the search
    and status filters the request asks for. *)
Definition listQuery (q : Request) (c : Ctx) : M (list Cond) :=
  (let query := [CStr "hospitalId" (hospitalId c)] in
   let* query :=
     (if Js.truthy (rquery q !! "search") then
        let* searchRegex := lift (regExp (param (rquery q) "search")) in
        ret (query ++ [CRegexAny ["firstName"; "lastName"; "email"; "phone"]
                                 searchRegex])%list
      else ret query) in
   ret (if Js.truthy (rquery q !! "status")
        then (query ++ [CStr "status" (param (rquery q) "status")])%list
        else query))%M%string.

(** GET /api/patients *)
Definition listPatients : Handler := λ q c ps errs a,
  tryCatch (
    let page := Js.orElse (Js.parseIntOpt (rquery q !! "page")) 1 in
    let limit := Js.orElse (Js.parseIntOpt (rquery q !! "limit")) 10 in
    let skip := (page - 1) * limit in
    let* query := listQuery q c in
    let* patients :=
      find Patient query [("createdAt", false)] skip (Some limit) in
    let* total := countDocuments Patient query in
    ret (mkResponse 200 true None (Some (VArr (toJSON <$> patients))) None
           (Some (mkPagination page limit total (Js.ceilDiv total limit))))
  )%M%string.

(** GET /api/patients/:id *)
Definition getPatient : Handler := λ q c ps errs a,
  tryCatch (
    let* id := lift (castId (param ps "id")) in
    let* patient := findOne Patient (mkIdFilter id (Some (hospitalId c))) in
    match patient with
    | None => ret (notFound "Patient")
    | Some e => ret (ok 200 None (Some (toJSON e)))
    end
  )%M%string.

(** POST /api/patients *)
Definition createPatient : Handler := λ q c ps errs a,
  tryCatch (
    match errs with
    | _ :: _ =>
        ret (mkResponse 400 false (Some "Validation errors") None
               (Some errs) None)
    | [] =>
        let patientData :=
          <["hospitalId" := VStr (hospitalId c)]> (rbody q) in
        let* patient := save Patient (oid1 a) (now a) patientData in
        ret (ok 201 (Some "Patient created successfully")
               (Some (toJSON patient)))
    end
  )%M%string.

(** PUT /api/patients/:id *)
Definition updatePatient : Handler := λ q c ps errs a,
  tryCatch (
    let* id := lift (castId (param ps "id")) in
    let* patient :=
      findOneAndUpdate Patient (mkIdFilter id (Some (hospitalId c)))
        (now a) (rbody q) true in
    match patient with
    | None => ret (notFound "Patient")
    | Some e =>
        ret (ok 200 (Some "Patient updated successfully") (Some (toJSON e)))
    end
  )%M%string.

(** DELETE /api/patients/:id *)
Definition deletePatient : Handler := λ q c ps errs a,
  tryCatch (
    let* id := lift (castId (param ps "id")) in
    let* patient :=
      findOneAndDelete Patient (mkIdFilter id (Some (hospitalId c))) in
    match patient with
    | None => ret (notFound "Patient")
    | Some _ => ret (ok 200 (Some "Patient deleted successfully") None)
    end
  )%M%string.

(** GET /api/patients/recent *)
Definition recentPatients : Handler := λ q c ps errs a,
  tryCatch (
    let oneWeekAgo := daysBefore (now a) 7 in
    let* recent :=
      find Patient [CStr "hospitalId" (hospitalId c);
                    CDateGte "lastVisit" oneWeekAgo]
           [("lastVisit", false)] 0 None in
    ret (ok 200 None (Some (VArr (toJSON <$> recent))))
  )%M%string.

Definition handlers (l : Label) : Handler :=
  match l with
  | ListPatients => listPatients
  | GetPatient => getPatient
  | CreatePatient => createPatient
  | UpdatePatient => updatePatient
  | DeletePatient => deletePatient
  | RecentPatients => recentPatients
  end.

End Handlers.

Definition createChecks : list Check := [
  mkCheck "firstName" true (IsLength 2) "First name must be at least 2 characters";
  mkCheck "lastName" true (IsLength 2) "Last name must be at least 2 characters";
  mkCheck "email" false IsEmail "Please provide a valid email";
  mkCheck "phone" false NotEmpty "Phone number is required";
  mkCheck "dateOfBirth" false IsISO8601 "Please provide a valid date of birth";
  mkCheck "gender" false (IsIn ["Male"; "Female"; "Other"]) "Invalid gender"
]%string.

(** The routes in the order the file registers them. *)
Definition router : list (Route Label) := [
  mkRoute GET [] None [] ListPatients;
  mkRoute GET [Param "id"] None [] GetPatient;
  mkRoute POST [] (Some [doctor; hospitalOwner; staffRole]) createChecks
          CreatePatient;
  mkRoute PUT [Param "id"] (Some [doctor; hospitalOwner; staffRole]) []
          UpdatePatient;
  mkRoute DELETE [Param "id"] (Some [hospitalOwner]) [] DeletePatient;
  mkRoute GET [Lit "recent"] None [] RecentPatients
]%string.

End PatientsRouter.

(* ===================================================================== *)
(** ** routes/appointments.js                                             *)
(* ===================================================================== *)

Module AppointmentsRouter.

Inductive Label :=
  | ListAppointments | CreateAppointment | UpdateAppointment
  | CancelAppointment | UpcomingAppointments | DoctorAppointments.

Section Handlers.
Context `{E : Env}.
Import Odm.

Definition populateAll (e : entry) : M entry :=
  (let* e := populate Patient "patientId"
               ["firstName"; "lastName"; "email"; "phone"] e in
   let* e := populate Doctor "doctorId" ["specialization"; "department"] e in
   populate User "createdBy" ["name"] e)%M%string.

(** The [query] object of the list route: the tenant, then the status
    and date-range filters the request asks for. *)
Definition listQuery (q : Request) (c : Ctx) : M (list Cond) :=
  (let query := [CStr "hospitalId" (hospitalId c)] in
   let query :=
     if Js.truthy (rquery q !! "status")
     then (query ++ [CStr "status" (param (rquery q) "status")])%list
     else query in
   if Js.truthy (rquery q !! "startDate")
      && Js.truthy (rquery q !! "endDate") then
     let* lo := lift (parseDate (param (rquery q) "startDate")) in
     let* hi := lift (parseDate (param (rquery q) "endDate")) in
     ret (query ++ [CDateBetween "appointmentDate" lo hi])%list
   else ret query)%M%string.

(** GET /api/appointments *)
Definition listAppointments : Handler := λ q c ps errs a,
  tryCatch (
    let page := Js.orElse (Js.parseIntOpt (rquery q !! "page")) 1 in
    let limit := Js.orElse (Js.parseIntOpt (rquery q !! "limit")) 10 in
    let skip := (page - 1) * limit in
    let* query := listQuery q c in
    let* found :=
      find Appointment query
           [("appointmentDate", true); ("appointmentTime", true)]
           skip (Some limit) in
    let* appointments := mapM populateAll found in
    let* total := countDocuments Appointment query in
    ret (mkResponse 200 true None (Some (VArr (toJSON <$> appointments)))
           None
           (Some (mkPagination page limit total (Js.ceilDiv total limit))))
  )%M%string.

(** POST /api/appointments *)
Definition createAppointment : Handler := λ q c ps errs a,
  tryCatch (
    let appointmentData :=
      <["createdBy" := VId (uid (user c))]>
        (<["hospitalId" := VStr (hospitalId c)]> (rbody q)) in
    let* appointment :=
      save Appointment (oid1 a) (now a) appointmentData in
    let* appointment := populateAll appointment in
    ret (ok 201 (Some "Appointment created successfully")
           (Some (toJSON appointment)))
  )%M%string.

(** PUT /api/appointments/:id *)
Definition updateAppointment : Handler := λ q c ps errs a,
  tryCatch (
    let* id := lift (castId (param ps "id")) in
    let* appointment :=
      findOneAndUpdate Appointment (mkIdFilter id (Some (hospitalId c)))
        (now a) (rbody q) true in
    match appointment with
    | None => ret (notFound "Appointment")
    | Some e =>
        let* e := populateAll e in
        ret (ok 200 (Some "Appointment updated successfully")
               (Some (toJSON e)))
    end
  )%M%string.

(** DELETE /api/appointments/:id *)
Definition cancelAppointment : Handler := λ q c ps errs a,
  tryCatch (
    let* id := lift (castId (param ps "id")) in
    let* appointment :=
      findOneAndUpdate Appointment (mkIdFilter id (Some (hospitalId c)))
        (now a) {[ "status" := VStr "Cancelled" ]} false in
    match appointment with
    | None => ret (notFound "Appointment")
    | Some e =>
        ret (ok 200 (Some "Appointment cancelled successfully")
               (Some (toJSON e)))
    end
  )%M%string.

(** GET /api/appointments/upcoming *)
Definition upcomingAppointments : Handler := λ q c ps errs a,
  tryCatch (
    let today := startOfDay (now a) in
    let* found :=
      find Appointment
           [CStr "hospitalId" (hospitalId c);
            CDateGte "appointmentDate" today;
            CStrIn "status" ["Scheduled"; "Confirmed"]]
           [("appointmentDate", true); ("appointmentTime", true)]
           0 (Some 10) in
    let* upcoming :=
      mapM (λ e,
              let* e := populate Patient "patientId"
                          ["firstName"; "lastName"; "email"; "phone"] e in
              populate Doctor "doctorId" ["specialization"; "department"] e)
           found in
    ret (ok 200 None (Some (VArr (toJSON <$> upcoming))))
  )%M%string.

(** GET /api/appointments/doctor/:doctorId *)
Definition doctorAppointments : Handler := λ q c ps errs a,
  tryCatch (
    let* doctorId := lift (castId (param ps "doctorId")) in
    let* found :=
      find Appointment
           [CRef "doctorId" doctorId; CStr "hospitalId" (hospitalId c)]
           [("appointmentDate", true); ("appointmentTime", true)]
           0 None in
    let* appointments :=
      mapM (populate Patient "patientId"
              ["firstName"; "lastName"; "email"; "phone"]) found in
    ret (ok 200 None (Some (VArr (toJSON <$> appointments))))
  )%M%string.

Definition handlers (l : Label) : Handler :=
  match l with
  | ListAppointments => listAppointments
  | CreateAppointment => createAppointment
  | UpdateAppointment => updateAppointment
  | CancelAppointment => cancelAppointment
  | UpcomingAppointments => upcomingAppointments
  | DoctorAppointments => doctorAppointments
  end.

End Handlers.

Definition router : list (Route Label) := [
  mkRoute GET [] None [] ListAppointments;
  mkRoute POST [] (Some [doctor; hospitalOwner; staffRole]) []
          CreateAppointment;
  mkRoute PUT [Param "id"] (Some [doctor; hospitalOwner; staffRole]) []
          UpdateAppointment;
  mkRoute DELETE [Param "id"] (Some [doctor; hospitalOwner; staffRole]) []
          CancelAppointment;
  mkRoute GET [Lit "upcoming"] None [] UpcomingAppointments;
  mkRoute GET [Lit "doctor"; Param "doctorId"]
          (Some [doctor; hospitalOwner; staffRole]) [] DoctorAppointments
]%string.

End AppointmentsRouter.

(* ===================================================================== *)
(** ** routes/staff.js                                                    *)
(* ===================================================================== *)

Module StaffRouter.

Inductive Label :=
  | ListStaff | CreateStaff | UpdateStaff | DeactivateStaff | Departments.

(** [{ ...v }]: the own enumerable properties of the value spread. *)
Definition indexed (l : list value) : doc :=
  list_to_map (imap (λ i v, (pretty i, v)) l).

Definition spread (o : option value) : doc :=
  match o with
  | Some (VObj m) => m
  | Some (VArr l) => indexed l
  | Some (VStr s) =>
      indexed ((λ ch, VStr (String ch EmptyString)) <$> list_ascii_of_string s)
  | _ => ∅
  end.

Section Handlers.
Context `{E : Env}.
Import Odm.

Definition populateUser : entry → M entry :=
  populate User "userId" ["email"; "role"; "createdAt"]%string.

(** The [query] object of the list route: the tenant, then the
    department, role and search filters the request asks for. *)
Definition listQuery (q : Request) (c : Ctx) : M (list Cond) :=
  (let query := [CStr "hospitalId" (hospitalId c)] in
   let query :=
     if Js.truthy (rquery q !! "department")
     then (query ++ [CStr "department" (param (rquery q) "department")])%list
     else query in
   let query :=
     if Js.truthy (rquery q !! "role")
     then (query ++ [CStr "role" (param (rquery q) "role")])%list
     else query in
   if Js.truthy (rquery q !! "search") then
     let* searchRegex := lift (regExp (param (rquery q) "search")) in
     ret (query ++ [CRegexAny ["employeeId"; "firstName"; "lastName"]
                              searchRegex])%list
   else ret query)%M%string.

(** GET /api/staff *)
Definition listStaff : Handler := λ q c ps errs a,
  tryCatch (
    let page := Js.orElse (Js.parseIntOpt (rquery q !! "page")) 1 in
    let limit := Js.orElse (Js.parseIntOpt (rquery q !! "limit")) 10 in
    let skip := (page - 1) * limit in
    let* query := listQuery q c in
    let* found :=
      find Staff query [("firstName", true); ("lastName", true)]
           skip (Some limit) in
    let* staff := mapM populateUser found in
    let* total := countDocuments Staff query in
    ret (mkResponse 200 true None (Some (VArr (toJSON <$> staff))) None
           (Some (mkPagination page limit total (Js.ceilDiv total limit))))
  )%M%string.

(** [{ ...userData, role: 'staff', hospitalId: req.hospitalId }] *)
Definition userAccountData (q : Request) (c : Ctx) : doc :=
  let userData := rbody q !! "userData" in
  <["hospitalId" := VStr (hospitalId c)]>
    (<["role" := VStr "staff"]> (spread userData)).

(** [{ ...staffData, userId: user._id, hospitalId: req.hospitalId }] *)
Definition staffProfileData (q : Request) (c : Ctx) (user : entry) : doc :=
  let staffData := rbody q !! "staffData" in
  <["hospitalId" := VStr (hospitalId c)]>
    (<["userId" := VId user.1]> (spread staffData)).

(** POST /api/staff *)
Definition createStaff : Handler := λ q c ps errs a,
  tryCatch (
    (* Create user account first *)
    let* user := save User (oid1 a) (now a) (userAccountData q c) in
    (* Create staff profile *)
    let* staff := save Staff (oid2 a) (now a) (staffProfileData q c user) in
    let* staff := populateUser staff in
    ret (ok 201 (Some "Staff member created successfully")
           (Some (toJSON staff)))
  )%M%string.

(** PUT /api/staff/:id *)
Definition updateStaff : Handler := λ q c ps errs a,
  tryCatch (
    let* id := lift (castId (param ps "id")) in
    let* staff :=
      findOneAndUpdate Staff (mkIdFilter id (Some (hospitalId c)))
        (now a) (rbody q) true in
    match staff with
    | None => ret (notFound "Staff member")
    | Some e =>
        let* e := populateUser e in
        ret (ok 200 (Some "Staff member updated successfully")
               (Some (toJSON e)))
    end
  )%M%string.

(** DELETE /api/staff/:id *)
Definition deactivateStaff : Handler := λ q c ps errs a,
  tryCatch (
    let* id := lift (castId (param ps "id")) in
    let* staff :=
      findOneAndUpdate Staff (mkIdFilter id (Some (hospitalId c)))
        (now a) {[ "status" := VStr "inactive" ]} false in
    match staff with
    | None => ret (notFound "Staff member")
    | Some e =>
        ret (ok 200 (Some "Staff member deactivated successfully")
               (Some (toJSON e)))
    end
  )%M%string.

(** The [$group] stage of the departments pipeline: one document per
    department, counting its members and listing the projected
    fields of each, the groups ordered by department.  A member without
    a department string is grouped under the empty name. *)
Definition member (e : entry) : value :=
  toJSON (e.1, filter (λ kv, kv.1 ∈ ["firstName"; "lastName"; "role";
                                     "employeeId"]%string) e.2).

Definition departmentOf (e : entry) : string :=
  default EmptyString (strAt "department" e.2).

Definition groupOf (l : list entry) (d : string) : value :=
  let ms := List.filter (λ e, String.eqb (departmentOf e) d) l in
  VObj (list_to_map [("_id", VStr d);
                     ("count", VNum (Z.of_nat (List.length ms)));
                     ("staff", VArr (member <$> ms))]%string).

Definition byDepartment (l : list entry) : list value :=
  groupOf l <$> merge_sort (λ x y, String.leb x y)
                  (remove_dups (departmentOf <$> l)).

(** GET /api/staff/departments *)
Definition departments : Handler := λ q c ps errs a,
  tryCatch (
    let* active :=
      find Staff [CStr "hospitalId" (hospitalId c); CStr "status" "active"]
           [] 0 None in
    ret (ok 200 None (Some (VArr (byDepartment active))))
  )%M%string.

Definition handlers (l : Label) : Handler :=
  match l with
  | ListStaff => listStaff
  | CreateStaff => createStaff
  | UpdateStaff => updateStaff
  | DeactivateStaff => deactivateStaff
  | Departments => departments
  end.

End Handlers.

Definition router : list (Route Label) := [
  mkRoute GET [] (Some [hospitalOwner; staffRole]) [] ListStaff;
  mkRoute POST [] (Some [hospitalOwner]) [] CreateStaff;
  mkRoute PUT [Param "id"] (Some [hospitalOwner]) [] UpdateStaff;
  mkRoute DELETE [Param "id"] (Some [hospitalOwner]) [] DeactivateStaff;
  mkRoute GET [Lit "departments"] None [] Departments
]%string.

End StaffRouter.

(* ===================================================================== *)
(** ** routes/doctors.js                                                  *)
(* ===================================================================== *)

Module DoctorsRouter.

Inductive Label :=
  | ListDoctors | GetDoctor | CreateDoctor | UpdateDoctor | AvailableDoctors.

Section Handlers.
Context `{E : Env}.
Import Odm.

Definition populateUser : entry → M entry :=
  populate User "userId" ["name"; "email"; "phone"; "avatar"]%string.

(** GET /api/doctors *)
Definition listDoctors : Handler := λ q c ps errs a,
  tryCatch (
    let* found :=
      find Doctor [CStr "hospitalId" (hospitalId c)]
           [("createdAt", false)] 0 None in
    let* doctors := mapM populateUser found in
    ret (ok 200 None (Some (VArr (toJSON <$> doctors))))
  )%M%string.

(** GET /api/doctors/:id *)
Definition getDoctor : Handler := λ q c ps errs a,
  tryCatch (
    let* id := lift (castId (param ps "id")) in
    let* doctor := findOne Doctor (mkIdFilter id (Some (hospitalId c))) in
    match doctor with
    | None => ret (notFound "Doctor")
    | Some e =>
        let* e := populateUser e in
        ret (ok 200 None (Some (toJSON e)))
    end
  )%M%string.

(** POST /api/doctors *)
Definition createDoctor : Handler := λ q c ps errs a,
  tryCatch (
    let doctorData :=
      <["userId" := VId (uid (user c))]>
        (<["hospitalId" := VStr (hospitalId c)]> (rbody q)) in
    let* doctor := save Doctor (oid1 a) (now a) doctorData in
    (* Update user role to doctor if not already *)
    let* _ :=
      findOneAndUpdate User (mkIdFilter (uid (user c)) None) (now a)
        {[ "role" := VStr "doctor" ]} false in
    ret (ok 201 (Some "Doctor profile created successfully")
           (Some (toJSON doctor)))
  )%M%string.

(** PUT /api/doctors/:id *)
Definition updateDoctor : Handler := λ q c ps errs a,
  tryCatch (
    let* id := lift (castId (param ps "id")) in
    let* doctor :=
      findOneAndUpdate Doctor (mkIdFilter id (Some (hospitalId c)))
        (now a) (rbody q) true in
    match doctor with
    | None => ret (notFound "Doctor")
    | Some e =>
        let* e := populateUser e in
        ret (ok 200 (Some "Doctor updated successfully") (Some (toJSON e)))
    end
  )%M%string.

(** GET /api/doctors/available *)
Definition availableDoctors : Handler := λ q c ps errs a,
  tryCatch (
    let* found :=
      find Doctor [CStr "hospitalId" (hospitalId c);
                   CStr "status" "Available"] [] 0 None in
    let* available := mapM populateUser found in
    ret (ok 200 None (Some (VArr (toJSON <$> available))))
  )%M%string.

Definition handlers (l : Label) : Handler :=
  match l with
  | ListDoctors => listDoctors
  | GetDoctor => getDoctor
  | CreateDoctor => createDoctor
  | UpdateDoctor => updateDoctor
  | AvailableDoctors => availableDoctors
  end.

End Handlers.

Definition router : list (Route Label) := [
  mkRoute GET [] None [] ListDoctors;
  mkRoute GET [Param "id"] None [] GetDoctor;
  mkRoute POST [] (Some [hospitalOwner; doctor]) [] CreateDoctor;
  mkRoute PUT [Param "id"] (Some [hospitalOwner; doctor]) [] UpdateDoctor;
  mkRoute GET [Lit "available"] None [] AvailableDoctors
]%string.

End DoctorsRouter.

(* ===================================================================== *)
(** ** The four routers side by side                                      *)
(* ===================================================================== *)

Module Api.

(** /api/patients, /api/appointments, /api/staff, /api/doctors *)
Inductive Resource := RPatients | RAppointments | RStaff | RDoctors.

(** The collection a resource keeps its records in. *)
Definition collOf (r : Resource) : Coll :=
  match r with
  | RPatients => Patients
  | RAppointments => Appointments
  | RStaff => Staffs
  | RDoctors => Doctors
  end.

(** The name a resource has in its not-found message. *)
Definition nameOf (r : Resource) : string :=
  match r with
  | RPatients => "Patient"
  | RAppointments => "Appointment"
  | RStaff => "Staff member"
  | RDoctors => "Doctor"
  end.

(** The roles of the route a request is dispatched to: [None] when no
    route of the router matches, [Some None] when the route has no
    [authorize]. *)
Definition rolesOf (r : Resource) (m : Method) (p : list string)
    : option (option (list string)) :=
  match r with
  | RPatients => (λ x, roles x.1) <$> dispatch PatientsRouter.router m p
  | RAppointments => (λ x, roles x.1) <$> dispatch AppointmentsRouter.router m p
  | RStaff => (λ x, roles x.1) <$> dispatch StaffRouter.router m p
  | RDoctors => (λ x, roles x.1) <$> dispatch DoctorsRouter.router m p
  end.

Section Run.
Context `{E : Env}.

Definition schemaOf (r : Resource) : Schema :=
  match r with
  | RPatients => patientSchema
  | RAppointments => appointmentSchema
  | RStaff => staffSchema
  | RDoctors => doctorSchema
  end.

Definition modelOf (r : Resource) : Model :=
  mkModel (collOf r) (schemaOf r).

(** The paginated list routes (GET / of patients, appointments and
    staff) with the query each builds and the sort each asks for. *)
Definition listQuery (r : Resource) : option (Request → Ctx → M (list Cond)) :=
  match r with
  | RPatients => Some PatientsRouter.listQuery
  | RAppointments => Some AppointmentsRouter.listQuery
  | RStaff => Some StaffRouter.listQuery
  | RDoctors => None
  end.

Definition listSort (r : Resource) : list (string * bool) :=
  match r with
  | RPatients => [("createdAt", false)]
  | RAppointments => [("appointmentDate", true); ("appointmentTime", true)]
  | RStaff => [("firstName", true); ("lastName", true)]
  | RDoctors => [("createdAt", false)]
  end%string.

Definition api (r : Resource) (q : Request) (a : Ambient) (s : Store)
    : option (Response * Store) :=
  match r with
  | RPatients => handle PatientsRouter.router PatientsRouter.handlers q a s
  | RAppointments =>
      handle AppointmentsRouter.router AppointmentsRouter.handlers q a s
  | RStaff => handle StaffRouter.router StaffRouter.handlers q a s
  | RDoctors => handle DoctorsRouter.router DoctorsRouter.handlers q a s
  end.

End Run.

End Api.

(* ===================================================================== *)
(** ** Notions the statements use                                         *)
(* ===================================================================== *)

Section Notions.
Context `{E : Env}.
Import Odm Api.

(** Whether the role gate of a route lets a context through. *)
Definition allowed (rs : option (list string)) (c : Ctx) : bool :=
  match rs with
  | None => true
  | Some l => bool_decide (urole (user c) ∈ l)
  end.

(** Whether a PUT body gets past casting and update validation. *)
Definition accepted (r : Resource) (a : Ambient) (body : doc) : bool :=
  bool_decide (is_Some (prepareUpdate (schemaOf r) (now a) true body)).

(** What a by-identifier route answers when its filter selects no
    record: permission denied when the role gate refuses the context,
    a server error when a PUT body is rejected, not found otherwise. *)
Definition missAnswer (r : Resource) (q : Request) (c : Ctx) (a : Ambient)
    (rs : option (list string)) : Response :=
  if allowed rs c then
    if methodEq (rmethod q) PUT && negb (accepted r a (rbody q))
    then serverError
    else notFound (nameOf r)
  else forbidden.

(** A record of the collection stamped with another tenant than [t']. *)
Definition foreign (c : collection) (o : N) (t' : string) : Prop :=
  ∃ d t, c !! o = Some d ∧ d !! "hospitalId"%string = Some (VStr t) ∧ t ≠ t'.

(** A record after its status was set: the status, and [updatedAt]
    refreshed as [timestamps: true] asks. *)
Definition withStatus (st : string) (a : Ambient) (d : doc) : doc :=
  <["updatedAt"%string := VDate (now a)]> (<["status"%string := VStr st]> d).

(** The [$set] of a one-field update. *)
Definition setOf (sch : Schema) (t : Z) (k : string) (v : value) : doc :=
  if timestamps sch
  then <["updatedAt"%string := VDate t]> {[ k := v ]}
  else {[ k := v ]}.

(** A request with one query parameter replaced. *)
Definition withQuery (q : Request) (k v : string) : Request :=
  mkRequest (rmethod q) (rpath q) (<[k := v]> (rquery q)) (rbody q)
            (rtoken q) (rtenant q).

End Notions.

(* ===================================================================== *)
(** ** Notions of the further properties                             *)
(* ===================================================================== *)

Section Frames.
Context `{E : Env}.
Import Odm Api.

(** The second store differs from the first at most in the listed
    collections. *)
Definition touches (cs : list Coll) (s s' : Store) : Prop :=
  ∀ c, c ∉ cs → getColl c s' = getColl c s.

(** A computation all of whose runs, returning or throwing, take the
    store to one related to it by [R]. *)
Definition steps {A} (R : Store → Store → Prop) (m : M A) : Prop :=
  ∀ s s' o, m s = (s', o) → R s s'.

(** Relations that compose along a handler. *)
Definition preorder (R : Store → Store → Prop) : Prop :=
  (∀ s, R s s) ∧ (∀ s1 s2 s3, R s1 s2 → R s2 s3 → R s1 s3).

(** The collections the handlers of a router write to, by method:
    the router's own, and the users for the two creations that also
    write a User. *)
Definition writesOf (r : Resource) (m : Method) : list Coll :=
  match m, r with
  | GET, _ => []
  | POST, RStaff => [Users; Staffs]
  | POST, RDoctors => [Doctors; Users]
  | _, _ => [collOf r]
  end.

(** The collections each handler writes to. *)
Definition patientsWrites (l : PatientsRouter.Label) : list Coll :=
  match l with
  | PatientsRouter.CreatePatient | PatientsRouter.UpdatePatient
  | PatientsRouter.DeletePatient => [Patients]
  | _ => []
  end.

Definition appointmentsWrites (l : AppointmentsRouter.Label) : list Coll :=
  match l with
  | AppointmentsRouter.CreateAppointment
  | AppointmentsRouter.UpdateAppointment
  | AppointmentsRouter.CancelAppointment => [Appointments]
  | _ => []
  end.

Definition staffWrites (l : StaffRouter.Label) : list Coll :=
  match l with
  | StaffRouter.CreateStaff => [Users; Staffs]
  | StaffRouter.UpdateStaff | StaffRouter.DeactivateStaff => [Staffs]
  | _ => []
  end.

Definition doctorsWrites (l : DoctorsRouter.Label) : list Coll :=
  match l with
  | DoctorsRouter.CreateDoctor => [Doctors; Users]
  | DoctorsRouter.UpdateDoctor => [Doctors]
  | _ => []
  end.

End Frames.

(** A property of a response document. *)
Definition prop (k : string) (v : value) : option value :=
  match v with
  | VObj m => m !! k
  | _ => None
  end.

(** The [count] of a group of the departments route. *)
Definition countOf (v : value) : Z :=
  match prop "count" v with
  | Some (VNum n) => n
  | _ => 0
  end.

Definition total (l : list Z) : Z := foldr Z.add 0 l.

Section Reads.
Context `{E : Env}.
Import Odm Api.

(** A document of a response that carries the tenant identifier [t]. *)
Definition ofTenant (t : string) (v : value) : Prop :=
  prop "hospitalId" v = Some (VStr t).

(** The data of a response holds documents of tenant [t] only: the one
    document, or every element of the array. *)
Definition dataOfTenant (t : string) (o : option value) : Prop :=
  match o with
  | Some (VArr l) => Forall (ofTenant t) l
  | Some v => ofTenant t v
  | None => True
  end.

(** The second entry is the first after [populate] on some of the paths
    [ks]: the same identifier, the same fields elsewhere. *)
Definition populated (ks : list string) (e e' : entry) : Prop :=
  e'.1 = e.1 ∧ ∀ j, j ∉ ks → e'.2 !! j = e.2 !! j.

End Reads.

Section Checks.
Context `{E : Env}.



End Checks.

(** The identifier a response document carries. *)
Definition idOf (v : value) : option N :=
  match prop "_id" v with
  | Some (VId o) => Some o
  | _ => None
  end.

Section Invariants.
Context `{E : Env}.
Import Odm.

(** Every string stored at a path with an enum validator is one of the
    values of the enum. *)
Definition enumValid (m : Model) (s : Store) : Prop :=
  ∀ o d k p l st,
    getColl (mcoll m) s !! o = Some d →
    paths (mschema m) !! k = Some p → enum p = Some l →
    d !! k = Some (VStr st) → st ∈ l.

(** The store may have changed, but not so as to break the enums. *)
Definition keepsEnums (m : Model) (s s' : Store) : Prop :=
  enumValid m s → enumValid m s'.

End Invariants.

(** The query parameters of the list routes that filter on the field of
    the same name. *)
Definition listFilters (r : Api.Resource) : list string :=
  match r with
  | Api.RPatients => ["status"]
  | Api.RAppointments => ["status"]
  | Api.RStaff => ["department"; "role"]
  | Api.RDoctors => []
  end%string.

(* ===================================================================== *)
(** ** A concrete environment                                             *)
(* ===================================================================== *)

(** An instance of what is taken as given, to run the routers on concrete
    requests: a Patient and a User schema in the style of the three schema
    files at hand, credentials that spell out the identity they carry, no
    conversion between kinds of value, the case mapping of the ASCII
    letters, nested objects stored as they are given (the work schedule
    of a staff member with the enum and the default of its shift), the
    length of a string in bytes, and the store's natural order for every
    sort. *)
Module Sample.

(** [workSchedule] of models/Staff.js: the shift is one of three and is
    Day by default, the working days are an array. *)
Definition validSchedule (v : value) : bool :=
  match v with
  | VObj m =>
      match m !! "shift"%string with
      | Some (VStr s) => bool_decide (s ∈ ["Day"; "Night"; "Rotating"]%string)
      | _ => true
      end
  | _ => true
  end.

Definition newSchedule (o : option value) : option value :=
  match o with
  | Some (VObj m) =>
      Some (VObj (m ∪ list_to_map [("shift", VStr "Day");
                                   ("workingDays", VArr [])]%string))
  | Some v => Some v
  | None =>
      Some (VObj (list_to_map [("shift", VStr "Day");
                               ("workingDays", VArr [])]%string))
  end.

Definition samplePatientSchema : Schema :=
  mkSchema (list_to_map [
    ("hospitalId", hospitalIdPath);
    ("firstName", trimmed (req (path TString)));
    ("lastName", trimmed (req (path TString)));
    ("email", path TString);
    ("phone", path TString);
    ("dateOfBirth", path TString);
    ("gender", withEnum ["Male"; "Female"; "Other"] (path TString));
    ("status", path TString);
    ("lastVisit", path TDate)
  ]%string) true.

Definition sampleUserSchema : Schema :=
  mkSchema (list_to_map [
    ("name", req (path TString));
    ("email", req (path TString));
    ("password", req (path TString));
    ("role", path TString);
    ("hospitalId", path TString)
  ]%string) true.

(** Credentials of the form role:tenant, all held by user 7. *)
Definition verify (t : string) : option Identity :=
  if String.eqb t "owner:h1" then Some (mkIdentity 7 "hospitalOwner" "h1")
  else if String.eqb t "owner:h2" then Some (mkIdentity 7 "hospitalOwner" "h2")
  else if String.eqb t "doctor:h1" then Some (mkIdentity 7 "doctor" "h1")
  else if String.eqb t "doctor:h2" then Some (mkIdentity 7 "doctor" "h2")
  else if String.eqb t "patient:h2" then Some (mkIdentity 7 "patient" "h2")
  else None.

Definition env : Env := {|
  patientSchema := samplePatientSchema;
  patient_hospitalId := eq_refl;
  userSchema := sampleUserSchema;
  user_hospitalId := ex_intro _ (path TString) (conj eq_refl eq_refl);
  user_role := ex_intro _ (path TString) (conj eq_refl eq_refl);
  verifyToken := verify;
  unauthenticatedMessage := "Not authenticated";
  forbiddenMessage := "Access denied";
  coerce := λ _ _, None;
  toLowerCase := Js.foldCase;
  castNested := λ _ v, Some v;
  validNested := λ n v,
    if String.eqb n "Staff.workSchedule" then validSchedule v else true;
  newNested := λ n v,
    Some (if String.eqb n "Staff.workSchedule" then newSchedule v else v);
  enumAcceptsNull := true;
  operatorUpdate := λ _ _ _ _, None;
  regExp := λ _, None;
  parseDate := λ _, None;
  startOfDay := λ t, t - t `mod` 86400000;
  daysBefore := λ t n, t - n * 86400000;
  sortDocs := λ _ l, l;
  sortDocs_perm := λ _ l, Permutation_refl l;
  fieldString := λ _, EmptyString;
  validatorLength := String.length;
  isEmail := λ s, negb (String.eqb s EmptyString);
  isISO8601 := λ s, negb (String.eqb s EmptyString)
|}.

(** Tenant h1 holds one patient, one appointment (already cancelled) and
    one staff member; user 7 is a hospital owner. *)
Definition hex100 : string := "000000000000000000000064".
Definition hex200 : string := "0000000000000000000000c8".
Definition hex300 : string := "00000000000000000000012c".

Definition ann : doc :=
  list_to_map [("hospitalId", VStr "h1"); ("firstName", VStr "Ann");
               ("lastName", VStr "Lee"); ("createdAt", VDate 10);
               ("updatedAt", VDate 10)]%string.

Definition visit : doc :=
  list_to_map [("hospitalId", VStr "h1"); ("patientId", VId 100);
               ("doctorId", VId 400); ("appointmentDate", VDate 5000);
               ("appointmentTime", VStr "10:00"); ("duration", VNum 30);
               ("reason", VStr "checkup"); ("type", VStr "In-Person");
               ("status", VStr "Cancelled"); ("createdBy", VId 7);
               ("createdAt", VDate 20); ("updatedAt", VDate 30)]%string.

Definition nurse : doc :=
  list_to_map [("hospitalId", VStr "h1"); ("userId", VId 8);
               ("employeeId", VStr "E1"); ("firstName", VStr "Bo");
               ("lastName", VStr "Ng"); ("department", VStr "Nursing");
               ("role", VStr "nurse"); ("phone", VStr "2");
               ("email", VStr "bo@h1"); ("gender", VStr "Other");
               ("joiningDate", VDate 1); ("salary", VNum 10);
               ("status", VStr "active"); ("createdAt", VDate 1);
               ("updatedAt", VDate 1)]%string.

Definition owner : doc :=
  list_to_map [("hospitalId", VStr "h1"); ("name", VStr "Olu");
               ("email", VStr "olu@h1"); ("password", VStr "x");
               ("role", VStr "hospitalOwner")]%string.

Definition store : Store :=
  mkStore {[ 100%N := ann ]} {[ 200%N := visit ]} {[ 300%N := nurse ]} ∅
          {[ 7%N := owner ]}.

Definition ambient : Ambient := mkAmbient 1000 500 501.

(** Request bodies: a patient that names a tenant of its own, a doctor
    profile that names a user of its own, and a staff member whose
    profile is left empty. *)
Definition newPatient : doc :=
  list_to_map [("firstName", VStr " Cy "); ("lastName", VStr "Roe");
               ("email", VStr "cy@x"); ("phone", VStr "3");
               ("dateOfBirth", VStr "2000-01-01"); ("gender", VStr "Male");
               ("hospitalId", VStr "h2")]%string.

Definition newDoctor : doc :=
  list_to_map [("userId", VStr hex300); ("specialization", VStr "ENT");
               ("hospitalId", VStr "h2")]%string.

Definition newStaff : doc :=
  list_to_map [("userData",
                VObj (list_to_map [("name", VStr "Di"); ("email", VStr "di@h1");
                                   ("password", VStr "y")]));
               ("staffData", VObj ∅)]%string.

Definition request (m : Method) (p : list string) (qs : gmap string string)
    (b : doc) (t : string) (tenant : string) : Request :=
  mkRequest m p qs b (Some t) tenant.

(** The sample store after some requests, evaluated once. *)
Definition answer (o : option (Response * Store)) : Response * Store :=
  default (serverError, store) o.

Definition createPatient : Request :=
  request POST [] ∅ newPatient "doctor:h1" "h1".
Definition createdPatient : Response * Store :=
  Eval vm_compute in
    answer (Api.api (E := env) Api.RPatients createPatient ambient store).

Definition deactivateNurse : Request :=
  request DELETE [hex300] ∅ ∅ "owner:h1" "h1".
Definition deactivatedNurse : Response * Store :=
  Eval vm_compute in
    answer (Api.api (E := env) Api.RStaff deactivateNurse ambient store).

Definition createDoctor : Request :=
  request POST [] ∅ newDoctor "owner:h1" "h1".
Definition createdDoctor : Response * Store :=
  Eval vm_compute in
    answer (Api.api (E := env) Api.RDoctors createDoctor ambient store).

(** A store with three patients of tenant h1 and one of tenant h2, and the
    list requests for a page of two. *)
Definition patientOf (tenant name : string) (t : Z) : doc :=
  list_to_map [("hospitalId", VStr tenant); ("firstName", VStr name);
               ("lastName", VStr "Doe"); ("createdAt", VDate t);
               ("updatedAt", VDate t)]%string.

Definition ward : Store :=
  mkStore (list_to_map [(100%N, patientOf "h1" "Ann" 1);
                        (101%N, patientOf "h1" "Ben" 2);
                        (102%N, patientOf "h2" "Cat" 3);
                        (103%N, patientOf "h1" "Dan" 4)])
          ∅ ∅ ∅ ∅.

Definition listPage (p lim : string) : Request :=
  request GET [] (list_to_map [("page", p); ("limit", lim)]%string) ∅
          "doctor:h1" "h1".

Definition confirmVisit : Request :=
  request PUT [hex200] ∅ {[ "status"%string := VStr "Confirmed" ]}
          "doctor:h1" "h1".
Definition confirmedVisit : Response * Store :=
  Eval vm_compute in
    answer (Api.api (E := env) Api.RAppointments confirmVisit ambient store).

Definition createStaff : Request :=
  request POST [] ∅ newStaff "owner:h1" "h1".
Definition ownerCtx : Ctx := mkCtx (mkIdentity 7 "hospitalOwner" "h1") "h1".
Definition savedUser : Store * entry :=
  Eval vm_compute in
    match Odm.save (E := env) (Odm.User (E := env)) 500 1000
            (StaffRouter.userAccountData createStaff ownerCtx) store with
    | (s1, Ok u) => (s1, u)
    | (s1, Throw) => (s1, (0%N, ∅))
    end.

End Sample.

(** Further requests on the sample stores, each run once. *)
Module Cases.
Import Sample.

Definition run (r : Api.Resource) (q : Request) (s : Store)
    : Response * Store :=
  answer (Api.api (E := env) r q ambient s).

(** The array a response carries. *)
Definition docsOf (x : Response * Store) : list value :=
  match data x.1 with
  | Some (VArr l) => l
  | _ => []
  end.

(** The document a response carries. *)
Definition docOf (x : Response * Store) : doc :=
  match data x.1 with
  | Some (VObj m) => m
  | _ => ∅
  end.

Definition doctorH1 : Ctx := mkCtx (mkIdentity 7 "doctor" "h1") "h1".
Definition doctorH2 : Ctx := mkCtx (mkIdentity 7 "doctor" "h2") "h2".
Definition ownerH2 : Ctx := mkCtx (mkIdentity 7 "hospitalOwner" "h2") "h2".

Definition hex500 : string := "0000000000000000000001f4".

(** Reading a patient of tenant h1 as tenant h2. *)
Definition readForeign : Request := request GET [hex100] ∅ ∅ "doctor:h2" "h2".
Definition readForeignRun : Response * Store :=
  Eval vm_compute in run Api.RPatients readForeign store.

(** The second page of two of the ward. *)
Definition wardPage : Response * Store :=
  Eval vm_compute in run Api.RPatients (listPage "2" "2") ward.

(** The staff of the Nursing department. *)
Definition listNursing : Request :=
  request GET [] {[ "department"%string := "Nursing"%string ]} ∅
          "owner:h1" "h1".
Definition nursing : Response * Store :=
  Eval vm_compute in run Api.RStaff listNursing store.

(** The doctors, once the sample doctor was created. *)
Definition listDoctors : Request := request GET [] ∅ ∅ "doctor:h1" "h1".
Definition doctorsListed : Response * Store :=
  Eval vm_compute in run Api.RDoctors listDoctors createdDoctor.2.

Definition listDepartments : Request :=
  request GET ["departments"%string] ∅ ∅ "doctor:h1" "h1".
Definition departmentsListed : Response * Store :=
  Eval vm_compute in run Api.RStaff listDepartments store.

(** Reading the patient that was created, and deleting one. *)
Definition readCreated : Request := request GET [hex500] ∅ ∅ "doctor:h1" "h1".
Definition deleteAnn : Request := request DELETE [hex100] ∅ ∅ "owner:h1" "h1".
Definition deletedAnn : Response * Store :=
  Eval vm_compute in run Api.RPatients deleteAnn store.
Definition readAnn : Request := request GET [hex100] ∅ ∅ "doctor:h1" "h1".

(** A clinic with two appointments to come; the first is cancelled. *)
Definition visitOf (st : string) (t : Z) : doc :=
  list_to_map [("hospitalId", VStr "h1"); ("patientId", VId 100);
               ("doctorId", VId 400); ("appointmentDate", VDate t);
               ("appointmentTime", VStr "10:00"); ("duration", VNum 30);
               ("reason", VStr "checkup"); ("type", VStr "In-Person");
               ("status", VStr st); ("createdBy", VId 7);
               ("createdAt", VDate 20); ("updatedAt", VDate 30)]%string.

Definition hex201 : string := "0000000000000000000000c9".

Definition clinic : Store :=
  mkStore {[ 100%N := ann ]}
          (list_to_map [(200%N, visitOf "Scheduled" 5000);
                        (201%N, visitOf "Confirmed" 6000)])
          ∅ ∅ {[ 7%N := owner ]}.

Definition cancelVisit : Request :=
  request DELETE [hex200] ∅ ∅ "doctor:h1" "h1".
Definition cancelled : Response * Store :=
  Eval vm_compute in run Api.RAppointments cancelVisit clinic.
Definition listUpcoming : Request :=
  request GET ["upcoming"%string] ∅ ∅ "doctor:h1" "h1".
Definition upcoming : Response * Store :=
  Eval vm_compute in run Api.RAppointments listUpcoming cancelled.2.


(** An appointment that names a creator of its own and leaves the status,
    the type and the duration out. *)
Definition newVisit : doc :=
  list_to_map [("patientId", VStr hex100); ("doctorId", VId 400);
               ("appointmentDate", VDate 7000);
               ("appointmentTime", VStr "11:00"); ("reason", VStr "review");
               ("createdBy", VId 9)]%string.
Definition createVisit : Request :=
  request POST [] ∅ newVisit "doctor:h1" "h1".
Definition createdVisit : Response * Store :=
  Eval vm_compute in run Api.RAppointments createVisit store.

(** A staff member with a complete profile, who asks for the role of a
    hospital owner; and one whose employee identifier is taken, hired by
    another tenant. *)
Definition profile (eid : string) : doc :=
  list_to_map [("employeeId", VStr eid); ("firstName", VStr " Al ");
               ("lastName", VStr "Po "); ("department", VStr "Nursing");
               ("role", VStr "nurse"); ("phone", VStr "5");
               ("email", VStr "AL@H1"); ("gender", VStr "Male");
               ("salary", VNum 5); ("userId", VId 9)]%string.

Definition hireBody (eid : string) : doc :=
  list_to_map [("userData",
                VObj (list_to_map [("name", VStr "Al"); ("email", VStr "al@h1");
                                   ("password", VStr "z");
                                   ("role", VStr "hospitalOwner")]));
               ("staffData", VObj (profile eid))]%string.

Definition hire : Request := request POST [] ∅ (hireBody "E2") "owner:h1" "h1".
Definition hired : Response * Store :=
  Eval vm_compute in run Api.RStaff hire store.

Definition hireTaken : Request :=
  request POST [] ∅ (hireBody "E1") "owner:h2" "h2".
Definition hiredTaken : Response * Store :=
  Eval vm_compute in run Api.RStaff hireTaken store.

(** Moving the sample appointment to tenant h2. *)
Definition moveVisit : Request :=
  request PUT [hex200] ∅ {[ "hospitalId"%string := VStr "h2" ]}
          "doctor:h1" "h1".
Definition movedVisit : Response * Store :=
  Eval vm_compute in run Api.RAppointments moveVisit store.

End Cases.

#[local] Arguments String.eqb : simpl never.
#[local] Arguments Js.foldCase : simpl never.

(* ===================================================================== *)
(** ** Facts about casting, lookup and the by-identifier operations       *)
(* ===================================================================== *)

Section Facts.
Context `{E : Env}.
Import Odm Api.

Lemma length_foldCase (s : string) :
  String.length (Js.foldCase s) = String.length s.
Proof.
  induction s as [|ch s IH]; [done|].
  change (S (String.length (Js.foldCase s)) = S (String.length s)).
  by rewrite IH.
Qed.

Lemma castObjectId_length (s : string) (o : N) :
  castObjectId s = Some o → String.length s = 24%nat.
Proof.
  unfold castObjectId. destruct (String.length s =? 24)%nat eqn:Hl; [|done].
  intros _. by apply Nat.eqb_eq.
Qed.

Lemma castId_hex (s : string) (o : N) :
  castObjectId s = Some o → castId s = Some o.
Proof. intros H. unfold castId. simpl. by rewrite H. Qed.

(** An ObjectId string is none of the literal segments of the routers. *)
Lemma eqb_literal (lit s : string) (o : N) :
  castObjectId s = Some o → String.length lit ≠ 24%nat →
  String.eqb (Js.foldCase lit) (Js.foldCase s) = false.
Proof.
  intros Hs Hl. apply String.eqb_neq. intros Heq.
  apply Hl. rewrite <- (length_foldCase lit), Heq, length_foldCase.
  by eapply castObjectId_length.
Qed.

Lemma lookupBy_absent (o : N) (h : option string) (c : collection) :
  c !! o = None → lookupBy (mkIdFilter o h) c = None.
Proof. intros H. unfold lookupBy. simpl. by rewrite H. Qed.

Lemma lookupBy_foreign (o : N) (t' : string) (c : collection) :
  foreign c o t' → lookupBy (mkIdFilter o (Some t')) c = None.
Proof.
  intros (d & t & Hc & Hd & Hne). unfold lookupBy. simpl. rewrite Hc.
  unfold holds. rewrite Hd.
  destruct (String.eqb t' t) eqn:Heq; [|done].
  apply String.eqb_eq in Heq. congruence.
Qed.

(** The by-identifier operations when the filter selects nothing. *)
Lemma findOne_miss (m : Model) (f : IdFilter) (s : Store) :
  lookupBy f (getColl (mcoll m) s) = None →
  findOne m f s = (s, Ok None).
Proof. intros H. unfold findOne. by rewrite H. Qed.

Lemma findOneAndDelete_miss (m : Model) (f : IdFilter) (s : Store) :
  lookupBy f (getColl (mcoll m) s) = None →
  findOneAndDelete m f s = (s, Ok None).
Proof. intros H. unfold findOneAndDelete. by rewrite H. Qed.

Lemma findOneAndUpdate_miss (m : Model) (f : IdFilter) (t : Z) (body : doc)
    (rv : bool) (s : Store) :
  lookupBy f (getColl (mcoll m) s) = None →
  findOneAndUpdate m f t body rv s
  = (s, if bool_decide (is_Some (prepareUpdate (mschema m) t rv body))
        then Ok None else Throw).
Proof.
  intros H. unfold findOneAndUpdate.
  destruct (prepareUpdate (mschema m) t rv body) as [ap|] eqn:Hp.
  - rewrite H. by rewrite bool_decide_eq_true_2.
  - by rewrite bool_decide_eq_false_2; [|intros [? ?]].
Qed.

Lemma param_id (x : string) (ps : gmap string string) :
  param (<["id"%string := x]> ps) "id" = x.
Proof. unfold param. by rewrite lookup_insert_eq. Qed.

(** A by-identifier request whose filter selects nothing: the answer
    does not depend on the store, and the store is left as it was. *)
Lemma by_id_miss (r : Resource) (q : Request) (a : Ambient) (s : Store)
    (c : Ctx) (x : string) (o : N) :
  rpath q = [x] → castObjectId x = Some o → auth q = inr c →
  lookupBy (mkIdFilter o (Some (hospitalId c))) (getColl (collOf r) s) = None →
  api r q a s
  = (λ rs, (missAnswer r q c a rs, s)) <$> rolesOf r (rmethod q) (rpath q).
Proof.
  intros Hp Ho Hauth Hmiss.
  unfold api, rolesOf, handle, missAnswer, accepted. rewrite Hp.
  destruct r, (rmethod q) eqn:Hm; simpl;
    rewrite ?(eqb_literal "upcoming" x o), ?(eqb_literal "doctor" x o),
            ?(eqb_literal "departments" x o) by done; simpl; try done.
  all: unfold runRoute; simpl; rewrite Hauth; simpl.
  all: unfold allowed, authorize; try case_bool_decide; simpl; try done.
  all: unfold PatientsRouter.getPatient, PatientsRouter.updatePatient,
         PatientsRouter.deletePatient, AppointmentsRouter.updateAppointment,
         AppointmentsRouter.cancelAppointment, StaffRouter.updateStaff,
         StaffRouter.deactivateStaff, DoctorsRouter.getDoctor,
         DoctorsRouter.updateDoctor.
  all: unfold tryCatch, bind, lift, ret, throw.
  all: rewrite ?param_id.
  all: rewrite ?(castId_hex _ _ Ho).
  all: rewrite ?findOne_miss, ?findOneAndDelete_miss,
         ?findOneAndUpdate_miss by done.
  all: simpl; try done.
  all: try (case_bool_decide; done).
Qed.

End Facts.

(* ===================================================================== *)
(** ** The primitives and the routers on small inputs                     *)
(* ===================================================================== *)

Example parseInt_values :
  Js.parseInt "2" = Some 2 ∧ Js.parseInt " 12px" = Some 12
  ∧ Js.parseInt "0x1F" = Some 31 ∧ Js.parseInt "-3" = Some (-3)
  ∧ Js.parseInt "0" = Some 0 ∧ Js.parseInt "abc" = None
  ∧ Js.parseInt EmptyString = None.
Proof. repeat split; reflexivity. Qed.

(** White space beyond ASCII: U+00A0 before and U+2009 after are removed
    by [trim] and skipped by [parseInt]; the letter U+00E0, whose second
    byte is that of U+00A0, is kept. *)
Example trim_values :
  Js.trim " Al " = "Al"%string
  ∧ Js.trim (String (ascii_of_N 194) (String (ascii_of_N 160) "Al")
             ++ String (ascii_of_N 226) (String (ascii_of_N 128)
                  (String (ascii_of_N 137) EmptyString)))
    = "Al"%string
  ∧ Js.trim (String (ascii_of_N 195) (String (ascii_of_N 160) EmptyString))
    = String (ascii_of_N 195) (String (ascii_of_N 160) EmptyString)
  ∧ Js.parseInt (String (ascii_of_N 194) (String (ascii_of_N 160) "5"))
    = Some 5.
Proof. repeat split; reflexivity. Qed.

Example page_values :
  Js.orElse (Js.parseIntOpt None) 1 = 1
  ∧ Js.orElse (Js.parseIntOpt (Some "0"%string)) 1 = 1
  ∧ Js.orElse (Js.parseIntOpt (Some "abc"%string)) 1 = 1
  ∧ Js.orElse (Js.parseIntOpt (Some "-3"%string)) 1 = -3.
Proof. repeat split; reflexivity. Qed.

Example ceilDiv_values :
  Js.ceilDiv 25 10 = 3 ∧ Js.ceilDiv 20 10 = 2 ∧ Js.ceilDiv 0 10 = 0.
Proof. repeat split; reflexivity. Qed.

Example castObjectId_values :
  castObjectId Sample.hex100 = Some 100%N ∧ castObjectId "recent" = None
  ∧ castObjectId "available" = None.
Proof. repeat split; reflexivity. Qed.

(** The by-identifier routes the routers do not register. *)
Example unregistered_routes :
  Api.rolesOf Api.RAppointments GET [Sample.hex200] = None
  ∧ Api.rolesOf Api.RStaff GET [Sample.hex300] = None
  ∧ Api.rolesOf Api.RDoctors DELETE [Sample.hex100] = None.
Proof. repeat split; reflexivity. Qed.

(** The role gates of the by-identifier routes. *)
Example registered_routes :
  Api.rolesOf Api.RPatients GET [Sample.hex100] = Some None
  ∧ Api.rolesOf Api.RPatients PUT [Sample.hex100]
    = Some (Some [doctor; hospitalOwner; staffRole])
  ∧ Api.rolesOf Api.RPatients DELETE [Sample.hex100] = Some (Some [hospitalOwner])
  ∧ Api.rolesOf Api.RAppointments DELETE [Sample.hex200]
    = Some (Some [doctor; hospitalOwner; staffRole])
  ∧ Api.rolesOf Api.RStaff DELETE [Sample.hex300] = Some (Some [hospitalOwner])
  ∧ Api.rolesOf Api.RDoctors PUT [Sample.hex100]
    = Some (Some [hospitalOwner; doctor]).
Proof. repeat split; reflexivity. Qed.

(** GET /api/patients/recent reaches the by-identifier handler, where
    'recent' does not cast to an ObjectId. *)
Example recent_is_a_cast_error :
  fst <$> Api.api (E := Sample.env) Api.RPatients
            (Sample.request GET ["recent"%string] ∅ ∅ "doctor:h1" "h1")
            Sample.ambient Sample.store
  = Some serverError.
Proof. vm_compute. reflexivity. Qed.

(** The patient of tenant h1 read by its own tenant and by another. *)
Example read_own_and_foreign :
  status <$> (fst <$> Api.api (E := Sample.env) Api.RPatients
                        (Sample.request GET [Sample.hex100] ∅ ∅ "doctor:h1" "h1")
                        Sample.ambient Sample.store) = Some 200
  ∧ fst <$> Api.api (E := Sample.env) Api.RPatients
              (Sample.request GET [Sample.hex100] ∅ ∅ "doctor:h2" "h2")
              Sample.ambient Sample.store = Some (notFound "Patient").
Proof. split; vm_compute; reflexivity. Qed.

(* ===================================================================== *)
(** ** Tenant isolation of the by-identifier routes                       *)
(* ===================================================================== *)

Section Isolation.
Context `{E : Env}.
Import Api.


(** C6.  For an identifier in the request path, the response when no
    record has it is the response when the record is another tenant's:
    same status, same body. *)
Theorem not_found_indistinguishable (r : Resource) (q : Request)
    (a : Ambient) (s1 s2 : Store) (c : Ctx) (x : string) (o : N) :
  rpath q = [x] → castObjectId x = Some o → auth q = inr c →
  getColl (collOf r) s1 !! o = None →
  foreign (getColl (collOf r) s2) o (hospitalId c) →
  fst <$> api r q a s1 = fst <$> api r q a s2.
Proof.
  intros Hp Ho Hauth H1 H2.
  rewrite (by_id_miss r q a s1 c x o Hp Ho Hauth (lookupBy_absent _ _ _ H1)).
  rewrite (by_id_miss r q a s2 c x o Hp Ho Hauth (lookupBy_foreign _ _ _ H2)).
  by destruct (rolesOf r (rmethod q) (rpath q)).
Qed.

End Isolation.

Lemma sample_ann_foreign :
  foreign (patients Sample.store) 100 "h2".
Proof.
  exists Sample.ann, "h1"%string.
  split; [reflexivity|]. split; [reflexivity | discriminate].
Defined.



(** The other tenant's patient, absent and present. *)
Lemma not_found_indistinguishable_witness :
  let q := Sample.request GET [Sample.hex100] ∅ ∅ "doctor:h2" "h2" in
  fst <$> Api.api (E := Sample.env) Api.RPatients q Sample.ambient
            (mkStore ∅ ∅ ∅ ∅ ∅)
  = fst <$> Api.api (E := Sample.env) Api.RPatients q Sample.ambient Sample.store.
Proof.
  intros q.
  apply (not_found_indistinguishable (E := Sample.env) Api.RPatients q
           Sample.ambient (mkStore ∅ ∅ ∅ ∅ ∅) Sample.store
           (mkCtx (mkIdentity 7 "doctor" "h2") "h2") Sample.hex100 100).
  - reflexivity.
  - reflexivity.
  - reflexivity.
  - reflexivity.
  - exact sample_ann_foreign.
Defined.

(* ===================================================================== *)
(** ** The role gate                                                      *)
(* ===================================================================== *)

Section Gate.
Context `{E : Env}.
Import Api.

Lemma rolesOf_api (r : Resource) (q : Request) (a : Ambient) (s : Store) :
  rolesOf r (rmethod q) (rpath q) = None → api r q a s = None.
Proof.
  unfold rolesOf, api, handle.
  by destruct r; destruct (dispatch _ _ _) as [[? ?]|].
Qed.

(** C5.  On a route guarded by [authorize], a role outside the permitted
    set is answered permission denied and the store is left as it was,
    whatever the handler of the route is: the handler does not run.
    This holds of any route and handler, and so of every guarded route
    of the four routers. *)
Theorem role_gate_rejects (q : Request) (a : Ambient) (s : Store) (c : Ctx)
    (rs : list string) :
  auth q = inr c → urole (user c) ∉ rs →
  (∀ (L : Type) (handlers : L → Handler) (r : Route L)
     (ps : gmap string string),
     roles r = Some rs → runRoute handlers r ps q a s = (forbidden, s))
  ∧ (∀ res : Resource,
       rolesOf res (rmethod q) (rpath q) = Some (Some rs) →
       api res q a s = Some (forbidden, s)).
Proof.
  intros Hauth Hrole.
  assert (Hgen : ∀ (L : Type) (handlers : L → Handler) (r : Route L)
                   (ps : gmap string string),
             roles r = Some rs → runRoute handlers r ps q a s = (forbidden, s)).
  { intros L handlers r ps Hr. unfold runRoute. rewrite Hauth, Hr. simpl.
    unfold authorize. by rewrite bool_decide_eq_false_2. }
  split; [exact Hgen|].
  intros res. unfold rolesOf, api, handle.
  destruct res; destruct (dispatch _ _ _) as [[r ps]|]; simpl; try done;
    intros [= Hr]; by rewrite Hgen.
Qed.

End Gate.

(** A doctor creating a staff member, which only hospital owners may. *)
Lemma role_gate_rejects_witness :
  let q := Sample.request POST [] ∅ ∅ "doctor:h1" "h1" in
  Api.api (E := Sample.env) Api.RStaff q Sample.ambient Sample.store
  = Some (forbidden (E := Sample.env), Sample.store).
Proof.
  intros q.
  destruct (role_gate_rejects (E := Sample.env) q Sample.ambient Sample.store
              (mkCtx (mkIdentity 7 "doctor" "h1") "h1") [hospitalOwner])
    as [_ H].
  - reflexivity.
  - vm_compute. intros H. inversion H as [|? ? ? H']; inversion H'.
  - apply (H Api.RStaff). reflexivity.
Defined.

(* ===================================================================== *)
(** ** Route order                                                        *)
(* ===================================================================== *)

Section Shadowing.
Import PatientsRouter DoctorsRouter.

(** C8.  GET /api/patients/recent and GET /api/doctors/available are
    dispatched to the GET /:id route registered before them, with the
    literal bound as the id; no request at all is dispatched to the
    recent-patients or the available-doctors route. *)
Theorem recent_and_available_shadowed :
  dispatch PatientsRouter.router GET ["recent"%string]
  = Some (mkRoute GET [Param "id"] None [] GetPatient,
          {[ "id"%string := "recent"%string ]})
  ∧ dispatch DoctorsRouter.router GET ["available"%string]
    = Some (mkRoute GET [Param "id"] None [] GetDoctor,
            {[ "id"%string := "available"%string ]})
  ∧ (∀ m p, (λ x, label x.1) <$> dispatch PatientsRouter.router m p
            ≠ Some RecentPatients)
  ∧ (∀ m p, (λ x, label x.1) <$> dispatch DoctorsRouter.router m p
            ≠ Some AvailableDoctors).
Proof.
  split; [reflexivity|]. split; [reflexivity|].
  split; intros m p; destruct m, p as [|x [|y p]]; simpl; try done;
    by destruct (String.eqb _ _).
Qed.

End Shadowing.

(* ===================================================================== *)
(** ** Facts about the monad, casting and the writes                      *)
(* ===================================================================== *)

Section Writes.
Context `{E : Env}.
Import Odm Api.

Lemma tryCatch_ok (body : M Response) (s s' : Store) (resp : Response) :
  tryCatch body s = (resp, s') → status resp ≠ 500 → body s = (s', Ok resp).
Proof.
  unfold tryCatch. destruct (body s) as [s1 [r|]]; intros [= <- <-]; [done|].
  by intros [].
Qed.

Lemma bind_ok {A B} (m : M A) (k : A → M B) (s s' : Store) (b : B) :
  bind m k s = (s', Ok b) → ∃ s1 a, m s = (s1, Ok a) ∧ k a s1 = (s', Ok b).
Proof.
  unfold bind. destruct (m s) as [s1 [a|]]; [|done]. intros H. by exists s1, a.
Qed.

Lemma ret_ok {A} (a b : A) (s s' : Store) :
  ret a s = (s', Ok b) → s' = s ∧ b = a.
Proof. by intros [= <- <-]. Qed.

Lemma castDoc_lookup (ps : gmap string Path) (d c : doc) (k : string) :
  castDoc ps d = Some c →
  c !! k = match ps !! k, d !! k with
           | Some p, Some v => castValue p v
           | _, _ => None
           end.
Proof.
  unfold castDoc. case_bool_decide; [|done]. intros [= <-].
  rewrite lookup_omap. unfold castPaths. rewrite lookup_merge.
  by destruct (ps !! k), (d !! k).
Qed.

Lemma castDoc_lookup_Some (ps : gmap string Path) (d c : doc) (k : string)
    (p : Path) (v : value) :
  castDoc ps d = Some c → ps !! k = Some p → d !! k = Some v →
  ∃ v', castValue p v = Some v' ∧ c !! k = Some v'.
Proof.
  intros Hc Hp Hd. rewrite (castDoc_lookup _ _ _ k Hc), Hp, Hd.
  unfold castDoc in Hc. case_bool_decide as Hall; [|done].
  specialize (Hall k (castValue p v)).
  unfold castPaths in Hall. rewrite lookup_merge, Hp, Hd in Hall.
  destruct (Hall eq_refl) as [v' Hv']. by exists v'.
Qed.

Lemma allPaths_lookup (sch : Schema) (k : string) (p : Path) :
  paths sch !! k = Some p → allPaths sch !! k = Some p.
Proof.
  intros H. unfold allPaths. destruct (timestamps sch); [|done].
  by apply lookup_union_Some_l.
Qed.

Lemma stampNew_lookup (sch : Schema) (t : Z) (d : doc) (k : string) :
  k ≠ "createdAt"%string → k ≠ "updatedAt"%string →
  stampNew sch t d !! k = d !! k.
Proof.
  intros H1 H2. unfold stampNew. destruct (timestamps sch); [|done].
  by rewrite !lookup_insert_ne.
Qed.

Lemma scalarPaths_lookup (ps : gmap string Path) (k : string) (p : Path) :
  ps !! k = Some p → isNested p = false → scalarPaths ps !! k = Some p.
Proof.
  intros Hp Hn. unfold scalarPaths. rewrite lookup_omap, Hp. simpl.
  by rewrite Hn.
Qed.

Lemma scalarPaths_None (ps : gmap string Path) (k : string) :
  ps !! k = None → scalarPaths ps !! k = None.
Proof. intros Hp. unfold scalarPaths. by rewrite lookup_omap, Hp. Qed.

Lemma nestedOf_scalar (ps : gmap string Path) (data nd : doc) (k : string) :
  nestedOf ps data = Some nd →
  (∀ p, ps !! k = Some p → isNested p = false) → nd !! k = None.
Proof.
  unfold nestedOf. case_bool_decide; [|done]. intros [= <-] Hk.
  rewrite lookup_omap. unfold nestedPaths. rewrite map_lookup_imap.
  destruct (ps !! k) as [p|] eqn:Hp; [|done]. simpl.
  specialize (Hk p eq_refl). unfold isNested in Hk.
  by destruct (ptype p).
Qed.

(** A field of a new document outside the nested objects and the
    timestamps: what the data gave for it, cast, else its default. *)
Lemma newDocument_lookup (sch : Schema) (oid : N) (t : Z) (data : doc)
    (e : entry) (k : string) :
  newDocument sch oid t data = Some e →
  k ≠ "createdAt"%string → k ≠ "updatedAt"%string →
  (∀ p, paths sch !! k = Some p → isNested p = false) →
  ∃ c, castDoc (scalarPaths (allPaths sch)) data = Some c
       ∧ e.2 !! k = (c ∪ omap (defaultOf t) (scalarPaths (paths sch))) !! k.
Proof.
  intros Hn H1 H2 Hk. unfold newDocument in Hn.
  destruct (castDoc (scalarPaths (allPaths sch)) data) as [c|] eqn:Hc; [|done].
  destruct (nestedOf (paths sch) data) as [nd|] eqn:Hnd; [|done].
  exists c. split; [done|].
  assert (Hd : stampNew sch t
                 (nd ∪ c ∪ omap (defaultOf t) (scalarPaths (paths sch))) !! k
               = (c ∪ omap (defaultOf t) (scalarPaths (paths sch))) !! k).
  { rewrite stampNew_lookup by done. rewrite <- (assoc_L (∪)).
    apply lookup_union_r. by eapply nestedOf_scalar. }
  destruct (data !! "_id"%string) as [w|]; [|by injection Hn as <-].
  destruct (castType TObjectId w) as [[]|]; try done. by injection Hn as <-.
Qed.

Lemma plainString_scalar (p : Path) :
  plainString p = true → isNested p = false.
Proof. unfold plainString, isNested. by destruct (ptype p). Qed.

(** A field the data gives for a path of the schema is stored as cast. *)
Lemma newDocument_field (sch : Schema) (oid : N) (t : Z) (data : doc)
    (e : entry) (k : string) (p : Path) (v : value) :
  newDocument sch oid t data = Some e →
  paths sch !! k = Some p → data !! k = Some v →
  k ≠ "createdAt"%string → k ≠ "updatedAt"%string → isNested p = false →
  ∃ v', castValue p v = Some v' ∧ e.2 !! k = Some v'.
Proof.
  intros Hn Hp Hd H1 H2 Hnest.
  destruct (newDocument_lookup _ _ _ _ _ k Hn H1 H2) as (c & Hc & Hk).
  { intros p' Hp'. congruence. }
  destruct (castDoc_lookup_Some _ _ _ k p v Hc) as (v' & Hv & Hck);
    [apply scalarPaths_lookup; [by apply allPaths_lookup | done] | done |].
  exists v'. split; [done|]. rewrite Hk. by apply lookup_union_Some_l.
Qed.

Lemma castValue_plain (p : Path) (s : string) :
  plainString p = true → castValue p (VStr s) = Some (VStr s).
Proof.
  unfold plainString, castValue, applySetters.
  destruct (ptype p); try done. simpl.
  by destruct (ptrim p), (plowercase p).
Qed.

Lemma save_ok (m : Model) (oid : N) (t : Z) (data : doc) (s s' : Store)
    (e : entry) :
  save m oid t data s = (s', Ok e) →
  newDocument (mschema m) oid t data = Some e
  ∧ getColl (mcoll m) s !! e.1 = None
  ∧ s' = setColl (mcoll m) (<[e.1 := e.2]> (getColl (mcoll m) s)) s.
Proof.
  unfold save. destruct (newDocument _ _ _ _) as [[id d]|]; [|done].
  destruct (validate _ _ && _ && _) eqn:Hv; [|done].
  intros [= <- <-]. split; [done|]. split; [|done].
  apply andb_prop in Hv as [Hv _]. apply andb_prop in Hv as [_ Hv].
  apply negb_true_iff, bool_decide_eq_false in Hv.
  simpl. destruct (getColl (mcoll m) s !! id) eqn:Hl; [|done].
  by destruct Hv.
Qed.

Lemma save_throw (m : Model) (oid : N) (t : Z) (data : doc) (s s' : Store) :
  save m oid t data s = (s', Throw) → s' = s.
Proof.
  unfold save. destruct (newDocument _ _ _ _) as [[id d]|]; [|by intros [= <-]].
  destruct (_ && _ && _); [done | by intros [= <-]].
Qed.

Lemma populate_run (target : Model) (k : string) (sel : list string)
    (e : entry) (s : Store) :
  ∃ e', populate target k sel e s = (s, Ok e') ∧ e'.1 = e.1.
Proof.
  unfold populate. destruct (e.2 !! k) as [[]|]; eauto.
Qed.

Lemma mapM_run {A B} (f : A → M B) (l : list A) (s : Store) :
  (∀ a s, ∃ b, f a s = (s, Ok b)) →
  ∃ l', mapM f l s = (s, Ok l') ∧ List.length l' = List.length l.
Proof.
  intros Hf. induction l as [|a l IH]; [by exists []|].
  destruct (Hf a s) as [b Hb]. destruct IH as (l' & Hl & Hlen).
  exists (b :: l'). simpl. unfold bind. rewrite Hb, Hl. simpl. by rewrite Hlen.
Qed.
End Writes.

(* ===================================================================== *)
(** ** Creation stamps the tenant of the request                          *)
(* ===================================================================== *)

Section Creation.
Context `{E : Env}.
Import Odm Api.

Lemma auth_tenant (q : Request) (c : Ctx) :
  auth q = inr c → hospitalId c = rtenant q ∧ hospitalId c = utenant (user c).
Proof.
  unfold auth. destruct (rtoken q); [|done]. destruct (verifyToken _); [|done].
  destruct (String.eqb _ _) eqn:Heq; [|done]. intros [= <-]. simpl.
  by apply String.eqb_eq in Heq.
Qed.

Lemma appointment_hospitalId :
  paths appointmentSchema !! "hospitalId"%string = Some hospitalIdPath.
Proof. reflexivity. Qed.
Lemma staff_hospitalId :
  paths staffSchema !! "hospitalId"%string = Some hospitalIdPath.
Proof. reflexivity. Qed.
Lemma doctor_hospitalId :
  paths doctorSchema !! "hospitalId"%string = Some hospitalIdPath.
Proof. reflexivity. Qed.

(** A saved document carries the tenant its data was stamped with. *)
Lemma save_stamped (m : Model) (oid : N) (t : Z) (data : doc) (s s' : Store)
    (e : entry) (p : Path) (h : string) :
  save m oid t data s = (s', Ok e) →
  paths (mschema m) !! "hospitalId"%string = Some p → plainString p = true →
  data !! "hospitalId"%string = Some (VStr h) →
  getColl (mcoll m) s !! e.1 = None
  ∧ s' = setColl (mcoll m) (<[e.1 := e.2]> (getColl (mcoll m) s)) s
  ∧ e.2 !! "hospitalId"%string = Some (VStr h).
Proof.
  intros Hs Hp Hplain Hd. destruct (save_ok _ _ _ _ _ _ _ Hs) as (Hn & Hfree & ->).
  split; [done|]. split; [done|].
  destruct (newDocument_field _ _ _ _ _ "hospitalId" p (VStr h) Hn Hp Hd)
    as (v' & Hv & Hk); [done | done | by apply plainString_scalar |].
  rewrite castValue_plain in Hv by done. congruence.
Qed.

(** C2.  Every successful create (POST of patients, appointments, staff,
    doctors) inserts one new record whose [hospitalId] is the tenant the
    request was resolved to, whatever the body holds, a [hospitalId] of
    its own included; the staff route stamps the User it creates in the
    same way. *)
Theorem created_records_carry_tenant (r : Resource) (q : Request)
    (a : Ambient) (s s' : Store) (c : Ctx) (resp : Response) :
  rmethod q = POST → rpath q = [] → auth q = inr c →
  api r q a s = Some (resp, s') → status resp = 201 →
  hospitalId c = rtenant q
  ∧ (∃ o d, getColl (collOf r) s !! o = None
            ∧ getColl (collOf r) s' = <[o := d]> (getColl (collOf r) s)
            ∧ d !! "hospitalId"%string = Some (VStr (hospitalId c)))
  ∧ (r = RStaff →
     ∃ o d, users s !! o = None ∧ users s' = <[o := d]> (users s)
            ∧ d !! "hospitalId"%string = Some (VStr (hospitalId c))).
Proof.
  intros Hm Hp Hauth Hapi H201.
  split; [by apply auth_tenant|].
  unfold api, handle in Hapi. rewrite Hm, Hp in Hapi.
  assert (H500 : status resp ≠ 500) by (rewrite H201; done).
  destruct r;
    [ change (dispatch PatientsRouter.router POST [])
        with (Some (mkRoute POST [] (Some [doctor; hospitalOwner; staffRole])
                      PatientsRouter.createChecks PatientsRouter.CreatePatient,
                    (∅ : gmap string string))) in Hapi
    | change (dispatch AppointmentsRouter.router POST [])
        with (Some (mkRoute POST [] (Some [doctor; hospitalOwner; staffRole])
                      [] AppointmentsRouter.CreateAppointment,
                    (∅ : gmap string string))) in Hapi
    | change (dispatch StaffRouter.router POST [])
        with (Some (mkRoute POST [] (Some [hospitalOwner])
                      [] StaffRouter.CreateStaff,
                    (∅ : gmap string string))) in Hapi
    | change (dispatch DoctorsRouter.router POST [])
        with (Some (mkRoute POST [] (Some [hospitalOwner; doctor])
                      [] DoctorsRouter.CreateDoctor,
                    (∅ : gmap string string))) in Hapi ];
    injection Hapi as Hrun;
    unfold runRoute in Hrun; rewrite Hauth in Hrun;
    cbn [roles checks label from_option] in Hrun;
    unfold authorize in Hrun;
    (case_bool_decide; [|injection Hrun as <- <-; done]);
    destruct (runChecks _ _) as [b errs];
    cbn [PatientsRouter.handlers AppointmentsRouter.handlers
         StaffRouter.handlers DoctorsRouter.handlers] in Hrun.
  - (* patients *)
    unfold PatientsRouter.createPatient in Hrun.
    apply tryCatch_ok in Hrun; [|done].
    destruct errs as [|er errs]; [|injection Hrun as <- <-; done].
    apply bind_ok in Hrun as (s1 & e & Hsave & Hret).
    apply ret_ok in Hret as [-> _].
    destruct (save_stamped Patient _ _ _ _ _ _ hospitalIdPath (hospitalId c) Hsave)
      as (Hfree & -> & Hh); [apply patient_hospitalId | done |
                             by rewrite lookup_insert_eq |].
    split; [|done]. exists e.1, e.2. simpl. done.
  - (* appointments *)
    unfold AppointmentsRouter.createAppointment in Hrun.
    apply tryCatch_ok in Hrun; [|done].
    apply bind_ok in Hrun as (s1 & e & Hsave & Hrest).
    apply bind_ok in Hrest as (s2 & e2 & Hpop & Hret).
    apply ret_ok in Hret as [-> _].
    assert (s2 = s1) as ->.
    { unfold AppointmentsRouter.populateAll in Hpop.
      apply bind_ok in Hpop as (s3 & e3 & Hp1 & Hpop).
      apply bind_ok in Hpop as (s4 & e4 & Hp2 & Hp3).
      destruct (populate_run Patient "patientId" ["firstName"; "lastName"; "email"; "phone"]%string e s1) as (? & Hx & _).
      rewrite Hx in Hp1. injection Hp1 as <- <-.
      destruct (populate_run Doctor "doctorId" ["specialization"; "department"]%string x s1) as (? & Hy & _).
      rewrite Hy in Hp2. injection Hp2 as <- <-.
      destruct (populate_run User "createdBy" ["name"]%string x0 s1) as (? & Hz & _).
      rewrite Hz in Hp3. by injection Hp3 as <- <-. }
    destruct (save_stamped Appointment _ _ _ _ _ _ hospitalIdPath (hospitalId c) Hsave)
      as (Hfree & -> & Hh); [done | done | |].
    { rewrite lookup_insert_ne by done. by rewrite lookup_insert_eq. }
    split; [|done]. exists e.1, e.2. simpl. done.
  - (* staff *)
    unfold StaffRouter.createStaff in Hrun.
    apply tryCatch_ok in Hrun; [|done].
    apply bind_ok in Hrun as (s1 & u & Hsave1 & Hrest).
    apply bind_ok in Hrest as (s2 & e & Hsave2 & Hrest).
    apply bind_ok in Hrest as (s3 & e3 & Hpop & Hret).
    apply ret_ok in Hret as [-> _].
    destruct (populate_run User "userId" ["email"; "role"; "createdAt"]%string e s2) as (? & Hx & _).
    unfold StaffRouter.populateUser in Hpop. rewrite Hx in Hpop.
    injection Hpop as <- _.
    destruct user_hospitalId as (pu & Hpu & Hplain).
    destruct (save_stamped User _ _ _ _ _ _ pu (hospitalId c) Hsave1)
      as (Hfree1 & -> & Hh1);
      [done | done | by apply lookup_insert_eq |].
    destruct (save_stamped Staff _ _ _ _ _ _ hospitalIdPath (hospitalId c) Hsave2)
      as (Hfree2 & -> & Hh2);
      [done | done | by apply lookup_insert_eq |].
    simpl in *. split.
    + by exists e.1, e.2.
    + intros _. by exists u.1, u.2.
  - (* doctors *)
    unfold DoctorsRouter.createDoctor in Hrun.
    apply tryCatch_ok in Hrun; [|done].
    apply bind_ok in Hrun as (s1 & e & Hsave & Hrest).
    apply bind_ok in Hrest as (s2 & e2 & Hupd & Hret).
    apply ret_ok in Hret as [-> _].
    destruct (save_stamped Doctor _ _ _ _ _ _ hospitalIdPath (hospitalId c) Hsave)
      as (Hfree & -> & Hh); [done | done | |].
    { rewrite lookup_insert_ne by done. by rewrite lookup_insert_eq. }
    split; [|done]. exists e.1, e.2. split; [done|]. split; [|done].
    unfold findOneAndUpdate in Hupd. simpl in Hupd.
    destruct (prepareUpdate _ _ _ _); [|by injection Hupd as <-].
    destruct (lookupBy _ _); [|by injection Hupd as <-].
    destruct (o _ _); [|by injection Hupd as <-].
    destruct (uniqueClash _ _ _); by injection Hupd as <-.
Qed.
End Creation.

(* ===================================================================== *)
(** ** Facts about updates                                                *)
(* ===================================================================== *)

Section Updates.
Context `{E : Env}.
Import Odm Api.

Lemma castDoc_singleton (ps : gmap string Path) (k : string) (v v' : value)
    (p : Path) :
  ps !! k = Some p → castValue p v = Some v' →
  castDoc ps {[ k := v ]} = Some {[ k := v' ]}.
Proof.
  intros Hp Hv.
  assert (Hc : castPaths ps {[ k := v ]} = {[ k := Some v' ]}).
  { apply map_eq. intros i. unfold castPaths. rewrite lookup_merge.
    destruct (decide (i = k)) as [->|Hne].
    - by rewrite Hp, !lookup_singleton_eq, <- Hv.
    - rewrite !lookup_singleton_ne by done. by destruct (ps !! i). }
  unfold castDoc. rewrite Hc.
  rewrite bool_decide_eq_true_2 by (by apply map_Forall_singleton).
  by rewrite (omap_singleton_Some id k (Some v') v').
Qed.

Lemma isPlain_singleton (k : string) (v : value) :
  plainKey k = true → isPlain {[ k := v ]} = true.
Proof.
  intros H. unfold isPlain. apply bool_decide_eq_true_2.
  by apply map_Forall_singleton.
Qed.

Lemma castSet_singleton (sch : Schema) (t : Z) (k : string) (v v' : value)
    (p : Path) :
  k ≠ "createdAt"%string → k ≠ "updatedAt"%string →
  paths sch !! k = Some p → castValue p v = Some v' →
  castSet sch t {[ k := v ]} = Some (setOf sch t k v').
Proof.
  intros Hk Hk' Hp Hv. unfold castSet, setOf.
  destruct (timestamps sch) eqn:Ht.
  - rewrite !delete_singleton_ne by done.
    by rewrite (castDoc_singleton _ k v v' p (allPaths_lookup _ _ _ Hp) Hv).
  - by rewrite (castDoc_singleton _ k v v' p (allPaths_lookup _ _ _ Hp) Hv).
Qed.

Lemma validSet_setOf (sch : Schema) (t : Z) (k : string) (v : value) (p : Path) :
  k ≠ "updatedAt"%string → paths sch !! k = Some p →
  validSet sch (setOf sch t k v) = validValue p v.
Proof.
  intros Hk Hp. unfold validSet, setOf.
  assert (Hone : map_Forall (λ k0 v0, validKey sch k0 v0 = true)
                   ({[ k := v ]} : doc) ↔ validValue p v = true).
  { rewrite map_Forall_singleton. unfold validKey. by rewrite Hp. }
  destruct (validValue p v) eqn:Hv.
  - apply bool_decide_eq_true_2. destruct (timestamps sch).
    + apply map_Forall_insert_2; [|by apply Hone].
      unfold validKey. by destruct (paths sch !! "updatedAt"%string).
    + by apply Hone.
  - apply bool_decide_eq_false_2. intros Hall.
    assert (validKey sch k v = true) as Hkv.
    { apply (Hall k v). destruct (timestamps sch).
      - rewrite lookup_insert_ne by done. by rewrite lookup_singleton_eq.
      - by rewrite lookup_singleton_eq. }
    unfold validKey in Hkv. rewrite Hp in Hkv. congruence.
Qed.

Lemma prepareUpdate_single (sch : Schema) (t : Z) (rv : bool) (k : string)
    (v v' : value) (p : Path) :
  plainKey k = true → k ≠ "createdAt"%string → k ≠ "updatedAt"%string →
  paths sch !! k = Some p → castValue p v = Some v' →
  prepareUpdate sch t rv {[ k := v ]}
  = if negb rv || validValue p v'
    then Some (λ _ old, Some (setOf sch t k v' ∪ old))
    else None.
Proof.
  intros Hplain Hk1 Hk2 Hp Hv. unfold prepareUpdate.
  rewrite isPlain_singleton by done.
  rewrite (castSet_singleton sch t k v v' p) by done.
  by rewrite (validSet_setOf sch t k v' p).
Qed.

Lemma setOf_union (sch : Schema) (t : Z) (k : string) (v : value) (old : doc) :
  timestamps sch = true →
  setOf sch t k v ∪ old = <["updatedAt"%string := VDate t]> (<[k := v]> old).
Proof.
  intros Ht. unfold setOf. rewrite Ht.
  by rewrite <- insert_union_l, <- insert_union_singleton_l.
Qed.

Lemma setOf_lookup (sch : Schema) (t : Z) (k : string) (v : value) (old : doc) :
  k ≠ "updatedAt"%string → (setOf sch t k v ∪ old) !! k = Some v.
Proof.
  intros Hk. apply lookup_union_Some_l. unfold setOf.
  destruct (timestamps sch); [rewrite lookup_insert_ne by done|];
    by rewrite lookup_singleton_eq.
Qed.

Lemma setOf_lookup_other (sch : Schema) (t : Z) (k j : string) (v : value)
    (old : doc) :
  j ≠ k → j ≠ "updatedAt"%string → (setOf sch t k v ∪ old) !! j = old !! j.
Proof.
  intros H1 H2. apply lookup_union_r. unfold setOf.
  destruct (timestamps sch); [rewrite lookup_insert_ne by done|];
    by rewrite lookup_singleton_ne.
Qed.

Lemma uniqueClash_none (sch : Schema) (others : collection) (d : doc) :
  map_Forall (λ _ p, unique p = false) (paths sch) →
  uniqueClash sch others d = false.
Proof.
  intros Hall. unfold uniqueClash.
  apply not_true_is_false. intros Hex.
  apply existsb_exists in Hex as ([k p] & Hin & Hclash).
  apply list_elem_of_In, elem_of_map_to_list in Hin.
  unfold clashOn in Hclash. simpl in Hclash.
  by rewrite (Hall k p Hin) in Hclash.
Qed.

Lemma appointment_no_unique :
  map_Forall (λ _ p, unique p = false) (paths appointmentSchema).
Proof.
  apply map_Forall_to_list.
  vm_compute (map_to_list _).
  repeat (apply Forall_cons; split; [reflexivity|]). apply Forall_nil_2.
Qed.

(** What a successful [findOneAndUpdate] did. *)
Lemma findOneAndUpdate_ok (m : Model) (f : IdFilter) (t : Z) (body : doc)
    (rv : bool) (s s' : Store) (r : option entry) :
  findOneAndUpdate m f t body rv s = (s', Ok r) →
  ∃ ap, prepareUpdate (mschema m) t rv body = Some ap ∧
    match r with
    | None => lookupBy f (getColl (mcoll m) s) = None ∧ s' = s
    | Some e =>
        ∃ old, lookupBy f (getColl (mcoll m) s) = Some old
               ∧ ap (f_id f) old = Some e.2 ∧ e.1 = f_id f
               ∧ s' = setColl (mcoll m)
                        (<[f_id f := e.2]> (getColl (mcoll m) s)) s
    end.
Proof.
  unfold findOneAndUpdate.
  destruct (prepareUpdate _ _ _ _) as [ap|]; [|done].
  intros H. exists ap. split; [done|].
  destruct (lookupBy _ _) as [old|]; [|by injection H as <- <-].
  destruct (ap _ _) as [d|] eqn:Hap; [|done].
  destruct (uniqueClash _ _ _); [done|].
  injection H as <- <-. by exists old.
Qed.

Lemma lookupBy_Some (f : IdFilter) (c : collection) (d : doc) :
  lookupBy f c = Some d →
  c !! f_id f = Some d ∧ inTenant (f_hospitalId f) d = true.
Proof.
  unfold lookupBy. destruct (c !! f_id f) as [d'|]; [|done].
  destruct (inTenant _ _) eqn:Hin; [|done]. by intros [= <-].
Qed.

Lemma lookupBy_own (o : N) (t : string) (c : collection) (d : doc) :
  c !! o = Some d → d !! "hospitalId"%string = Some (VStr t) →
  lookupBy (mkIdFilter o (Some t)) c = Some d.
Proof.
  intros Hc Hd. unfold lookupBy. simpl. rewrite Hc. unfold holds.
  by rewrite Hd, String.eqb_refl.
Qed.
End Updates.

(* ===================================================================== *)
(** ** What DELETE does                                                   *)
(* ===================================================================== *)

Section SoftDelete.
Context `{E : Env}.
Import Odm Api.

Lemma lift_ok {A} (o : option A) (s s' : Store) (a : A) :
  lift o s = (s', Ok a) → o = Some a ∧ s' = s.
Proof. destruct o; [|done]. by intros [= <- <-]. Qed.

Lemma findOneAndUpdate_hit (m : Model) (f : IdFilter) (t : Z) (body : doc)
    (rv : bool) (s : Store) (ap : N → doc → option doc) (old d : doc) :
  prepareUpdate (mschema m) t rv body = Some ap →
  lookupBy f (getColl (mcoll m) s) = Some old →
  ap (f_id f) old = Some d →
  uniqueClash (mschema m) (delete (f_id f) (getColl (mcoll m) s)) d = false →
  findOneAndUpdate m f t body rv s
  = (setColl (mcoll m) (<[f_id f := d]> (getColl (mcoll m) s)) s,
     Ok (Some (f_id f, d))).
Proof.
  intros Hp Hl Ha Hu. unfold findOneAndUpdate. by rewrite Hp, Hl, Ha, Hu.
Qed.

(** What a successful soft delete did: the update [{ status: st }]
    without validators on the record the filter selects. *)
Lemma soft_delete_ok (m : Model) (o : N) (h : string) (t : Z) (st : string)
    (p : Path) (s s' : Store) (e : entry) :
  timestamps (mschema m) = true →
  paths (mschema m) !! "status"%string = Some p →
  castValue p (VStr st) = Some (VStr st) →
  findOneAndUpdate m (mkIdFilter o (Some h)) t {[ "status"%string := VStr st ]}
    false s = (s', Ok (Some e)) →
  ∃ d, getColl (mcoll m) s !! o = Some d
       ∧ s' = setColl (mcoll m)
                (<[o := <["updatedAt"%string := VDate t]>
                          (<["status"%string := VStr st]> d)]>
                   (getColl (mcoll m) s)) s.
Proof.
  intros Ht Hp Hv Hrun.
  apply findOneAndUpdate_ok in Hrun as (ap & Hprep & old & Hl & Hap & _ & ->).
  rewrite (prepareUpdate_single _ t false "status" (VStr st) (VStr st) p)
    in Hprep by done.
  simpl in Hprep. injection Hprep as <-.
  injection Hap as <-. rewrite setOf_union by done.
  apply lookupBy_Some in Hl as [Hl _]. simpl in *. by exists old.
Qed.

Lemma appointment_status_path :
  paths appointmentSchema !! "status"%string
  = Some (withDefault (DefaultValue (VStr "Scheduled"))
            (withEnum appointmentStatuses (path TString))).
Proof. reflexivity. Qed.

Lemma staff_status_path :
  paths staffSchema !! "status"%string
  = Some (withDefault (DefaultValue (VStr "active"))
            (withEnum ["active"; "inactive"; "on-leave"]%string
               (path TString))).
Proof. reflexivity. Qed.

(** C9 (amended).  A successful DELETE of an appointment or of a staff
    member keeps the record in its collection: it sets [status]
    ('Cancelled', 'inactive') and refreshes [updatedAt], and leaves every
    other field and every other record as it was.  A successful DELETE
    of a patient removes the record. *)
Theorem delete_soft_or_hard (q : Request) (a : Ambient) (s s' : Store)
    (c : Ctx) (resp : Response) (x : string) :
  rmethod q = DELETE → rpath q = [x] → auth q = inr c → status resp = 200 →
  (api RAppointments q a s = Some (resp, s') →
     ∃ o d, castId x = Some o ∧ appointments s !! o = Some d
            ∧ s' = setColl Appointments
                     (<[o := withStatus "Cancelled" a d]> (appointments s)) s)
  ∧ (api RStaff q a s = Some (resp, s') →
     ∃ o d, castId x = Some o ∧ staff s !! o = Some d
            ∧ s' = setColl Staffs
                     (<[o := withStatus "inactive" a d]> (staff s)) s)
  ∧ (api RPatients q a s = Some (resp, s') →
     ∃ o d, castId x = Some o ∧ patients s !! o = Some d
            ∧ s' = setColl Patients (delete o (patients s)) s).
Proof.
  intros Hm Hp Hauth H200.
  assert (H500 : status resp ≠ 500) by (rewrite H200; done).
  unfold api, handle. rewrite Hm, Hp.
  change (dispatch AppointmentsRouter.router DELETE [x])
    with (Some (mkRoute DELETE [Param "id"]
                  (Some [doctor; hospitalOwner; staffRole]) []
                  AppointmentsRouter.CancelAppointment,
                <["id"%string := x]> (∅ : gmap string string))).
  change (dispatch StaffRouter.router DELETE [x])
    with (Some (mkRoute DELETE [Param "id"] (Some [hospitalOwner]) []
                  StaffRouter.DeactivateStaff,
                <["id"%string := x]> (∅ : gmap string string))).
  change (dispatch PatientsRouter.router DELETE [x])
    with (Some (mkRoute DELETE [Param "id"] (Some [hospitalOwner]) []
                  PatientsRouter.DeletePatient,
                <["id"%string := x]> (∅ : gmap string string))).
  unfold runRoute. rewrite Hauth. cbn [roles checks label from_option].
  unfold authorize.
  split; [|split]; intros [= Hrun];
    (case_bool_decide; [|injection Hrun as <- <-; done]);
    cbn [AppointmentsRouter.handlers StaffRouter.handlers
         PatientsRouter.handlers] in Hrun;
    unfold AppointmentsRouter.cancelAppointment, StaffRouter.deactivateStaff,
      PatientsRouter.deletePatient in Hrun;
    rewrite param_id in Hrun;
    apply tryCatch_ok in Hrun; try done;
    apply bind_ok in Hrun as (s1 & o & Hcast & Hrun);
    apply lift_ok in Hcast as [Hcast ->];
    apply bind_ok in Hrun as (s2 & r & Hop & Hret);
    (destruct r as [e|];
     [|apply ret_ok in Hret as [_ ->]; discriminate H200]);
    apply ret_ok in Hret as [-> _].
  - destruct (soft_delete_ok Appointment o (hospitalId c) (now a) "Cancelled"
                _ s s2 e eq_refl appointment_status_path eq_refl Hop)
      as (d & Hd & ->).
    exists o, d. split; [exact Hcast|]. split; [exact Hd|]. reflexivity.
  - destruct (soft_delete_ok Staff o (hospitalId c) (now a) "inactive"
                _ s s2 e eq_refl staff_status_path eq_refl Hop)
      as (d & Hd & ->).
    exists o, d. split; [exact Hcast|]. split; [exact Hd|]. reflexivity.
  - unfold findOneAndDelete in Hop.
    destruct (lookupBy _ _) as [d|] eqn:Hl; [|done].
    injection Hop as <- _. apply lookupBy_Some in Hl as [Hl _].
    exists o, d. split; [exact Hcast|]. split; [exact Hl|]. reflexivity.
Qed.
End SoftDelete.

(* ===================================================================== *)
(** ** The status of an appointment                                       *)
(* ===================================================================== *)

Section Status.
Context `{E : Env}.
Import Odm Api.

Lemma populateAll_run (e : entry) (s : Store) :
  ∃ e', AppointmentsRouter.populateAll e s = (s, Ok e').
Proof.
  unfold AppointmentsRouter.populateAll, bind.
  destruct (populate_run Patient "patientId"
              ["firstName"; "lastName"; "email"; "phone"]%string e s)
    as (e1 & -> & _).
  destruct (populate_run Doctor "doctorId"
              ["specialization"; "department"]%string e1 s) as (e2 & -> & _).
  destruct (populate_run User "createdBy" ["name"]%string e2 s)
    as (e3 & -> & _).
  by exists e3.
Qed.

Lemma status_validators (st : string) :
  validValue (withDefault (DefaultValue (VStr "Scheduled"))
                (withEnum appointmentStatuses (path TString))) (VStr st)
  = bool_decide (st ∈ appointmentStatuses).
Proof. reflexivity. Qed.

(** C3 (amended).  PUT /api/appointments/:id with the body
    [{ status: st }], by a permitted role on an appointment of its own
    tenant, whatever status the appointment has: when [st] is one of the
    five values of the schema the update is applied and answered 200;
    any other string is answered with a server error and the store is
    left as it was.  No transition between the five values is refused. *)
Theorem appointment_status_unrestricted (q : Request) (a : Ambient)
    (s : Store) (c : Ctx) (x : string) (o : N) (d : doc) (st : string) :
  rmethod q = PUT → rpath q = [x] → castObjectId x = Some o →
  auth q = inr c → urole (user c) ∈ [doctor; hospitalOwner; staffRole] →
  appointments s !! o = Some d →
  d !! "hospitalId"%string = Some (VStr (hospitalId c)) →
  rbody q = {[ "status"%string := VStr st ]} →
  if bool_decide (st ∈ appointmentStatuses)
  then ∃ resp,
         api RAppointments q a s
         = Some (resp, setColl Appointments
                         (<[o := withStatus st a d]> (appointments s)) s)
         ∧ status resp = 200
  else api RAppointments q a s = Some (serverError, s).
Proof.
  intros Hm Hp Ho Hauth Hrole Hd Hh Hbody.
  unfold api, handle. rewrite Hm, Hp.
  change (dispatch AppointmentsRouter.router PUT [x])
    with (Some (mkRoute PUT [Param "id"]
                  (Some [doctor; hospitalOwner; staffRole]) []
                  AppointmentsRouter.UpdateAppointment,
                <["id"%string := x]> (∅ : gmap string string))).
  unfold runRoute. rewrite Hauth. cbn [roles checks label from_option].
  unfold authorize. rewrite (bool_decide_eq_true_2 _ Hrole).
  cbn [AppointmentsRouter.handlers runChecks fold_left].
  unfold AppointmentsRouter.updateAppointment.
  rewrite param_id. unfold withBody. cbn [rbody]. rewrite Hbody.
  unfold tryCatch, bind at 1. unfold lift. rewrite (castId_hex _ _ Ho).
  cbn [ret]. unfold bind at 1.
  assert (Hprep := prepareUpdate_single appointmentSchema (now a) true
                     "status" (VStr st) (VStr st) _ eq_refl
                     ltac:(done) ltac:(done)
                     appointment_status_path eq_refl).
  rewrite status_validators in Hprep. cbn [negb orb] in Hprep.
  case_bool_decide as Hst.
  - erewrite (findOneAndUpdate_hit Appointment); cycle 1.
    + exact Hprep.
    + apply lookupBy_own; [exact Hd | exact Hh].
    + reflexivity.
    + apply uniqueClash_none, appointment_no_unique.
    + cbn [f_id]. rewrite setOf_union by reflexivity.
      destruct (populateAll_run (o, <["updatedAt"%string := VDate (now a)]>
                                      (<["status"%string := VStr st]> d))
                  (setColl (mcoll Appointment)
                     (<[o := <["updatedAt"%string := VDate (now a)]>
                               (<["status"%string := VStr st]> d)]>
                        (getColl (mcoll Appointment) s)) s))
        as (e' & He').
      unfold bind. rewrite He'. cbn [ret]. eexists. split; reflexivity.
  - unfold findOneAndUpdate. cbn [mschema Appointment]. by rewrite Hprep.
Qed.
End Status.

(** The cancelled appointment of the sample store is confirmed again. *)
Lemma appointment_status_unrestricted_witness :
  let q := Sample.request PUT [Sample.hex200] ∅
             {[ "status"%string := VStr "Confirmed" ]} "doctor:h1" "h1" in
  ∃ resp,
    Api.api (E := Sample.env) Api.RAppointments q Sample.ambient Sample.store
    = Some (resp, setColl Appointments
                    (<[200%N := withStatus "Confirmed" Sample.ambient Sample.visit]>
                       (appointments Sample.store)) Sample.store)
    ∧ status resp = 200.
Proof.
  intros q.
  apply (appointment_status_unrestricted (E := Sample.env) q Sample.ambient
           Sample.store (mkCtx (mkIdentity 7 "doctor" "h1") "h1")
           Sample.hex200 200 Sample.visit "Confirmed").
  - reflexivity.
  - reflexivity.
  - reflexivity.
  - reflexivity.
  - apply list_elem_of_here.
  - reflexivity.
  - reflexivity.
  - reflexivity.
Defined.

(** C3 as stated fails: the update Cancelled -> Confirmed on the cancelled
    appointment of the sample store is answered 200, and the stored status
    is Confirmed afterwards. *)
Lemma cancelled_is_not_terminal :
  ¬ (∀ (E : Env) (q : Request) (a : Ambient) (s : Store) (c : Ctx)
       (x : string) (o : N) (d : doc),
       rmethod q = PUT → rpath q = [x] → castObjectId x = Some o →
       auth q = inr c → urole (user c) ∈ [doctor; hospitalOwner; staffRole] →
       appointments s !! o = Some d →
       d !! "hospitalId"%string = Some (VStr (hospitalId c)) →
       d !! "status"%string = Some (VStr "Cancelled") →
       rbody q = {[ "status"%string := VStr "Confirmed" ]} →
       ∃ resp s' d',
         Api.api Api.RAppointments q a s = Some (resp, s')
         ∧ status resp ≠ 200
         ∧ appointments s' !! o = Some d'
         ∧ d' !! "status"%string = Some (VStr "Cancelled")).
Proof.
  intros H.
  destruct (H Sample.env Sample.confirmVisit Sample.ambient Sample.store
              (mkCtx (mkIdentity 7 "doctor" "h1") "h1")
              Sample.hex200 200%N Sample.visit)
    as (resp & s' & d' & Hr & Hs & _); try reflexivity.
  - apply list_elem_of_here.
  - assert (Hrun : Api.api (E := Sample.env) Api.RAppointments
                     Sample.confirmVisit Sample.ambient Sample.store
                   = Some Sample.confirmedVisit)
      by (vm_compute; reflexivity).
    rewrite Hrun in Hr. injection Hr as <- _. apply Hs. reflexivity.
Qed.
(* ===================================================================== *)
(** ** Creating a doctor profile                                          *)
(* ===================================================================== *)

Section DoctorProfile.
Context `{E : Env}.
Import Odm Api.

Lemma doctor_userId_path :
  paths doctorSchema !! "userId"%string = Some (req (path TObjectId)).
Proof. reflexivity. Qed.

(** C10.  Every successful POST /api/doctors inserts one doctor record
    whose [userId] is the identifier of the authenticated requester,
    whatever the body holds, and sets the role of the requester's user
    record to 'doctor', whatever it was before (a hospital owner's
    included), touching no other field of it but [updatedAt]. *)
Theorem doctor_profile_binds_requester (q : Request) (a : Ambient)
    (s s' : Store) (c : Ctx) (resp : Response) :
  rmethod q = POST → rpath q = [] → auth q = inr c →
  api RDoctors q a s = Some (resp, s') → status resp = 201 →
  (∃ o d, doctors s !! o = None ∧ doctors s' = <[o := d]> (doctors s)
          ∧ d !! "userId"%string = Some (VId (uid (user c))))
  ∧ (∀ u, users s !! uid (user c) = Some u →
       ∃ u', users s' = <[uid (user c) := u']> (users s)
             ∧ u' !! "role"%string = Some (VStr "doctor")
             ∧ ∀ k, k ≠ "role"%string → k ≠ "updatedAt"%string →
                    u' !! k = u !! k).
Proof.
  intros Hm Hp Hauth Hapi H201.
  assert (H500 : status resp ≠ 500) by (rewrite H201; done).
  unfold api, handle in Hapi. rewrite Hm, Hp in Hapi.
  change (dispatch DoctorsRouter.router POST [])
    with (Some (mkRoute POST [] (Some [hospitalOwner; doctor])
                  [] DoctorsRouter.CreateDoctor,
                (∅ : gmap string string))) in Hapi.
  injection Hapi as Hrun.
  unfold runRoute in Hrun. rewrite Hauth in Hrun.
  cbn [roles checks label from_option] in Hrun.
  unfold authorize in Hrun.
  case_bool_decide; [|injection Hrun as <- <-; done].
  cbn [DoctorsRouter.handlers runChecks fold_left] in Hrun.
  unfold DoctorsRouter.createDoctor in Hrun.
  apply tryCatch_ok in Hrun; [|done].
  apply bind_ok in Hrun as (s1 & e & Hsave & Hrest).
  apply bind_ok in Hrest as (s2 & r & Hupd & Hret).
  apply ret_ok in Hret as [-> _].
  destruct (save_ok _ _ _ _ _ _ _ Hsave) as (Hnew & Hfree & ->).
  destruct (newDocument_field _ _ _ _ _ "userId" _ (VId (uid (user c)))
              Hnew doctor_userId_path) as (v' & Hv & Hk);
    [by rewrite lookup_insert_eq | done | done | done |].
  injection Hv as <-.
  apply findOneAndUpdate_ok in Hupd as (ap & Hprep & Hr).
  destruct user_role as (p & Hpath & Hplain).
  rewrite (prepareUpdate_single _ (now a) false "role" (VStr "doctor")
             (VStr "doctor") p) in Hprep;
    [| done | done | done | exact Hpath | by apply castValue_plain].
  cbn [negb orb] in Hprep. injection Hprep as <-.
  cbn [mcoll Doctor User getColl setColl users doctors] in *.
  split.
  - exists e.1, e.2. split; [exact Hfree|]. split; [|exact Hk].
    destruct r as [e2|]; [destruct Hr as (old & _ & _ & _ & ->)
                         | destruct Hr as [_ ->]]; reflexivity.
  - intros u Hu.
    destruct r as [e2|].
    + destruct Hr as (old & Hl & Hap & _ & ->).
      apply lookupBy_Some in Hl as [Hl _]. cbn [f_id] in *.
      rewrite Hu in Hl. injection Hl as <-. injection Hap as Hap.
      exists e2.2. split; [reflexivity|]. rewrite <- Hap. split.
      * by apply setOf_lookup.
      * intros k Hk1 Hk2. by apply setOf_lookup_other.
    + destruct Hr as [Hl _]. unfold lookupBy in Hl. cbn [f_id] in Hl.
      by rewrite Hu in Hl.
Qed.
End DoctorProfile.
(* ===================================================================== *)
(** ** Creating a staff member is two writes                              *)
(* ===================================================================== *)

Section StaffCreation.
Context `{E : Env}.
Import Odm Api.

(** C7.  POST /api/staff saves the User, then the Staff profile, with
    nothing to undo the first when the second fails: whenever the save of
    the profile is rejected after the save of the user went through, the
    request is answered with a server error, the new user stays in the
    store, and no staff profile is written. *)
Theorem staff_creation_not_atomic (q : Request) (a : Ambient) (s s1 s2 : Store)
    (c : Ctx) (u : entry) :
  rmethod q = POST → rpath q = [] → auth q = inr c →
  urole (user c) = hospitalOwner →
  save User (oid1 a) (now a) (StaffRouter.userAccountData q c) s = (s1, Ok u) →
  save Staff (oid2 a) (now a) (StaffRouter.staffProfileData q c u) s1
    = (s2, Throw) →
  api RStaff q a s = Some (serverError, s1)
  ∧ users s !! u.1 = None
  ∧ users s1 = <[u.1 := u.2]> (users s)
  ∧ staff s1 = staff s.
Proof.
  intros Hm Hp Hauth Hrole Hu Hst.
  assert (s2 = s1) as -> by (by eapply save_throw).
  destruct (save_ok _ _ _ _ _ _ _ Hu) as (_ & Hfree & Hs1).
  split; [|by rewrite Hs1].
  unfold api, handle. rewrite Hm, Hp.
  change (dispatch StaffRouter.router POST [])
    with (Some (mkRoute POST [] (Some [hospitalOwner])
                  [] StaffRouter.CreateStaff,
                (∅ : gmap string string))).
  unfold runRoute. rewrite Hauth. cbn [roles checks label from_option].
  unfold authorize. rewrite bool_decide_eq_true_2
    by (rewrite Hrole; apply list_elem_of_here).
  cbn [StaffRouter.handlers runChecks fold_left].
  unfold StaffRouter.createStaff, tryCatch, bind.
  change (StaffRouter.userAccountData (withBody q (rbody q)) c)
    with (StaffRouter.userAccountData q c).
  rewrite Hu.
  change (StaffRouter.staffProfileData (withBody q (rbody q)) c u)
    with (StaffRouter.staffProfileData q c u).
  by rewrite Hst.
Qed.
End StaffCreation.

(** A hospital owner creating a staff member with an empty profile: the
    user is stored, the profile fails validation. *)
Lemma staff_creation_not_atomic_witness :
  Api.api (E := Sample.env) Api.RStaff Sample.createStaff Sample.ambient
    Sample.store
  = Some (serverError, Sample.savedUser.1)
  ∧ users Sample.store !! Sample.savedUser.2.1 = None
  ∧ users Sample.savedUser.1
    = <[Sample.savedUser.2.1 := Sample.savedUser.2.2]> (users Sample.store)
  ∧ staff Sample.savedUser.1 = staff Sample.store.
Proof.
  apply (staff_creation_not_atomic (E := Sample.env) Sample.createStaff
           Sample.ambient Sample.store Sample.savedUser.1 Sample.savedUser.1
           Sample.ownerCtx Sample.savedUser.2).
  - reflexivity.
  - reflexivity.
  - reflexivity.
  - reflexivity.
  - vm_compute. reflexivity.
  - vm_compute. reflexivity.
Defined.

(* ===================================================================== *)
(** ** The routers on the sample store                                    *)
(* ===================================================================== *)

(** A doctor of tenant h1 creating a patient whose body names tenant h2. *)
Lemma created_records_carry_tenant_witness :
  Sample.newPatient !! "hospitalId"%string = Some (VStr "h2")
  ∧ ∃ o d, patients Sample.createdPatient.2
           = <[o := d]> (patients Sample.store)
           ∧ d !! "hospitalId"%string = Some (VStr "h1").
Proof.
  split; [reflexivity|].
  destruct (created_records_carry_tenant (E := Sample.env) Api.RPatients
              Sample.createPatient Sample.ambient Sample.store
              Sample.createdPatient.2
              (mkCtx (mkIdentity 7 "doctor" "h1") "h1")
              Sample.createdPatient.1)
    as (_ & (o & d & _ & Hs & Hd) & _).
  - reflexivity.
  - reflexivity.
  - reflexivity.
  - vm_compute. reflexivity.
  - reflexivity.
  - exists o, d. split; [exact Hs | exact Hd].
Defined.

(** The hospital owner of tenant h1 deactivating its staff member. *)
Lemma delete_soft_or_hard_witness :
  ∃ o d, staff Sample.store !! o = Some d
         ∧ Sample.deactivatedNurse.2
           = setColl Staffs
               (<[o := withStatus "inactive" Sample.ambient d]>
                  (staff Sample.store)) Sample.store.
Proof.
  destruct (delete_soft_or_hard (E := Sample.env) Sample.deactivateNurse
              Sample.ambient Sample.store Sample.deactivatedNurse.2
              Sample.ownerCtx Sample.deactivatedNurse.1 Sample.hex300)
    as (_ & Hstaff & _).
  - reflexivity.
  - reflexivity.
  - reflexivity.
  - reflexivity.
  - destruct Hstaff as (o & d & _ & Hd & Hs); [vm_compute; reflexivity|].
    exists o, d. split; [exact Hd | exact Hs].
Defined.

(** C9 as stated fails: the deactivated staff member of the sample store
    has a field other than [status] that changed, its [updatedAt]. *)
Lemma soft_delete_touches_updatedAt :
  ¬ (∀ (E : Env) (q : Request) (a : Ambient) (s s' : Store) (c : Ctx)
       (resp : Response) (x : string) (o : N) (d d' : doc),
       rmethod q = DELETE → rpath q = [x] → auth q = inr c →
       Api.api Api.RStaff q a s = Some (resp, s') → status resp = 200 →
       castObjectId x = Some o →
       staff s !! o = Some d → staff s' !! o = Some d' →
       ∀ k, k ≠ "status"%string → d' !! k = d !! k).
Proof.
  intros H.
  specialize (H Sample.env Sample.deactivateNurse Sample.ambient Sample.store
                Sample.deactivatedNurse.2 Sample.ownerCtx
                Sample.deactivatedNurse.1 Sample.hex300 300%N Sample.nurse
                (withStatus "inactive" Sample.ambient Sample.nurse)).
  assert (Hne : "updatedAt"%string ≠ "status"%string) by discriminate.
  specialize (H eq_refl eq_refl eq_refl).
  specialize (H ltac:(vm_compute; reflexivity) eq_refl eq_refl eq_refl).
  specialize (H ltac:(vm_compute; reflexivity) "updatedAt"%string Hne).
  vm_compute in H. discriminate H.
Qed.

(** The hospital owner of tenant h1 creating a doctor profile whose body
    names another user. *)
Lemma doctor_profile_binds_requester_witness :
  (∃ o d, doctors Sample.createdDoctor.2 = <[o := d]> (doctors Sample.store)
          ∧ d !! "userId"%string = Some (VId 7))
  ∧ Sample.owner !! "role"%string = Some (VStr "hospitalOwner")
  ∧ ∃ u', users Sample.createdDoctor.2 = <[7%N := u']> (users Sample.store)
          ∧ u' !! "role"%string = Some (VStr "doctor").
Proof.
  destruct (doctor_profile_binds_requester (E := Sample.env)
              Sample.createDoctor Sample.ambient Sample.store
              Sample.createdDoctor.2 Sample.ownerCtx Sample.createdDoctor.1)
    as ((o & d & _ & Hs & Hd) & Hu).
  - reflexivity.
  - reflexivity.
  - reflexivity.
  - vm_compute. reflexivity.
  - reflexivity.
  - split; [exists o, d; split; [exact Hs | exact Hd]|].
    split; [reflexivity|].
    destruct (Hu Sample.owner eq_refl) as (u' & Hu' & Hrole & _).
    exists u'. split; [exact Hu' | exact Hrole].
Defined.

(* ===================================================================== *)
(** ** Pagination                                                         *)
(* ===================================================================== *)

Section Pagination.
Context `{E : Env}.
Import Odm Api.

Lemma ceilDiv_bounds (n l : Z) :
  0 < l → (Js.ceilDiv n l - 1) * l < n ∧ n <= Js.ceilDiv n l * l.
Proof.
  intros Hl. unfold Js.ceilDiv.
  pose proof (Z.div_mod (- n) l ltac:(lia)) as Hdm.
  pose proof (Z.mod_pos_bound (- n) l Hl) as Hb.
  nia.
Qed.

Lemma selected_length (m : Model) (q : list Cond) (sort : list (string * bool))
    (s : Store) :
  List.length (selected m q sort s) = List.length (selected m q [] s).
Proof.
  unfold selected. by rewrite !(Permutation_length (sortDocs_perm _ _)).
Qed.

(** The last page holds what the pages before it left. *)
Lemma last_page_length {A} (l : list A) (lim : Z) :
  0 < lim → 1 <= Z.of_nat (List.length l) →
  let n := Z.of_nat (List.length l) in
  let p := Js.ceilDiv n lim in
  Z.of_nat (List.length (take (Z.to_nat (Z.abs lim))
                           (drop (Z.to_nat ((p - 1) * lim)) l)))
  = n - (p - 1) * lim.
Proof.
  intros Hl Hn n p.
  destruct (ceilDiv_bounds n lim Hl) as [H1 H2]. fold p in H1, H2.
  assert (Hp : 1 <= p) by nia.
  rewrite length_take, length_drop.
  assert (Hk : 0 <= (p - 1) * lim) by nia.
  assert (Hk2 : n <= (p - 1) * lim + lim) by nia.
  unfold n in *. clearbody p. clear H2 Hp.
  set (k := (p - 1) * lim) in *. clearbody k. lia.
Qed.

(** The last page: the records the pages before it left, all of them. *)
Lemma find_last_page (m : Model) (q : list Cond) (sort : list (string * bool))
    (lim : Z) (s : Store) :
  0 < lim → 1 <= Z.of_nat (List.length (selected m q [] s)) →
  let n := Z.of_nat (List.length (selected m q [] s)) in
  let p := Js.ceilDiv n lim in
  let rest := drop (Z.to_nat ((p - 1) * lim)) (selected m q sort s) in
  find m q sort ((p - 1) * lim) (Some lim) s = (s, Ok rest)
  ∧ Z.of_nat (List.length rest) = n - (p - 1) * lim.
Proof.
  intros Hl Hn n p rest.
  destruct (ceilDiv_bounds n lim Hl) as [H1 H2]. fold p in H1, H2.
  assert (1 <= p) by nia.
  pose proof (last_page_length (selected m q sort s) lim Hl) as Hlen.
  rewrite selected_length in Hlen. specialize (Hlen Hn). cbv zeta in Hlen.
  fold n p rest in Hlen.
  assert (Hrest : Z.of_nat (List.length rest) = n - (p - 1) * lim).
  { unfold rest. rewrite length_drop.
    pose proof (selected_length m q sort s) as Hs. fold n in Hs.
    assert (Z.of_nat (List.length (selected m q sort s)) = n) as Hsn
      by (unfold n; by rewrite Hs).
    assert (0 <= (p - 1) * lim) by nia. lia. }
  split; [|exact Hrest].
  unfold find. rewrite (proj2 (Z.ltb_ge _ _)) by nia.
  unfold applyLimit. destruct lim as [|lim'|lim'] eqn:Hlim; try lia.
  fold rest. rewrite take_ge; [done|]. nia.
Qed.

Lemma idOf_toJSON (e : entry) : idOf (toJSON e) = Some e.1.
Proof. unfold idOf, toJSON, prop. by rewrite lookup_insert_eq. Qed.

Lemma ids_toJSON (l : list entry) : idOf <$> (toJSON <$> l) = Some <$> l.*1.
Proof.
  induction l as [|e l IH]; [done|].
  cbn [fmap list_fmap]. rewrite idOf_toJSON. f_equal. exact IH.
Qed.

(** [populate] on every entry of a list keeps the identifiers. *)
Lemma mapM_ids (f : entry → M entry) (l : list entry) (s : Store) :
  (∀ e s, ∃ e', f e s = (s, Ok e') ∧ e'.1 = e.1) →
  ∃ l', mapM f l s = (s, Ok l') ∧ l'.*1 = l.*1.
Proof.
  intros Hf. induction l as [|e l IH]; [by exists []|].
  destruct (Hf e s) as (e' & He & Hid). destruct IH as (l' & Hl & Hids).
  exists (e' :: l'). split.
  - simpl. unfold bind. by rewrite He, Hl.
  - rewrite !fmap_cons. by rewrite Hid, Hids.
Qed.

Lemma populateAll_ids (e : entry) (s : Store) :
  ∃ e', AppointmentsRouter.populateAll e s = (s, Ok e') ∧ e'.1 = e.1.
Proof.
  unfold AppointmentsRouter.populateAll, bind.
  destruct (populate_run Patient "patientId"
              ["firstName"; "lastName"; "email"; "phone"]%string e s)
    as (e1 & -> & H1).
  destruct (populate_run Doctor "doctorId"
              ["specialization"; "department"]%string e1 s) as (e2 & -> & H2).
  destruct (populate_run User "createdBy" ["name"]%string e2 s)
    as (e3 & -> & H3).
  exists e3. split; [done|]. congruence.
Qed.

Lemma countDocuments_run (m : Model) (q : list Cond) (s : Store) :
  countDocuments m q s = (s, Ok (Z.of_nat (List.length (selected m q [] s)))).
Proof. reflexivity. Qed.

Lemma staff_populateUser_run (e : entry) (s : Store) :
  ∃ e', StaffRouter.populateUser e s = (s, Ok e') ∧ e'.1 = e.1.
Proof.
  destruct (populate_run User "userId" ["email"; "role"; "createdAt"]%string e s)
    as (e' & He & Hid). by exists e'.
Qed.

(** The three list handlers on the last page. *)
Lemma list_last_page (r : Resource) (q : Request) (c : Ctx)
    (ps : gmap string string) (errs : list string) (a : Ambient) (s : Store)
    (build : Request → Ctx → M (list Cond)) (query : list Cond) :
  listQuery r = Some build → build q c s = (s, Ok query) →
  let n := Z.of_nat (List.length (selected (modelOf r) query [] s)) in
  let lim := Js.orElse (Js.parseIntOpt (rquery q !! "limit"%string)) 10 in
  0 < lim → 1 <= n →
  Js.parseIntOpt (rquery q !! "page"%string) = Some (Js.ceilDiv n lim) →
  ∃ docs,
    match r with
    | RPatients => PatientsRouter.listPatients
    | RAppointments => AppointmentsRouter.listAppointments
    | RStaff => StaffRouter.listStaff
    | RDoctors => DoctorsRouter.listDoctors
    end q c ps errs a s
    = (mkResponse 200 true None (Some (VArr docs)) None
         (Some (mkPagination (Js.ceilDiv n lim) lim n (Js.ceilDiv n lim))), s)
    ∧ idOf <$> docs
      = Some <$> (drop (Z.to_nat ((Js.ceilDiv n lim - 1) * lim))
                    (selected (modelOf r) query (listSort r) s)).*1
    ∧ Z.of_nat (List.length docs) = n - (Js.ceilDiv n lim - 1) * lim.
Proof.
  intros Hb Hq n lim Hl Hn Hp.
  destruct (ceilDiv_bounds n lim Hl) as [H1 H2].
  assert (Hpage : Js.orElse (Js.parseIntOpt (rquery q !! "page"%string)) 1
                  = Js.ceilDiv n lim).
  { rewrite Hp. unfold Js.orElse. destruct (Js.ceilDiv n lim) eqn:Hc; [nia|done..]. }
  destruct r; cbn [listQuery] in Hb; try discriminate Hb; injection Hb as <-.
  - destruct (find_last_page (modelOf RPatients) query (listSort RPatients)
                lim s Hl Hn) as (Hfind & Hlen).
    fold n in Hfind, Hlen.
    set (rest := drop (Z.to_nat ((Js.ceilDiv n lim - 1) * lim))
                   (selected (modelOf RPatients) query (listSort RPatients) s))
      in *.
    exists (toJSON <$> rest).
    split; [|split; [apply ids_toJSON | by rewrite length_fmap]].
    unfold PatientsRouter.listPatients, tryCatch, bind.
    rewrite Hq, Hpage. fold lim.
    change (find Patient) with (find (modelOf RPatients)).
    cbn [listSort] in Hfind. rewrite Hfind.
    change (countDocuments Patient) with (countDocuments (modelOf RPatients)).
    by rewrite countDocuments_run.
  - destruct (find_last_page (modelOf RAppointments) query
                (listSort RAppointments) lim s Hl Hn) as (Hfind & Hlen).
    fold n in Hfind, Hlen.
    set (rest := drop (Z.to_nat ((Js.ceilDiv n lim - 1) * lim))
                   (selected (modelOf RAppointments) query
                      (listSort RAppointments) s)) in *.
    destruct (mapM_ids AppointmentsRouter.populateAll rest s
                populateAll_ids) as (docs & Hdocs & Hids).
    exists (toJSON <$> docs).
    split; [|split; [by rewrite ids_toJSON, Hids|]]; cycle 1.
    { rewrite length_fmap, <- Hlen.
      by rewrite <- (length_fmap fst docs), Hids, length_fmap. }
    unfold AppointmentsRouter.listAppointments, tryCatch, bind.
    rewrite Hq, Hpage. fold lim.
    change (find Appointment) with (find (modelOf RAppointments)).
    cbn [listSort] in Hfind. rewrite Hfind, Hdocs.
    change (countDocuments Appointment)
      with (countDocuments (modelOf RAppointments)).
    by rewrite countDocuments_run.
  - destruct (find_last_page (modelOf RStaff) query (listSort RStaff)
                lim s Hl Hn) as (Hfind & Hlen).
    fold n in Hfind, Hlen.
    set (rest := drop (Z.to_nat ((Js.ceilDiv n lim - 1) * lim))
                   (selected (modelOf RStaff) query (listSort RStaff) s)) in *.
    destruct (mapM_ids StaffRouter.populateUser rest s
                staff_populateUser_run) as (docs & Hdocs & Hids).
    exists (toJSON <$> docs).
    split; [|split; [by rewrite ids_toJSON, Hids|]]; cycle 1.
    { rewrite length_fmap, <- Hlen.
      by rewrite <- (length_fmap fst docs), Hids, length_fmap. }
    unfold StaffRouter.listStaff, tryCatch, bind.
    rewrite Hq, Hpage. fold lim.
    change (find Staff) with (find (modelOf RStaff)).
    cbn [listSort] in Hfind. rewrite Hfind, Hdocs.
    change (countDocuments Staff) with (countDocuments (modelOf RStaff)).
    by rewrite countDocuments_run.
Qed.

(** The three list handlers on a negative page: the skip is negative. *)
Lemma list_negative_page (r : Resource) (q : Request) (c : Ctx)
    (ps : gmap string string) (errs : list string) (a : Ambient) (s : Store)
    (build : Request → Ctx → M (list Cond)) (query : list Cond) (p : Z) :
  listQuery r = Some build → build q c s = (s, Ok query) →
  0 < Js.orElse (Js.parseIntOpt (rquery q !! "limit"%string)) 10 →
  Js.parseIntOpt (rquery q !! "page"%string) = Some p → p < 0 →
  match r with
  | RPatients => PatientsRouter.listPatients
  | RAppointments => AppointmentsRouter.listAppointments
  | RStaff => StaffRouter.listStaff
  | RDoctors => DoctorsRouter.listDoctors
  end q c ps errs a s
  = (serverError, s).
Proof.
  intros Hb Hq Hl Hp Hneg.
  assert (Hpage : Js.orElse (Js.parseIntOpt (rquery q !! "page"%string)) 1 = p).
  { rewrite Hp. unfold Js.orElse. destruct p; [lia|done..]. }
  destruct r; cbn [listQuery] in Hb; try discriminate Hb; injection Hb as <-;
    unfold PatientsRouter.listPatients, AppointmentsRouter.listAppointments,
      StaffRouter.listStaff, tryCatch, bind;
    rewrite Hq, Hpage; unfold find;
    by rewrite (proj2 (Z.ltb_lt _ _)) by nia.
Qed.
End Pagination.

Section PaginationApi.
Context `{E : Env}.
Import Odm Api.

Lemma page_default (r : Resource) (q : Request) (a : Ambient) (s : Store) :
  rmethod q = GET → rpath q = [] →
  Js.orElse (Js.parseIntOpt (rquery q !! "page"%string)) 1 = 1 →
  api r q a s = api r (withQuery q "page" "1") a s.
Proof.
  intros Hm Hp Hpage.
  unfold api, handle. cbn [rmethod rpath withQuery]. rewrite Hm, Hp.
  destruct r;
    [ change (dispatch PatientsRouter.router GET [])
        with (Some (mkRoute GET [] None [] PatientsRouter.ListPatients,
                    (∅ : gmap string string)))
    | change (dispatch AppointmentsRouter.router GET [])
        with (Some (mkRoute GET [] None [] AppointmentsRouter.ListAppointments,
                    (∅ : gmap string string)))
    | change (dispatch StaffRouter.router GET [])
        with (Some (mkRoute GET [] (Some [hospitalOwner; staffRole]) []
                      StaffRouter.ListStaff, (∅ : gmap string string)))
    | change (dispatch DoctorsRouter.router GET [])
        with (Some (mkRoute GET [] None [] DoctorsRouter.ListDoctors,
                    (∅ : gmap string string))) ];
    f_equal; unfold runRoute;
    change (auth (withQuery q "page" "1")) with (auth q);
    destruct (auth q) as [?|c]; try reflexivity;
    cbn [roles checks label from_option runChecks fold_left];
    try (destruct (authorize _ _); [reflexivity|]);
    cbn [PatientsRouter.handlers AppointmentsRouter.handlers
         StaffRouter.handlers DoctorsRouter.handlers];
    try reflexivity;
    unfold PatientsRouter.listPatients, AppointmentsRouter.listAppointments,
      StaffRouter.listStaff, PatientsRouter.listQuery,
      AppointmentsRouter.listQuery, StaffRouter.listQuery, param;
    cbn [rquery withBody withQuery rbody];
    rewrite lookup_insert_eq, !lookup_insert_ne by done;
    rewrite Hpage; reflexivity.
Qed.

(** C4 (amended).  For each paginated list route (GET / of patients,
    appointments and staff), [n >= 1] records matching its query and a
    positive limit [lim], both within the integers a number holds
    exactly (up to 2^53): the request for page [ceil (n / lim)] is
    answered 200 with the records the pages before it left -- the
    documents of the answer carry, in the order of the sort, the
    identifiers of the matching records from position
    [(ceil (n / lim) - 1) * lim] on, [n - (ceil (n / lim) - 1) * lim] of
    them -- and with a pagination block whose [page] equals its [pages].
    A page parameter that is absent, not a number or 0 is answered as
    page 1 is; and a negative page is not: its skip is negative, which
    the store rejects, and the answer is a server error. *)
Theorem pagination_last_page (r : Resource) (q : Request) (a : Ambient)
    (s : Store) (c : Ctx) (rs : option (list string))
    (build : Request → Ctx → M (list Cond)) (query : list Cond) :
  rmethod q = GET → rpath q = [] → auth q = inr c →
  rolesOf r GET [] = Some rs → allowed rs c = true →
  listQuery r = Some build → build q c s = (s, Ok query) →
  let n := Z.of_nat (List.length (selected (modelOf r) query [] s)) in
  let lim := Js.orElse (Js.parseIntOpt (rquery q !! "limit"%string)) 10 in
  0 < lim →
  (1 <= n → n < 9007199254740992 → lim <= 9007199254740992 →
   Js.parseIntOpt (rquery q !! "page"%string) = Some (Js.ceilDiv n lim) →
   ∃ docs,
     api r q a s
     = Some (mkResponse 200 true None (Some (VArr docs)) None
               (Some (mkPagination (Js.ceilDiv n lim) lim n (Js.ceilDiv n lim))),
             s)
     ∧ idOf <$> docs
       = Some <$> (drop (Z.to_nat ((Js.ceilDiv n lim - 1) * lim))
                     (selected (modelOf r) query (listSort r) s)).*1
     ∧ Z.of_nat (List.length docs) = n - (Js.ceilDiv n lim - 1) * lim)
  ∧ (Js.orElse (Js.parseIntOpt (rquery q !! "page"%string)) 1 = 1 →
     api r q a s = api r (withQuery q "page" "1") a s)
  ∧ (∀ p, Js.parseIntOpt (rquery q !! "page"%string) = Some p → p < 0 →
          api r q a s = Some (serverError, s)).
Proof.
  intros Hm Hp Hauth Hroles Hallowed Hb Hq n lim Hl.
  split; [|split; [by apply page_default|]]; cycle 1.
  { intros p Hpage Hneg.
    unfold api, handle. rewrite Hm, Hp.
    destruct r; cbn [listQuery] in Hb; try discriminate Hb; injection Hb as <-.
    - change (dispatch PatientsRouter.router GET [])
        with (Some (mkRoute GET [] None [] PatientsRouter.ListPatients,
                    (∅ : gmap string string))).
      f_equal. unfold runRoute. rewrite Hauth.
      exact (list_negative_page RPatients (withBody q (rbody q)) c ∅ [] a s _
               query p eq_refl Hq Hl Hpage Hneg).
    - change (dispatch AppointmentsRouter.router GET [])
        with (Some (mkRoute GET [] None [] AppointmentsRouter.ListAppointments,
                    (∅ : gmap string string))).
      f_equal. unfold runRoute. rewrite Hauth.
      exact (list_negative_page RAppointments (withBody q (rbody q)) c ∅ [] a
               s _ query p eq_refl Hq Hl Hpage Hneg).
    - change (dispatch StaffRouter.router GET [])
        with (Some (mkRoute GET [] (Some [hospitalOwner; staffRole]) []
                      StaffRouter.ListStaff, (∅ : gmap string string))).
      f_equal. unfold runRoute. rewrite Hauth.
      cbn [roles checks label from_option].
      injection Hroles as <-. unfold allowed in Hallowed.
      unfold authorize. rewrite Hallowed.
      exact (list_negative_page RStaff (withBody q (rbody q)) c ∅ [] a s _
               query p eq_refl Hq Hl Hpage Hneg). }
  intros Hn _ _ Hpage.
  unfold api, handle. rewrite Hm, Hp.
  destruct r; cbn [listQuery] in Hb; try discriminate Hb; injection Hb as <-.
  - destruct (list_last_page RPatients (withBody q (rbody q)) c ∅ [] a s _
                query eq_refl Hq Hl Hn Hpage) as (docs & Hrun & Hids & Hlen).
    exists docs. split; [|split; [exact Hids | exact Hlen]].
    change (dispatch PatientsRouter.router GET [])
      with (Some (mkRoute GET [] None [] PatientsRouter.ListPatients,
                  (∅ : gmap string string))).
    f_equal. unfold runRoute. rewrite Hauth. exact Hrun.
  - destruct (list_last_page RAppointments (withBody q (rbody q)) c ∅ [] a s _
                query eq_refl Hq Hl Hn Hpage) as (docs & Hrun & Hids & Hlen).
    exists docs. split; [|split; [exact Hids | exact Hlen]].
    change (dispatch AppointmentsRouter.router GET [])
      with (Some (mkRoute GET [] None [] AppointmentsRouter.ListAppointments,
                  (∅ : gmap string string))).
    f_equal. unfold runRoute. rewrite Hauth. exact Hrun.
  - destruct (list_last_page RStaff (withBody q (rbody q)) c ∅ [] a s _
                query eq_refl Hq Hl Hn Hpage) as (docs & Hrun & Hids & Hlen).
    exists docs. split; [|split; [exact Hids | exact Hlen]].
    change (dispatch StaffRouter.router GET [])
      with (Some (mkRoute GET [] (Some [hospitalOwner; staffRole]) []
                    StaffRouter.ListStaff, (∅ : gmap string string))).
    f_equal. unfold runRoute. rewrite Hauth.
    cbn [roles checks label from_option].
    injection Hroles as <-. unfold allowed in Hallowed.
    unfold authorize. rewrite Hallowed. exact Hrun.
Qed.
End PaginationApi.

(** Three patients of tenant h1, two to a page: page 2 is the last one and
    holds the third. *)
Lemma pagination_last_page_witness :
  ∃ docs,
    Api.api (E := Sample.env) Api.RPatients (Sample.listPage "2" "2")
      Sample.ambient Sample.ward
    = Some (mkResponse 200 true None (Some (VArr docs)) None
              (Some (mkPagination 2 2 3 2)), Sample.ward)
    ∧ idOf <$> docs = [Some 103%N]
    ∧ Z.of_nat (List.length docs) = 1.
Proof.
  destruct (pagination_last_page (E := Sample.env) Api.RPatients
              (Sample.listPage "2" "2") Sample.ambient Sample.ward
              (mkCtx (mkIdentity 7 "doctor" "h1") "h1") None
              (PatientsRouter.listQuery (E := Sample.env))
              [CStr "hospitalId" "h1"])
    as (Hlast & _ & _).
  - reflexivity.
  - reflexivity.
  - reflexivity.
  - reflexivity.
  - reflexivity.
  - reflexivity.
  - reflexivity.
  - vm_compute. reflexivity.
  - destruct Hlast as (docs & Hrun & Hids & Hlen).
    + vm_compute. discriminate.
    + vm_compute. reflexivity.
    + vm_compute. discriminate.
    + vm_compute. reflexivity.
    + exists docs. split; [exact Hrun|]. split; [exact Hids | exact Hlen].
Defined.

(** C4 as stated fails twice.  A negative page is not answered as page 1
    is: page -3 of the sample store is a server error.  And with no
    matching record the page [ceil (0 / 10) = 0] holds no record, not the
    [0 - (0 - 1) * 10 = 10] of the formula. *)
Lemma pagination_claim_fails :
  ¬ (∀ (E : Env) (r : Api.Resource) (q : Request) (a : Ambient) (s : Store)
       (p : Z),
       rmethod q = GET → rpath q = [] →
       Js.parseIntOpt (rquery q !! "page"%string) = Some p → p <= 0 →
       Api.api r q a s = Api.api r (withQuery q "page" "1") a s)
  ∧ ¬ (∀ (E : Env) (q : Request) (a : Ambient) (s : Store) (c : Ctx)
         (query : list Cond),
         rmethod q = GET → rpath q = [] → auth q = inr c →
         PatientsRouter.listQuery q c s = (s, Ok query) →
         let n := Z.of_nat (List.length (Odm.selected Odm.Patient query [] s)) in
         let lim := Js.orElse (Js.parseIntOpt (rquery q !! "limit"%string)) 10 in
         0 < lim →
         Js.parseIntOpt (rquery q !! "page"%string) = Some (Js.ceilDiv n lim) →
         ∃ resp docs,
           Api.api Api.RPatients q a s = Some (resp, s)
           ∧ data resp = Some (VArr docs)
           ∧ Z.of_nat (List.length docs) = n - (Js.ceilDiv n lim - 1) * lim).
Proof.
  split; intros H.
  - specialize (H Sample.env Api.RPatients (Sample.listPage "-3" "2")
                  Sample.ambient Sample.ward (-3) eq_refl eq_refl eq_refl
                  ltac:(lia)).
    vm_compute in H. discriminate H.
  - specialize (H Sample.env (Sample.listPage "0" "10") Sample.ambient
                  (mkStore ∅ ∅ ∅ ∅ ∅)
                  (mkCtx (mkIdentity 7 "doctor" "h1") "h1")
                  [CStr "hospitalId" "h1"] eq_refl eq_refl eq_refl eq_refl).
    cbv zeta in H.
    destruct H as (resp & docs & Hrun & Hdata & Hlen).
    + vm_compute. reflexivity.
    + vm_compute. reflexivity.
    + vm_compute in Hrun. injection Hrun as <-.
      vm_compute in Hdata. injection Hdata as <-.
      vm_compute in Hlen. discriminate Hlen.
Qed.

(* ===================================================================== *)
(** ** What a request may write                                      *)
(* ===================================================================== *)

(** Membership and non-membership in a list that is written out. *)
Ltac isin := repeat first [apply list_elem_of_here | apply list_elem_of_further].
Ltac notin :=
  rewrite ?not_elem_of_cons; repeat split; solve [done | apply not_elem_of_nil].

Section FrameFacts.
Context `{E : Env}.
Import Odm Api.

Lemma touches_refl (cs : list Coll) (s : Store) : touches cs s s.
Proof. by intros c _. Qed.

Lemma touches_trans (cs : list Coll) (s1 s2 s3 : Store) :
  touches cs s1 s2 → touches cs s2 s3 → touches cs s1 s3.
Proof. intros H1 H2 c Hc. by rewrite (H2 c Hc), (H1 c Hc). Qed.

Lemma touches_setColl (c : Coll) (x : collection) (cs : list Coll) (s : Store) :
  c ∈ cs → touches cs s (setColl c x s).
Proof.
  intros Hc c' Hc'. assert (c' ≠ c) by (by intros ->).
  by destruct c, c', s.
Qed.

Lemma touches_nil (s s' : Store) : touches [] s s' → s' = s.
Proof.
  intros H. destruct s, s'.
  pose proof (H Patients) as H1. pose proof (H Appointments) as H2.
  pose proof (H Staffs) as H3. pose proof (H Doctors) as H4.
  pose proof (H Users) as H5. simpl in *.
  rewrite H1, H2, H3, H4, H5; [done | by intros ?%elem_of_nil..].
Qed.

Lemma touches_preorder (cs : list Coll) : preorder (touches cs).
Proof. split; [apply touches_refl | apply touches_trans]. Qed.

End FrameFacts.

(** The operations that do not write, and sequencing, for any relation
    that composes. *)
Section Steps.
Context `{E : Env}.
Import Odm Api.
Variable R : Store → Store → Prop.
Hypothesis HR : preorder R.

Lemma steps_ret {A} (a : A) : steps R (ret a).
Proof. intros s s' o [= <- _]. apply HR. Qed.

Lemma steps_throw {A} : steps R (throw (A := A)).
Proof. intros s s' o [= <- _]. apply HR. Qed.

Lemma steps_lift {A} (o : option A) : steps R (lift o).
Proof. destruct o; [apply steps_ret | apply steps_throw]. Qed.

Lemma steps_bind {A B} (m : M A) (k : A → M B) :
  steps R m → (∀ a, steps R (k a)) → steps R (bind m k).
Proof.
  intros Hm Hk s s' o. unfold bind. destruct (m s) as [s1 [a|]] eqn:Hms.
  - intros Hks. eapply HR; [by eapply Hm | by eapply Hk].
  - intros [= <- _]. by eapply Hm.
Qed.

Lemma steps_findOne (m : Model) (f : IdFilter) : steps R (findOne m f).
Proof. intros s s' o [= <- _]. apply HR. Qed.

Lemma steps_find (m : Model) (q : list Cond) (sort : list (string * bool))
    (skip : Z) (lim : option Z) :
  steps R (find m q sort skip lim).
Proof.
  intros s s' o. unfold find.
  destruct (skip <? 0); intros [= <- _]; apply HR.
Qed.

Lemma steps_countDocuments (m : Model) (q : list Cond) :
  steps R (countDocuments m q).
Proof. intros s s' o [= <- _]. apply HR. Qed.

Lemma steps_populate (target : Model) (k : string) (sel : list string)
    (e : entry) :
  steps R (populate target k sel e).
Proof.
  intros s s' o. unfold populate.
  destruct (e.2 !! k) as [[]|]; intros [= <- _]; apply HR.
Qed.

Lemma steps_mapM {A B} (f : A → M B) (l : list A) :
  (∀ a, steps R (f a)) → steps R (mapM f l).
Proof.
  intros Hf. induction l as [|a l IH]; [apply steps_ret|].
  simpl. apply steps_bind; [done|]. intros b.
  apply steps_bind; [done|]. intros bs. apply steps_ret.
Qed.

Lemma tryCatch_steps (body : M Response) (s s' : Store) (resp : Response) :
  steps R body → tryCatch body s = (resp, s') → R s s'.
Proof.
  intros Hb. unfold tryCatch. destruct (body s) as [s1 [r|]] eqn:Hbs;
    intros [= _ <-]; by eapply Hb.
Qed.

End Steps.

(** The three writes touch the collection of their model. *)
Section WriteFrames.
Context `{E : Env}.
Import Odm Api.

Lemma writes_save (cs : list Coll) (m : Model) (oid : N) (t : Z) (data : doc) :
  mcoll m ∈ cs → steps (touches cs) (save m oid t data).
Proof.
  intros Hc s s' o. unfold save.
  destruct (newDocument _ _ _ _) as [[id d]|];
    [|intros [= <- _]; apply touches_refl].
  destruct (_ && _ && _); intros [= <- _];
    [by apply touches_setColl | apply touches_refl].
Qed.

Lemma writes_findOneAndUpdate (cs : list Coll) (m : Model) (f : IdFilter)
    (t : Z) (body : doc) (rv : bool) :
  mcoll m ∈ cs → steps (touches cs) (findOneAndUpdate m f t body rv).
Proof.
  intros Hc s s' o. unfold findOneAndUpdate.
  destruct (prepareUpdate _ _ _ _) as [ap|];
    [|intros [= <- _]; apply touches_refl].
  destruct (lookupBy _ _); [|intros [= <- _]; apply touches_refl].
  destruct (ap _ _); [|intros [= <- _]; apply touches_refl].
  destruct (uniqueClash _ _ _); intros [= <- _];
    [apply touches_refl | by apply touches_setColl].
Qed.

Lemma writes_findOneAndDelete (cs : list Coll) (m : Model) (f : IdFilter) :
  mcoll m ∈ cs → steps (touches cs) (findOneAndDelete m f).
Proof.
  intros Hc s s' o. unfold findOneAndDelete.
  destruct (lookupBy _ _); intros [= <- _];
    [by apply touches_setColl | apply touches_refl].
Qed.

End WriteFrames.

(** A handler body taken apart: sequencing and the operations that do not
    write are discharged, the writes are left to [tac]. *)
Ltac stepwise HR tac :=
  repeat first
    [ apply (steps_ret _ HR) | apply (steps_throw _ HR)
    | apply (steps_lift _ HR) | apply (steps_find _ HR)
    | apply (steps_findOne _ HR) | apply (steps_countDocuments _ HR)
    | apply (steps_populate _ HR)
    | apply (steps_bind _ HR); [|intros ?]
    | apply (steps_mapM _ HR); intros ?
    | match goal with
      | |- steps _ (match ?x with _ => _ end) => destruct x
      end
    | tac ].

Ltac frame :=
  match goal with
  | |- steps (touches ?cs) _ =>
      stepwise (touches_preorder cs)
        ltac:(first [ solve [apply writes_save; cbn; isin]
                    | solve [apply writes_findOneAndUpdate; cbn; isin]
                    | solve [apply writes_findOneAndDelete; cbn; isin] ])
  end.

(** The routes of a router that is written out, one by one. *)
Ltac routes H :=
  repeat (apply elem_of_cons in H as [->|H]); [..|by apply elem_of_nil in H].

Section RouterFrames.
Context `{E : Env}.
Import Odm Api.

Lemma dispatch_In {L} (router : list (Route L)) (m : Method) (p : list string)
    (r : Route L) (ps : gmap string string) :
  dispatch router m p = Some (r, ps) →
  r ∈ router ∧ methodEq (method r) m = true ∧ matchPath (pattern r) p = Some ps.
Proof.
  induction router as [|r0 rest IH]; [done|]. simpl.
  destruct (methodEq (method r0) m) eqn:Hm.
  - destruct (matchPath (pattern r0) p) as [ps0|] eqn:Hp.
    + intros [= <- <-]. split; [apply list_elem_of_here|done].
    + intros H. destruct (IH H) as (? & ? & ?).
      split; [by apply list_elem_of_further|done].
  - intros H. destruct (IH H) as (? & ? & ?).
    split; [by apply list_elem_of_further|done].
Qed.

Lemma runRoute_touches {L} (handlers : L → Handler) (w : L → list Coll)
    (r : Route L) (ps : gmap string string) (q : Request) (a : Ambient)
    (s s' : Store) (resp : Response) :
  (∀ l q c ps errs a s resp s',
     handlers l q c ps errs a s = (resp, s') → touches (w l) s s') →
  runRoute handlers r ps q a s = (resp, s') → touches (w (label r)) s s'.
Proof.
  intros Hh. unfold runRoute.
  destruct (auth q) as [r0|c]; [intros [= _ <-]; apply touches_refl|].
  destruct (from_option _ _ _); [intros [= _ <-]; apply touches_refl|].
  destruct (runChecks _ _) as [b errs]. apply Hh.
Qed.

Lemma patients_touches l q c ps errs a s resp s' :
  PatientsRouter.handlers l q c ps errs a s = (resp, s') →
  touches (patientsWrites l) s s'.
Proof.
  destruct l; apply tryCatch_steps;
    unfold PatientsRouter.listQuery; frame.
Qed.

Lemma appointments_touches l q c ps errs a s resp s' :
  AppointmentsRouter.handlers l q c ps errs a s = (resp, s') →
  touches (appointmentsWrites l) s s'.
Proof.
  destruct l; apply tryCatch_steps;
    unfold AppointmentsRouter.listQuery, AppointmentsRouter.populateAll; frame.
Qed.

Lemma staff_touches l q c ps errs a s resp s' :
  StaffRouter.handlers l q c ps errs a s = (resp, s') →
  touches (staffWrites l) s s'.
Proof.
  destruct l; apply tryCatch_steps;
    unfold StaffRouter.listQuery, StaffRouter.populateUser; frame.
Qed.

Lemma doctors_touches l q c ps errs a s resp s' :
  DoctorsRouter.handlers l q c ps errs a s = (resp, s') →
  touches (doctorsWrites l) s s'.
Proof.
  destruct l; apply tryCatch_steps;
    unfold DoctorsRouter.populateUser; frame.
Qed.

(** X1.  Every request writes at most to the collections of its router and
    method; a GET leaves the whole store as it was. *)
Theorem requests_write_own_collections (r : Resource) (q : Request)
    (a : Ambient) (s s' : Store) (resp : Response) :
  api r q a s = Some (resp, s') →
  touches (writesOf r (rmethod q)) s s' ∧ (rmethod q = GET → s' = s).
Proof.
  intros Hapi.
  assert (Ht : touches (writesOf r (rmethod q)) s s').
  { unfold api, handle in Hapi.
    destruct r;
      destruct (dispatch _ _ _) as [[rt ps]|] eqn:Hd; try done;
      injection Hapi as Hrun;
      apply dispatch_In in Hd as (Hin & Hm & _).
    - apply (runRoute_touches _ patientsWrites) in Hrun;
        [|apply patients_touches].
      routes Hin; destruct (rmethod q); try done.
    - apply (runRoute_touches _ appointmentsWrites) in Hrun;
        [|apply appointments_touches].
      routes Hin; destruct (rmethod q); try done.
    - apply (runRoute_touches _ staffWrites) in Hrun;
        [|apply staff_touches].
      routes Hin; destruct (rmethod q); try done.
    - apply (runRoute_touches _ doctorsWrites) in Hrun;
        [|apply doctors_touches].
      routes Hin; destruct (rmethod q); try done. }
  split; [done|]. intros Hget. rewrite Hget in Ht. destruct r; by apply touches_nil.
Qed.

End RouterFrames.

Section Routes.
Context `{E : Env}.
Import Odm Api.

(** What a router did with a request that passed [auth]: the role gate
    refused it, or the handler of the route ran on the checked body. *)
Lemma handle_inv {L} (router : list (Route L)) (handlers : L → Handler)
    (q : Request) (a : Ambient) (s s' : Store) (resp : Response) (c : Ctx) :
  auth q = inr c → handle router handlers q a s = Some (resp, s') →
  ∃ rt ps, dispatch router (rmethod q) (rpath q) = Some (rt, ps)
    ∧ (allowed (roles rt) c = false ∧ resp = forbidden ∧ s' = s
       ∨ allowed (roles rt) c = true
         ∧ handlers (label rt)
             (withBody q (runChecks (checks rt) (rbody q)).1) c ps
             (runChecks (checks rt) (rbody q)).2 a s = (resp, s')).
Proof.
  intros Hauth. unfold handle.
  destruct (dispatch _ _ _) as [[rt ps]|]; [|done]. intros [= Hrun].
  exists rt, ps. split; [done|]. unfold runRoute in Hrun. rewrite Hauth in Hrun.
  unfold allowed. destruct (roles rt) as [rs|]; simpl in Hrun.
  - unfold authorize in Hrun. case_bool_decide.
    + right. split; [done|]. by destruct (runChecks _ _).
    + left. by injection Hrun as <- <-.
  - right. split; [done|]. by destruct (runChecks _ _).
Qed.

Lemma castId_ok (x : string) (o : N) (s s' : Store) (o' : N) :
  castId x = Some o → lift (castId x) s = (s', Ok o') → o' = o ∧ s' = s.
Proof. intros ->. by intros [= <- <-]. Qed.

End Routes.

(* ===================================================================== *)
(** ** Client errors write nothing                                   *)
(* ===================================================================== *)

Section Rejections.
Context `{E : Env}.
Import Odm Api.

Lemma findOneAndDelete_ok (m : Model) (f : IdFilter) (s s' : Store)
    (r : option entry) :
  findOneAndDelete m f s = (s', Ok r) →
  match r with
  | None => lookupBy f (getColl (mcoll m) s) = None ∧ s' = s
  | Some e =>
      lookupBy f (getColl (mcoll m) s) = Some e.2 ∧ e.1 = f_id f
      ∧ s' = setColl (mcoll m) (delete (f_id f) (getColl (mcoll m) s)) s
  end.
Proof.
  unfold findOneAndDelete. destruct (lookupBy _ _) as [d|]; by intros [= <- <-].
Qed.

Lemma findOneAndUpdate_None (m : Model) (f : IdFilter) (t : Z) (body : doc)
    (rv : bool) (s s' : Store) :
  findOneAndUpdate m f t body rv s = (s', Ok None) → s' = s.
Proof. intros H. by apply findOneAndUpdate_ok in H as (ap & _ & _ & ->). Qed.

Lemma findOneAndDelete_None (m : Model) (f : IdFilter) (s s' : Store) :
  findOneAndDelete m f s = (s', Ok None) → s' = s.
Proof. intros H. by apply findOneAndDelete_ok in H as [_ ->]. Qed.

Lemma findOne_ok (m : Model) (f : IdFilter) (s s' : Store) (r : option entry) :
  findOne m f s = (s', Ok r) →
  s' = s ∧ r = (λ d, (f_id f, d)) <$> lookupBy f (getColl (mcoll m) s).
Proof. by intros [= <- <-]. Qed.

End Rejections.

(** Unwinding a run that returned: every bind is split, and every
    return and lift is read off. *)
Ltac unwind :=
  repeat match goal with
  | H : bind _ _ _ = (_, Ok _) |- _ =>
      let H1 := fresh "Hstep" in
      apply bind_ok in H as (? & ? & H1 & H); cbv beta zeta in H
  | H : ret _ _ = (_, Ok _) |- _ => apply ret_ok in H as [? ?]; subst
  | H : lift _ _ = (_, Ok _) |- _ => apply lift_ok in H as [? ?]; subst
  end.

(** A handler that answers with a client error has written nothing:
    either the answer precedes every write, or the only operation before it
    selected no record. *)
Ltac quiet Hst :=
  unwind;
  try match goal with
      | H : match ?x with _ => _ end _ = _ |- _ => destruct x
      end;
  unwind;
  first [ simpl in Hst; lia
        | by eapply findOneAndUpdate_None
        | by eapply findOneAndDelete_None
        | done ].

Section ClientErrors.
Context `{E : Env}.
Import Odm Api.

Lemma patients_quiet l q c ps errs a s resp s' :
  PatientsRouter.handlers l q c ps errs a s = (resp, s') →
  400 <= status resp < 500 → s' = s.
Proof.
  intros H Hst.
  destruct l;
    try (apply patients_touches in H; by apply touches_nil);
    (apply tryCatch_ok in H; [|lia]); cbv beta zeta in H;
    [destruct errs|..]; quiet Hst.
Qed.

Lemma appointments_quiet l q c ps errs a s resp s' :
  AppointmentsRouter.handlers l q c ps errs a s = (resp, s') →
  400 <= status resp < 500 → s' = s.
Proof.
  intros H Hst.
  destruct l;
    try (apply appointments_touches in H; by apply touches_nil);
    (apply tryCatch_ok in H; [|lia]); cbv beta zeta in H; quiet Hst.
Qed.

Lemma staff_quiet l q c ps errs a s resp s' :
  StaffRouter.handlers l q c ps errs a s = (resp, s') →
  400 <= status resp < 500 → s' = s.
Proof.
  intros H Hst.
  destruct l;
    try (apply staff_touches in H; by apply touches_nil);
    (apply tryCatch_ok in H; [|lia]); cbv beta zeta in H; quiet Hst.
Qed.

Lemma doctors_quiet l q c ps errs a s resp s' :
  DoctorsRouter.handlers l q c ps errs a s = (resp, s') →
  400 <= status resp < 500 → s' = s.
Proof.
  intros H Hst.
  destruct l;
    try (apply doctors_touches in H; by apply touches_nil);
    (apply tryCatch_ok in H; [|lia]); cbv beta zeta in H; quiet Hst.
Qed.

Lemma runRoute_quiet {L} (handlers : L → Handler) (r : Route L)
    (ps : gmap string string) (q : Request) (a : Ambient) (s s' : Store)
    (resp : Response) :
  (∀ l q c ps errs a s resp s',
     handlers l q c ps errs a s = (resp, s') →
     400 <= status resp < 500 → s' = s) →
  runRoute handlers r ps q a s = (resp, s') →
  400 <= status resp < 500 → s' = s.
Proof.
  intros Hh. unfold runRoute.
  destruct (auth q) as [r0|c]; [by intros [= _ <-]|].
  destruct (from_option _ _ _); [by intros [= _ <-]|].
  destruct (runChecks _ _) as [b errs]. apply Hh.
Qed.

(** X2.  A request answered with a client error (400, 401, 403, 404) leaves the
    store as it was. *)
Theorem client_errors_write_nothing (r : Resource) (q : Request)
    (a : Ambient) (s s' : Store) (resp : Response) :
  api r q a s = Some (resp, s') → 400 <= status resp < 500 → s' = s.
Proof.
  intros Hapi Hst. unfold api, handle in Hapi.
  destruct r; destruct (dispatch _ _ _) as [[rt ps]|]; try done;
    injection Hapi as Hrun; revert Hrun Hst; apply runRoute_quiet.
  - apply patients_quiet.
  - apply appointments_quiet.
  - apply staff_quiet.
  - apply doctors_quiet.
Qed.

End ClientErrors.

(* ===================================================================== *)
(** ** What the reads return                                         *)
(* ===================================================================== *)

Section ReadFacts.
Context `{E : Env}.
Import Odm Api.

Lemma tryCatch_inv (body : M Response) (s s' : Store) (resp : Response) :
  tryCatch body s = (resp, s') → body s = (s', Ok resp) ∨ resp = serverError.
Proof.
  unfold tryCatch. destruct (body s) as [s1 [r|]]; intros [= <- <-]; eauto.
Qed.

Lemma populated_refl (ks : list string) (e : entry) : populated ks e e.
Proof. by split. Qed.

Lemma populated_trans (ks : list string) (e1 e2 e3 : entry) :
  populated ks e1 e2 → populated ks e2 e3 → populated ks e1 e3.
Proof.
  intros [H1 H2] [H3 H4]. split; [congruence|].
  intros j Hj. by rewrite H4, H2.
Qed.

Lemma populate_ok (target : Model) (k : string) (sel : list string)
    (ks : list string) (e e' : entry) (s s' : Store) :
  k ∈ ks → populate target k sel e s = (s', Ok e') → s' = s ∧ populated ks e e'.
Proof.
  intros Hk. unfold populate.
  destruct (e.2 !! k) as [[]|]; intros [= <- <-];
    (split; [done|]); try apply populated_refl.
  split; [done|]. intros j Hj. simpl.
  apply lookup_insert_ne. by intros ->.
Qed.

Lemma mapM_ok {A B} (f : A → M B) (R : A → B → Prop) (l : list A)
    (l' : list B) (s s' : Store) :
  (∀ a b s s', f a s = (s', Ok b) → s' = s ∧ R a b) →
  mapM f l s = (s', Ok l') → s' = s ∧ Forall2 R l l'.
Proof.
  intros Hf. revert l' s. induction l as [|a l IH]; intros l' s.
  - intros [= <- <-]. by split.
  - simpl. intros H. apply bind_ok in H as (s1 & b & Hb & H).
    apply bind_ok in H as (s2 & bs & Hbs & H).
    apply ret_ok in H as [-> ->].
    apply Hf in Hb as [-> Hb]. apply IH in Hbs as [-> Hbs].
    split; [done|]. by constructor.
Qed.

Lemma find_ok (m : Model) (q : list Cond) (sort : list (string * bool))
    (skip : Z) (lim : option Z) (s s' : Store) (l : list entry) :
  find m q sort skip lim s = (s', Ok l) →
  s' = s ∧ 0 <= skip
  ∧ l = applyLimit lim (drop (Z.to_nat skip) (selected m q sort s)).
Proof.
  unfold find. destruct (skip <? 0) eqn:Hs; [done|].
  intros [= <- <-]. split; [done|]. split; [lia|done].
Qed.

Lemma applyLimit_subseteq (lim : option Z) (l : list entry) :
  applyLimit lim l ⊆ l.
Proof.
  unfold applyLimit. destruct lim as [[]|]; try done; apply subseteq_take.
Qed.

Lemma elem_of_selected (m : Model) (q : list Cond)
    (sort : list (string * bool)) (s : Store) (e : entry) :
  e ∈ selected m q sort s
  ↔ getColl (mcoll m) s !! e.1 = Some e.2 ∧ matchesAll q e = true.
Proof.
  unfold selected. rewrite (sortDocs_perm sort).
  rewrite list_elem_of_In, filter_In, <- list_elem_of_In.
  destruct e as [o d]. by rewrite elem_of_map_to_list.
Qed.

Lemma found_selected (m : Model) (q : list Cond) (sort : list (string * bool))
    (skip : Z) (lim : option Z) (s s' : Store) (l : list entry) (e : entry) :
  find m q sort skip lim s = (s', Ok l) → e ∈ l →
  getColl (mcoll m) s !! e.1 = Some e.2 ∧ matchesAll q e = true.
Proof.
  intros (_ & _ & ->)%find_ok He. apply (elem_of_selected m q sort).
  by eapply subseteq_drop, applyLimit_subseteq.
Qed.

Lemma matchesAll_elem (q : list Cond) (e : entry) (c : Cond) :
  matchesAll q e = true → c ∈ q → matches c e.2 = true.
Proof.
  unfold matchesAll. rewrite forallb_forall. intros H Hc.
  by apply H, list_elem_of_In.
Qed.

Lemma holds_lookup (k s : string) (d : doc) :
  holds k s d = true ↔ d !! k = Some (VStr s).
Proof.
  unfold holds. destruct (d !! k) as [[]|]; try (split; [done|by intros [=]]).
  rewrite String.eqb_eq. split; [by intros ->|by intros [= ->]].
Qed.

End ReadFacts.

Section TenantReads.
Context `{E : Env}.
Import Odm Api.

Lemma toJSON_prop (k : string) (e : entry) :
  k ≠ "_id"%string → prop k (toJSON e) = e.2 !! k.
Proof. intros Hk. by apply lookup_insert_ne. Qed.

Lemma toJSON_ofTenant (t : string) (e : entry) :
  e.2 !! "hospitalId"%string = Some (VStr t) → ofTenant t (toJSON e).
Proof. intros H. unfold ofTenant. by rewrite toJSON_prop. Qed.

(** The records a query found satisfy each of its equality conditions,
    and still do after their references were populated. *)
Lemma found_hold (m : Model) (q : list Cond) (sort : list (string * bool))
    (skip : Z) (lim : option Z) (s s' : Store) (l : list entry)
    (k v : string) :
  find m q sort skip lim s = (s', Ok l) → CStr k v ∈ q →
  Forall (λ e : entry, e.2 !! k = Some (VStr v)) l.
Proof.
  intros Hf Hq. apply Forall_forall. intros e He.
  destruct (found_selected _ _ _ _ _ _ _ _ e Hf He) as [_ Hm].
  by apply (matchesAll_elem _ _ _ Hm), holds_lookup in Hq.
Qed.

Lemma listed_hold (k v : string) (ks : list string) (l l' : list entry) :
  k ≠ "_id"%string → k ∉ ks →
  Forall (λ e : entry, e.2 !! k = Some (VStr v)) l →
  Forall2 (populated ks) l l' →
  Forall (λ d, prop k d = Some (VStr v)) (toJSON <$> l').
Proof.
  intros Hid Hk Hl H2. apply Forall_fmap.
  induction H2 as [|e e' l l' [_ He] _ IH]; [done|].
  apply Forall_cons in Hl as [Ht Hl]. constructor; [|by apply IH].
  unfold compose. rewrite toJSON_prop by done. by rewrite He.
Qed.

Lemma found_tenant (m : Model) (q : list Cond) (sort : list (string * bool))
    (skip : Z) (lim : option Z) (s s' : Store) (l : list entry) (t : string) :
  find m q sort skip lim s = (s', Ok l) → CStr "hospitalId" t ∈ q →
  Forall (λ e : entry, e.2 !! "hospitalId"%string = Some (VStr t)) l.
Proof. apply found_hold. Qed.

Lemma listed_ofTenant (t : string) (ks : list string) (l l' : list entry) :
  "hospitalId"%string ∉ ks →
  Forall (λ e : entry, e.2 !! "hospitalId"%string = Some (VStr t)) l →
  Forall2 (populated ks) l l' →
  Forall (ofTenant t) (toJSON <$> l').
Proof. by apply listed_hold. Qed.

Lemma populated_same (l : list entry) : Forall2 (populated []) l l.
Proof.
  apply Forall2_same_length_lookup_2; [done|].
  intros i x y Hx Hy. assert (x = y) as -> by congruence. apply populated_refl.
Qed.

Lemma found_ofTenant (t : string) (l : list entry) :
  Forall (λ e : entry, e.2 !! "hospitalId"%string = Some (VStr t)) l →
  Forall (ofTenant t) (toJSON <$> l).
Proof.
  intros Hl. apply (listed_ofTenant t [] l l); [apply not_elem_of_nil|done|].
  apply populated_same.
Qed.

Lemma patients_listQuery_tenant (q : Request) (c : Ctx) (s s' : Store)
    (query : list Cond) :
  PatientsRouter.listQuery q c s = (s', Ok query) →
  s' = s ∧ CStr "hospitalId" (hospitalId c) ∈ query.
Proof.
  unfold PatientsRouter.listQuery. cbv zeta. intros H.
  destruct (Js.truthy (rquery q !! "search"%string)),
           (Js.truthy (rquery q !! "status"%string));
    unwind; (split; [done|]); set_solver.
Qed.

Lemma appointments_listQuery_tenant (q : Request) (c : Ctx) (s s' : Store)
    (query : list Cond) :
  AppointmentsRouter.listQuery q c s = (s', Ok query) →
  s' = s ∧ CStr "hospitalId" (hospitalId c) ∈ query.
Proof.
  unfold AppointmentsRouter.listQuery. cbv zeta. intros H.
  destruct (Js.truthy (rquery q !! "status"%string)),
           (Js.truthy (rquery q !! "startDate"%string)
            && Js.truthy (rquery q !! "endDate"%string));
    unwind; (split; [done|]); set_solver.
Qed.

Lemma staff_listQuery_tenant (q : Request) (c : Ctx) (s s' : Store)
    (query : list Cond) :
  StaffRouter.listQuery q c s = (s', Ok query) →
  s' = s ∧ CStr "hospitalId" (hospitalId c) ∈ query.
Proof.
  unfold StaffRouter.listQuery. cbv zeta. intros H.
  destruct (Js.truthy (rquery q !! "department"%string)),
           (Js.truthy (rquery q !! "role"%string)),
           (Js.truthy (rquery q !! "search"%string));
    unwind; (split; [done|]); set_solver.
Qed.

Lemma populateAll_ok (e e' : entry) (s s' : Store) :
  AppointmentsRouter.populateAll e s = (s', Ok e') →
  s' = s ∧ populated ["patientId"; "doctorId"; "createdBy"]%string e e'.
Proof.
  unfold AppointmentsRouter.populateAll. intros H. unwind.
  repeat match goal with
  | H : populate _ _ _ _ _ = _ |- _ =>
      apply (populate_ok _ _ _ ["patientId"; "doctorId"; "createdBy"]%string)
        in H as [-> ?]; [|set_solver]
  end.
  split; [done|]. eauto using populated_trans.
Qed.

End TenantReads.

(** The records a list route found, after their references were
    populated. *)
Ltac listed ks :=
  match goal with
  | H : Odm.mapM _ _ _ = _ |- _ =>
      apply (mapM_ok _ (populated ks)) in H as [-> ?];
      [ eapply (listed_ofTenant _ ks); [notin | eapply found_tenant; [eassumption|try eassumption; isin] | eassumption]
      | try apply populateAll_ok ]
  end.

Section TenantReads2.
Context `{E : Env}.
Import Odm Api.

Lemma findOne_tenant (m : Model) (o : N) (t : string) (s s' : Store)
    (e : entry) :
  findOne m (mkIdFilter o (Some t)) s = (s', Ok (Some e)) →
  s' = s ∧ e.1 = o ∧ getColl (mcoll m) s !! o = Some e.2
  ∧ e.2 !! "hospitalId"%string = Some (VStr t).
Proof.
  intros [-> Hr]%findOne_ok. simpl in Hr.
  destruct (lookupBy _ _) as [d|] eqn:Hl; [|done]. injection Hr as ->.
  apply lookupBy_Some in Hl as [Hl Ht]. by apply holds_lookup in Ht.
Qed.

Lemma listPatients_tenant q c ps errs a s resp s' :
  PatientsRouter.listPatients q c ps errs a s = (resp, s') →
  dataOfTenant (hospitalId c) (data resp).
Proof.
  intros H. apply tryCatch_inv in H as [H| ->]; [|done].
  cbv beta zeta in H. unwind. simpl.
  match goal with
  | H : PatientsRouter.listQuery _ _ _ = _ |- _ =>
      apply patients_listQuery_tenant in H as [-> Hq]
  end.
  eapply found_ofTenant, found_tenant; eauto.
Qed.

Lemma getPatient_tenant q c ps errs a s resp s' :
  PatientsRouter.getPatient q c ps errs a s = (resp, s') →
  dataOfTenant (hospitalId c) (data resp).
Proof.
  intros H. apply tryCatch_inv in H as [H| ->]; [|done].
  cbv beta zeta in H. unwind.
  match goal with
  | H : match ?x with _ => _ end _ = _ |- _ => destruct x
  end; unwind; [|done].
  match goal with
  | H : findOne _ _ _ = _ |- _ => apply findOne_tenant in H as (_ & _ & _ & Ht)
  end.
  by apply toJSON_ofTenant.
Qed.

Lemma recentPatients_tenant q c ps errs a s resp s' :
  PatientsRouter.recentPatients q c ps errs a s = (resp, s') →
  dataOfTenant (hospitalId c) (data resp).
Proof.
  intros H. apply tryCatch_inv in H as [H| ->]; [|done].
  cbv beta zeta in H. unwind. simpl.
  eapply found_ofTenant, found_tenant; [eassumption|isin].
Qed.

Lemma listAppointments_tenant q c ps errs a s resp s' :
  AppointmentsRouter.listAppointments q c ps errs a s = (resp, s') →
  dataOfTenant (hospitalId c) (data resp).
Proof.
  intros H. apply tryCatch_inv in H as [H| ->]; [|done].
  cbv beta zeta in H. unwind. simpl.
  match goal with
  | H : AppointmentsRouter.listQuery _ _ _ = _ |- _ =>
      apply appointments_listQuery_tenant in H as [-> Hq]
  end.
  listed ["patientId"; "doctorId"; "createdBy"]%string.
Qed.

Lemma upcomingAppointments_tenant q c ps errs a s resp s' :
  AppointmentsRouter.upcomingAppointments q c ps errs a s = (resp, s') →
  dataOfTenant (hospitalId c) (data resp).
Proof.
  intros H. apply tryCatch_inv in H as [H| ->]; [|done].
  cbv beta zeta in H. unwind. simpl.
  listed ["patientId"; "doctorId"]%string.
  intros e e' s1 s2 Hpop. apply bind_ok in Hpop as (s3 & e1 & H1 & H2).
  apply (populate_ok _ _ _ ["patientId"; "doctorId"]%string) in H1 as [-> ?];
    [|isin].
  apply (populate_ok _ _ _ ["patientId"; "doctorId"]%string) in H2 as [-> ?];
    [|isin].
  eauto using populated_trans.
Qed.

Lemma doctorAppointments_tenant q c ps errs a s resp s' :
  AppointmentsRouter.doctorAppointments q c ps errs a s = (resp, s') →
  dataOfTenant (hospitalId c) (data resp).
Proof.
  intros H. apply tryCatch_inv in H as [H| ->]; [|done].
  cbv beta zeta in H. unwind. simpl.
  listed ["patientId"]%string.
  intros e e' s1 s2 Hpop. by eapply populate_ok; [isin|].
Qed.

Lemma listStaff_tenant q c ps errs a s resp s' :
  StaffRouter.listStaff q c ps errs a s = (resp, s') →
  dataOfTenant (hospitalId c) (data resp).
Proof.
  intros H. apply tryCatch_inv in H as [H| ->]; [|done].
  cbv beta zeta in H. unwind. simpl.
  match goal with
  | H : StaffRouter.listQuery _ _ _ = _ |- _ =>
      apply staff_listQuery_tenant in H as [-> Hq]
  end.
  listed ["userId"]%string.
  intros e e' s1 s2 Hpop. by eapply populate_ok; [isin|].
Qed.

Lemma listDoctors_tenant q c ps errs a s resp s' :
  DoctorsRouter.listDoctors q c ps errs a s = (resp, s') →
  dataOfTenant (hospitalId c) (data resp).
Proof.
  intros H. apply tryCatch_inv in H as [H| ->]; [|done].
  cbv beta zeta in H. unwind. simpl.
  listed ["userId"]%string.
  intros e e' s1 s2 Hpop. by eapply populate_ok; [isin|].
Qed.

Lemma availableDoctors_tenant q c ps errs a s resp s' :
  DoctorsRouter.availableDoctors q c ps errs a s = (resp, s') →
  dataOfTenant (hospitalId c) (data resp).
Proof.
  intros H. apply tryCatch_inv in H as [H| ->]; [|done].
  cbv beta zeta in H. unwind. simpl.
  listed ["userId"]%string.
  intros e e' s1 s2 Hpop. by eapply populate_ok; [isin|].
Qed.

Lemma getDoctor_tenant q c ps errs a s resp s' :
  DoctorsRouter.getDoctor q c ps errs a s = (resp, s') →
  dataOfTenant (hospitalId c) (data resp).
Proof.
  intros H. apply tryCatch_inv in H as [H| ->]; [|done].
  cbv beta zeta in H. unwind.
  match goal with
  | H : match ?x with _ => _ end _ = _ |- _ => destruct x
  end; unwind; [|done].
  match goal with
  | H : findOne _ _ _ = _ |- _ => apply findOne_tenant in H as (_ & _ & _ & Ht)
  end.
  match goal with
  | H : DoctorsRouter.populateUser _ _ = _ |- _ =>
      apply (populate_ok _ _ _ ["userId"]%string) in H as [_ [_ Hp]]; [|isin]
  end.
  apply toJSON_ofTenant. rewrite Hp; [done|notin].
Qed.

Lemma runRoute_answer {L} (handlers : L → Handler) (r : Route L)
    (ps : gmap string string) (q : Request) (a : Ambient) (s s' : Store)
    (resp : Response) (c : Ctx) (P : Response → Prop) :
  auth q = inr c → P forbidden →
  (∀ q' errs, handlers (label r) q' c ps errs a s = (resp, s') → P resp) →
  runRoute handlers r ps q a s = (resp, s') → P resp.
Proof.
  intros Hauth Hf Hh. unfold runRoute. rewrite Hauth.
  destruct (roles r) as [rs|]; simpl.
  - unfold authorize. case_bool_decide; [|by intros [= <- _]].
    destruct (runChecks _ _). apply Hh.
  - destruct (runChecks _ _). apply Hh.
Qed.

(** X3.  Every document a GET returns carries the tenant of the request: the
    records of the list routes and the record of the by-identifier routes.
    (The departments route of the staff router returns groups, not
    records.) *)
Theorem reads_return_own_tenant (r : Resource) (q : Request) (a : Ambient)
    (s s' : Store) (c : Ctx) (resp : Response) :
  rmethod q = GET → auth q = inr c → (r = RStaff → rpath q = []) →
  api r q a s = Some (resp, s') →
  dataOfTenant (hospitalId c) (data resp).
Proof.
  intros Hget Hauth Hstaff Hapi. unfold api, handle in Hapi.
  destruct r;
    destruct (dispatch _ _ _) as [[rt ps]|] eqn:Hd; try done;
    injection Hapi as Hrun;
    apply dispatch_In in Hd as (Hin & Hm & Hp);
    rewrite Hget in Hm;
    apply (runRoute_answer _ _ _ _ _ _ _ _ c (λ resp, dataOfTenant (hospitalId c) (data resp)) Hauth) in Hrun; try done;
    intros q' errs;
    routes Hin; try done; simpl.
  - apply listPatients_tenant.
  - apply getPatient_tenant.
  - apply recentPatients_tenant.
  - apply listAppointments_tenant.
  - apply upcomingAppointments_tenant.
  - apply doctorAppointments_tenant.
  - apply listStaff_tenant.
  - rewrite (Hstaff eq_refl) in Hp. done.
  - apply listDoctors_tenant.
  - apply getDoctor_tenant.
  - apply availableDoctors_tenant.
Qed.

End TenantReads2.

Section Filters.
Context `{E : Env}.
Import Odm Api.

Lemma truthy_param (qs : gmap string string) (k v : string) :
  qs !! k = Some v → v ≠ EmptyString →
  Js.truthy (qs !! k) = true ∧ param qs k = v.
Proof.
  intros Hk Hv. unfold param. rewrite Hk. split; [|done]. by destruct v.
Qed.

Lemma patients_listQuery_filter (q : Request) (c : Ctx) (s s' : Store)
    (query : list Cond) (v : string) :
  rquery q !! "status"%string = Some v → v ≠ EmptyString →
  PatientsRouter.listQuery q c s = (s', Ok query) →
  s' = s ∧ CStr "status" v ∈ query.
Proof.
  intros Hk Hv. destruct (truthy_param _ _ _ Hk Hv) as [Ht Hpar].
  unfold PatientsRouter.listQuery. cbv zeta. rewrite Ht, Hpar. intros H.
  destruct (Js.truthy (rquery q !! "search"%string));
    unwind; (split; [done|]); set_solver.
Qed.

Lemma appointments_listQuery_filter (q : Request) (c : Ctx) (s s' : Store)
    (query : list Cond) (v : string) :
  rquery q !! "status"%string = Some v → v ≠ EmptyString →
  AppointmentsRouter.listQuery q c s = (s', Ok query) →
  s' = s ∧ CStr "status" v ∈ query.
Proof.
  intros Hk Hv. destruct (truthy_param _ _ _ Hk Hv) as [Ht Hpar].
  unfold AppointmentsRouter.listQuery. cbv zeta. rewrite Ht, Hpar. intros H.
  destruct (Js.truthy (rquery q !! "startDate"%string)
            && Js.truthy (rquery q !! "endDate"%string));
    unwind; (split; [done|]); set_solver.
Qed.

Lemma staff_listQuery_filter (q : Request) (c : Ctx) (s s' : Store)
    (query : list Cond) (k v : string) :
  k ∈ ["department"; "role"]%string →
  rquery q !! k = Some v → v ≠ EmptyString →
  StaffRouter.listQuery q c s = (s', Ok query) →
  s' = s ∧ CStr k v ∈ query.
Proof.
  intros Hin Hk Hv. destruct (truthy_param _ _ _ Hk Hv) as [Ht Hpar].
  unfold StaffRouter.listQuery. cbv zeta. intros H.
  apply elem_of_cons in Hin as [->|Hin];
    [|apply list_elem_of_singleton in Hin as ->];
    rewrite Ht, Hpar in H;
    [ destruct (Js.truthy (rquery q !! "role"%string))
    | destruct (Js.truthy (rquery q !! "department"%string)) ];
    destruct (Js.truthy (rquery q !! "search"%string));
    unwind; (split; [done|]); set_solver.
Qed.

(** X4.  The filters of the list routes are honoured: with a non-empty
    [status] (patients, appointments), [department] or [role] (staff) in
    the query string, every record the list returns holds that very value
    in the field. *)
Theorem list_filters_are_honoured (r : Resource) (q : Request) (a : Ambient)
    (s s' : Store) (c : Ctx) (resp : Response) (k v : string)
    (docs : list value) :
  rmethod q = GET → rpath q = [] → auth q = inr c →
  k ∈ listFilters r → rquery q !! k = Some v → v ≠ EmptyString →
  api r q a s = Some (resp, s') → data resp = Some (VArr docs) →
  Forall (λ d, prop k d = Some (VStr v)) docs.
Proof.
  intros Hm Hp Hauth Hk Hq Hv Hapi Hdata. unfold api in Hapi.
  destruct r;
    apply (handle_inv _ _ _ _ _ _ _ c Hauth) in Hapi as (rt & ps & Hd & Hrun);
    rewrite Hm, Hp in Hd; injection Hd as <- <-;
    (destruct Hrun as [(_ & -> & _)|[_ Hrun]]; [done|]);
    cbn [label checks runChecks fold_left fst snd PatientsRouter.handlers
         AppointmentsRouter.handlers StaffRouter.handlers
         DoctorsRouter.handlers] in Hrun;
    (apply tryCatch_inv in Hrun as [Hrun| ->]; [|done]);
    cbv beta zeta in Hrun; unwind; cbn [data] in Hdata;
    injection Hdata as <-; cbn [listFilters] in Hk.
  - apply list_elem_of_singleton in Hk as ->.
    match goal with
    | H : PatientsRouter.listQuery _ _ _ = _ |- _ =>
        apply (patients_listQuery_filter _ _ _ _ _ v) in H as [-> Hin];
        [|done..]
    end.
    match goal with
    | H : find _ _ _ _ _ _ = (_, Ok ?l) |- _ =>
        apply (listed_hold "status" v [] l l);
        [ done | apply not_elem_of_nil
        | by apply (found_hold _ _ _ _ _ _ _ _ _ _ H) | apply populated_same ]
    end.
  - apply list_elem_of_singleton in Hk as ->.
    match goal with
    | H : AppointmentsRouter.listQuery _ _ _ = _ |- _ =>
        apply (appointments_listQuery_filter _ _ _ _ _ v) in H as [-> Hin];
        [|done..]
    end.
    match goal with
    | H : Odm.mapM _ _ _ = _ |- _ =>
        apply (mapM_ok _ (populated ["patientId"; "doctorId"; "createdBy"]%string))
          in H as [-> ?]; [|apply populateAll_ok]
    end.
    match goal with
    | H : find _ _ _ _ _ _ = (_, Ok ?l), H2 : Forall2 _ ?l ?l' |- _ =>
        apply (listed_hold "status" v
                 ["patientId"; "doctorId"; "createdBy"]%string l l');
        [done | notin | by apply (found_hold _ _ _ _ _ _ _ _ _ _ H) | done]
    end.
  - match goal with
    | H : StaffRouter.listQuery _ _ _ = _ |- _ =>
        apply (staff_listQuery_filter _ _ _ _ _ k v) in H as [-> Hin];
        [|done..]
    end.
    match goal with
    | H : Odm.mapM _ _ _ = _ |- _ =>
        apply (mapM_ok _ (populated ["userId"]%string)) in H as [-> ?];
        [|intros e e' s1 s2 Hpop; by eapply populate_ok; [isin|]]
    end.
    match goal with
    | H : find _ _ _ _ _ _ = (_, Ok ?l), H2 : Forall2 _ ?l ?l' |- _ =>
        apply (listed_hold k v ["userId"]%string l l');
        [| | by apply (found_hold _ _ _ _ _ _ _ _ _ _ H) | done]
    end;
      (apply elem_of_cons in Hk as [->|Hk];
       [|apply list_elem_of_singleton in Hk as ->]); solve [done | notin].
  - by apply elem_of_nil in Hk.
Qed.

End Filters.

Section DoctorList.
Context `{E : Env}.
Import Odm Api.

Lemma populated_ids (ks : list string) (l l' : list entry) :
  Forall2 (populated ks) l l' → l'.*1 = l.*1.
Proof.
  induction 1 as [|e e' l l' [He _] _ IH]; [done|].
  rewrite !fmap_cons. by rewrite He, IH.
Qed.

(** X5.  The list of doctors is complete: GET /api/doctors always answers 200
    with the doctors of the tenant of the request, every one of them and
    each once, and writes nothing. *)
Theorem doctors_list_is_complete (q : Request) (a : Ambient) (s s' : Store)
    (c : Ctx) (resp : Response) :
  rmethod q = GET → rpath q = [] → auth q = inr c →
  api RDoctors q a s = Some (resp, s') →
  ∃ docs,
    s' = s ∧ resp = ok 200 None (Some (VArr docs))
    ∧ idOf <$> docs
      ≡ₚ Some <$> (List.filter
                     (λ e : entry, holds "hospitalId" (hospitalId c) e.2)
                     (map_to_list (doctors s))).*1.
Proof.
  intros Hm Hp Hauth Hapi.
  apply (handle_inv _ _ _ _ _ _ _ c Hauth) in Hapi as (rt & ps & Hd & Hrun).
  rewrite Hm, Hp in Hd. injection Hd as <- <-.
  destruct Hrun as [(Hno & _)|[_ Hrun]]; [done|].
  cbn [label checks runChecks fold_left fst snd DoctorsRouter.handlers] in Hrun.
  unfold DoctorsRouter.listDoctors, tryCatch, bind, find in Hrun.
  change (0 <? 0) with false in Hrun.
  cbn [applyLimit] in Hrun. change (Z.to_nat 0) with 0%nat in Hrun.
  rewrite drop_0 in Hrun.
  set (found := selected Doctor _ _ s) in Hrun.
  destruct (mapM_run DoctorsRouter.populateUser found s) as (l' & Hl' & _).
  { intros e s0. destruct (populate_run User "userId"
      ["name"; "email"; "phone"; "avatar"]%string e s0) as (e' & He' & _).
    by exists e'. }
  rewrite Hl' in Hrun. injection Hrun as <- <-.
  apply (mapM_ok _ (populated ["userId"%string])) in Hl' as [_ Hpop].
  2:{ intros e e' s1 s2 Hpop. by eapply populate_ok; [isin|]. }
  eexists. split; [done|]. split; [done|].
  rewrite ids_toJSON, (populated_ids _ _ _ Hpop).
  do 2 apply fmap_Permutation.
  unfold found, selected. rewrite (sortDocs_perm _).
  erewrite filter_ext; [done|]. intros e. simpl. by rewrite andb_true_r.
Qed.

End DoctorList.

Section Departments.
Context `{E : Env}.
Import Odm Api.

Lemma total_app (l1 l2 : list Z) : total (l1 ++ l2) = total l1 + total l2.
Proof. induction l1 as [|x l1 IH]; simpl; [done|]. rewrite IH. lia. Qed.

Lemma total_perm (l1 l2 : list Z) : l1 ≡ₚ l2 → total l1 = total l2.
Proof. induction 1; simpl; lia. Qed.

(** Counting a list by a key: the classes of the keys add up to the
    list. *)
Lemma count_by_key {A} (key : A → string) (ks : list string) (l : list A) :
  NoDup ks → (∀ x, x ∈ l → key x ∈ ks) →
  total ((λ k, Z.of_nat (List.length
                           (List.filter (λ x, String.eqb (key x) k) l))) <$> ks)
  = Z.of_nat (List.length l).
Proof.
  intros Hnd. induction l as [|x l IH]; intros Hks.
  - clear. induction ks as [|k ks IHk]; [done|].
    rewrite fmap_cons. cbn [total foldr]. fold (total ((λ k, Z.of_nat
      (List.length (List.filter (λ x : A, String.eqb (key x) k) []))) <$> ks)).
    rewrite IHk. done.
  - assert (Hone : ∀ ks', NoDup ks' →
      total ((λ k, Z.of_nat (List.length
               (List.filter (λ y, String.eqb (key y) k) (x :: l)))) <$> ks')
      = (if bool_decide (key x ∈ ks') then 1 else 0)
        + total ((λ k, Z.of_nat (List.length
                   (List.filter (λ y, String.eqb (key y) k) l))) <$> ks')).
    { clear. induction ks' as [|k ks' IHk]; intros Hnd; [done|].
      apply NoDup_cons in Hnd as [Hk Hnd]. rewrite !fmap_cons.
      cbn [total foldr]. fold (total ((λ k, Z.of_nat (List.length
               (List.filter (λ y, String.eqb (key y) k) (x :: l)))) <$> ks')).
      fold (total ((λ k, Z.of_nat (List.length
               (List.filter (λ y, String.eqb (key y) k) l))) <$> ks')).
      rewrite (IHk Hnd). cbn [List.filter].
      destruct (String.eqb_spec (key x) k) as [<-|Hne].
      - rewrite (bool_decide_eq_true_2 (key x ∈ key x :: ks'))
          by apply list_elem_of_here.
        rewrite (bool_decide_eq_false_2 (key x ∈ ks')) by done.
        cbn [List.length]. lia.
      - destruct (decide (key x ∈ ks')) as [Hin|Hin].
        + rewrite (bool_decide_eq_true_2 (key x ∈ ks') Hin).
          rewrite (bool_decide_eq_true_2 (key x ∈ k :: ks'))
            by (by apply list_elem_of_further).
          lia.
        + rewrite (bool_decide_eq_false_2 (key x ∈ ks') Hin).
          rewrite (bool_decide_eq_false_2 (key x ∈ k :: ks'))
            by (by intros [?|?]%elem_of_cons).
          lia. }
    rewrite (Hone ks Hnd), IH.
    + rewrite bool_decide_eq_true_2 by (apply Hks, list_elem_of_here).
      cbn [List.length]. lia.
    + intros y Hy. by apply Hks, list_elem_of_further.
Qed.

Lemma countOf_groupOf (l : list entry) (d : string) :
  countOf (StaffRouter.groupOf l d)
  = Z.of_nat (List.length
                (List.filter (λ e, String.eqb (StaffRouter.departmentOf e) d) l)).
Proof. reflexivity. Qed.

Lemma byDepartment_total (l : list entry) :
  total (countOf <$> StaffRouter.byDepartment l) = Z.of_nat (List.length l).
Proof.
  unfold StaffRouter.byDepartment. rewrite <- list_fmap_compose.
  rewrite (total_perm _
    ((countOf ∘ StaffRouter.groupOf l)
       <$> remove_dups (StaffRouter.departmentOf <$> l))).
  - apply (count_by_key StaffRouter.departmentOf); [apply NoDup_remove_dups|].
    intros e He. apply elem_of_remove_dups. by apply list_elem_of_fmap_2.
  - apply fmap_Permutation, merge_sort_Permutation.
Qed.

Lemma byDepartment_names (l : list entry) :
  prop "_id" <$> StaffRouter.byDepartment l
  = (λ d, Some (VStr d))
      <$> merge_sort (λ x y, String.leb x y)
            (remove_dups (StaffRouter.departmentOf <$> l)).
Proof.
  unfold StaffRouter.byDepartment. rewrite <- list_fmap_compose.
  by apply list_fmap_ext.
Qed.

Lemma byDepartment_NoDup (l : list entry) :
  NoDup (prop "_id" <$> StaffRouter.byDepartment l).
Proof.
  rewrite byDepartment_names. apply NoDup_fmap_2; [by intros ?? [=]|].
  rewrite merge_sort_Permutation. apply NoDup_remove_dups.
Qed.

Lemma byDepartment_groups (l : list entry) :
  Forall (λ g, ∃ ms, prop "staff" g = Some (VArr ms)
                     ∧ prop "count" g = Some (VNum (Z.of_nat (List.length ms))))
         (StaffRouter.byDepartment l).
Proof.
  unfold StaffRouter.byDepartment. apply Forall_fmap, Forall_forall.
  intros d _. eexists. split; [reflexivity|].
  simpl. by rewrite length_fmap.
Qed.

(** X6.  The departments route partitions the active staff of the tenant: it
    always answers 200, with one group per department name, each counting
    the members it lists, the counts adding up to the number of active
    staff members of the tenant; nothing is written. *)
Theorem departments_partition_active_staff (q : Request) (a : Ambient)
    (s s' : Store) (c : Ctx) (resp : Response) :
  rmethod q = GET → rpath q = ["departments"%string] → auth q = inr c →
  api RStaff q a s = Some (resp, s') →
  ∃ groups,
    s' = s ∧ resp = ok 200 None (Some (VArr groups))
    ∧ NoDup (prop "_id" <$> groups)
    ∧ Forall (λ g, ∃ ms, prop "staff" g = Some (VArr ms)
                ∧ prop "count" g = Some (VNum (Z.of_nat (List.length ms))))
             groups
    ∧ total (countOf <$> groups)
      = Z.of_nat (List.length
          (List.filter
             (λ e : entry, holds "hospitalId" (hospitalId c) e.2
                           && holds "status" "active" e.2)
             (map_to_list (staff s)))).
Proof.
  intros Hm Hp Hauth Hapi.
  apply (handle_inv _ _ _ _ _ _ _ c Hauth) in Hapi as (rt & ps & Hd & Hrun).
  rewrite Hm, Hp in Hd. vm_compute in Hd. injection Hd as <- <-.
  destruct Hrun as [(Hno & _)|[_ Hrun]]; [done|].
  cbn [label checks runChecks fold_left fst snd StaffRouter.handlers] in Hrun.
  unfold StaffRouter.departments, tryCatch, bind, find in Hrun.
  simpl in Hrun. injection Hrun as <- <-.
  eexists. split; [done|]. split; [done|].
  split; [apply byDepartment_NoDup|]. split; [apply byDepartment_groups|].
  rewrite byDepartment_total. f_equal. unfold selected.
  rewrite (sortDocs_perm []). apply (f_equal List.length).
  apply filter_ext. intros e. simpl. by rewrite andb_true_r.
Qed.

End Departments.

(* ===================================================================== *)
(** ** Writes followed by reads                                      *)
(* ===================================================================== *)

Section RoundTrips2.
Context `{E : Env}.
Import Odm Api.

Lemma getPatient_hit (q : Request) (c : Ctx) (a : Ambient) (s : Store)
    (x : string) (o : N) (d : doc) :
  rmethod q = GET → rpath q = [x] → auth q = inr c → castId x = Some o →
  patients s !! o = Some d →
  d !! "hospitalId"%string = Some (VStr (hospitalId c)) →
  api RPatients q a s = Some (ok 200 None (Some (toJSON (o, d))), s).
Proof.
  intros Hm Hp Hauth Hx Hd Ht. unfold api, handle. rewrite Hm, Hp. simpl.
  unfold runRoute. rewrite Hauth. simpl.
  unfold PatientsRouter.getPatient, tryCatch, bind.
  rewrite param_id, Hx. simpl. unfold findOne. simpl.
  by rewrite (lookupBy_own o (hospitalId c) (patients s) d).
Qed.

Lemma getPatient_miss (q : Request) (c : Ctx) (a : Ambient) (s : Store)
    (x : string) (o : N) :
  rmethod q = GET → rpath q = [x] → auth q = inr c → castId x = Some o →
  patients s !! o = None →
  api RPatients q a s = Some (notFound "Patient", s).
Proof.
  intros Hm Hp Hauth Hx Hd. unfold api, handle. rewrite Hm, Hp. simpl.
  unfold runRoute. rewrite Hauth. simpl.
  unfold PatientsRouter.getPatient, tryCatch, bind.
  rewrite param_id, Hx. simpl. unfold findOne. simpl.
  by rewrite (lookupBy_absent o _ (patients s)).
Qed.

(** X7.  A patient that was created can be read back: the GET of the
    identifier the create answered with, by a request of the same tenant,
    answers with the very document the create answered with. *)
Theorem created_patient_can_be_read (q q' : Request) (a a' : Ambient)
    (s s' : Store) (c c' : Ctx) (resp : Response) (x : string) (o : N)
    (m : doc) :
  rmethod q = POST → rpath q = [] → auth q = inr c →
  api RPatients q a s = Some (resp, s') → status resp = 201 →
  data resp = Some (VObj m) → m !! "_id"%string = Some (VId o) →
  rmethod q' = GET → rpath q' = [x] → castId x = Some o →
  auth q' = inr c' → hospitalId c' = hospitalId c →
  api RPatients q' a' s' = Some (ok 200 None (data resp), s').
Proof.
  intros Hm Hp Hauth Hapi H201 Hdata Hid Hm' Hp' Hx Hauth' Hsame.
  apply (handle_inv _ _ _ _ _ _ _ c Hauth) in Hapi as (rt & ps & Hd & Hrun).
  rewrite Hm, Hp in Hd. injection Hd as <- <-.
  destruct Hrun as [(_ & -> & _)|[_ Hrun]]; [done|].
  cbn [label checks] in Hrun. destruct (runChecks _ _) as [b errs].
  cbn [fst snd PatientsRouter.handlers] in Hrun.
  apply tryCatch_ok in Hrun; [|by rewrite H201].
  destruct errs as [|er errs]; [|apply ret_ok in Hrun as [_ ->]; done].
  cbv beta zeta in Hrun. unwind.
  match goal with
  | H : save _ _ _ _ _ = _ |- _ =>
      apply (save_stamped Patient _ _ _ _ _ _ hospitalIdPath (hospitalId c))
        in H as (Hfree & -> & Hh);
      [| apply patient_hospitalId | done | by rewrite lookup_insert_eq]
  end.
  simpl in Hdata. injection Hdata as <-.
  rewrite lookup_insert_eq in Hid. injection Hid as <-.
  destruct x1 as [o d]. simpl in *.
  apply (getPatient_hit q' c' a' _ x o d); try done.
  - simpl. by rewrite lookup_insert_eq.
  - by rewrite Hsame.
Qed.

(** X8.  A patient that was deleted is gone: the GET of the same path answers
    not found, whoever asks. *)
Theorem deleted_patient_is_gone (q q' : Request) (a a' : Ambient)
    (s s' : Store) (c c' : Ctx) (resp : Response) (x : string) :
  rmethod q = DELETE → rpath q = [x] → auth q = inr c →
  api RPatients q a s = Some (resp, s') → status resp = 200 →
  rmethod q' = GET → rpath q' = [x] → auth q' = inr c' →
  api RPatients q' a' s' = Some (notFound "Patient", s').
Proof.
  intros Hm Hp Hauth Hapi H200 Hm' Hp' Hauth'.
  apply (handle_inv _ _ _ _ _ _ _ c Hauth) in Hapi as (rt & ps & Hd & Hrun).
  rewrite Hm, Hp in Hd. injection Hd as <- <-.
  destruct Hrun as [(_ & -> & _)|[_ Hrun]]; [done|].
  cbn [label checks runChecks fold_left fst snd PatientsRouter.handlers] in Hrun.
  apply tryCatch_ok in Hrun; [|by rewrite H200].
  cbv beta zeta in Hrun. unwind. rewrite param_id in *.
  match goal with
  | H : match ?r with _ => _ end _ = _ |- _ => destruct r as [e|]
  end; unwind; [|done].
  match goal with
  | H : findOneAndDelete _ _ _ = _ |- _ =>
      apply findOneAndDelete_ok in H as (_ & _ & ->)
  end.
  eapply (getPatient_miss q' c' a' _ x); try done. simpl. apply lookup_delete_eq.
Qed.

End RoundTrips2.

Section Upcoming.
Context `{E : Env}.
Import Odm Api.

Lemma populated_elem (ks : list string) (l l' : list entry) (e' : entry) :
  Forall2 (populated ks) l l' → e' ∈ l' → ∃ e, e ∈ l ∧ populated ks e e'.
Proof.
  intros H2 [i Hi]%list_elem_of_lookup_1.
  destruct (Forall2_lookup_r _ _ _ _ _ H2 Hi) as (e & He & Hp).
  exists e. split; [by eapply list_elem_of_lookup_2|done].
Qed.

(** X9.  A cancelled appointment is not an upcoming one: after DELETE answered
    200 for an appointment, no GET of /upcoming lists it, whoever asks and
    whenever. *)
Theorem cancelled_appointment_not_upcoming (q q' : Request) (a a' : Ambient)
    (s s' s'' : Store) (c c' : Ctx) (resp resp' : Response) (x : string)
    (o : N) (docs : list value) :
  rmethod q = DELETE → rpath q = [x] → castId x = Some o → auth q = inr c →
  api RAppointments q a s = Some (resp, s') → status resp = 200 →
  rmethod q' = GET → rpath q' = ["upcoming"%string] → auth q' = inr c' →
  api RAppointments q' a' s' = Some (resp', s'') →
  data resp' = Some (VArr docs) →
  Forall (λ d, idOf d ≠ Some o) docs.
Proof.
  intros Hm Hp Hx Hauth Hapi H200 Hm' Hp' Hauth' Hapi' Hdata.
  apply Forall_forall. intros v Hin Hid.
  (* the cancellation *)
  apply (handle_inv _ _ _ _ _ _ _ c Hauth) in Hapi as (rt & ps & Hd & Hrun).
  rewrite Hm, Hp in Hd. injection Hd as <- <-.
  destruct Hrun as [(_ & -> & _)|[_ Hrun]]; [done|].
  cbn [label checks runChecks fold_left fst snd AppointmentsRouter.handlers]
    in Hrun.
  apply tryCatch_ok in Hrun; [|by rewrite H200].
  cbv beta zeta in Hrun. unwind. rewrite param_id, Hx in *.
  match goal with H : Some _ = Some _ |- _ => injection H as <- end.
  match goal with
  | H : match ?r with _ => _ end _ = _ |- _ => destruct r as [e|]
  end; unwind; [|done].
  match goal with
  | H : findOneAndUpdate _ _ _ _ _ _ = _ |- _ =>
      apply (soft_delete_ok Appointment o _ _ "Cancelled" _ _ _ _ eq_refl
               appointment_status_path eq_refl) in H as (d & Hd & ->)
  end.
  (* the list of the upcoming ones *)
  apply (handle_inv _ _ _ _ _ _ _ c' Hauth') in Hapi' as (rt & ps & Hd' & Hrun).
  rewrite Hm', Hp' in Hd'. vm_compute in Hd'. injection Hd' as <- <-.
  destruct Hrun as [(_ & -> & _)|[_ Hrun]]; [done|].
  cbn [label checks runChecks fold_left fst snd AppointmentsRouter.handlers]
    in Hrun.
  apply tryCatch_inv in Hrun as [Hrun| ->]; [|done].
  cbv beta zeta in Hrun. unwind. simpl in Hdata. injection Hdata as <-.
  apply list_elem_of_fmap in Hin as (e' & -> & Hin).
  rewrite idOf_toJSON in Hid. injection Hid as Hid.
  match goal with
  | H : Odm.mapM _ _ _ = _ |- _ =>
      apply (mapM_ok _ (populated ["patientId"; "doctorId"]%string))
        in H as [-> Hpop]
  end.
  - destruct (populated_elem _ _ _ _ Hpop Hin) as (e0 & He0 & Hid0 & _).
    match goal with
    | H : find _ _ _ _ _ _ = _ |- _ =>
        destruct (found_selected _ _ _ _ _ _ _ _ e0 H He0) as [Hl Hall]
    end.
    rewrite <- Hid0, Hid in *. simpl in Hl. rewrite lookup_insert_eq in Hl.
    injection Hl as Hl.
    apply (matchesAll_elem _ _ (CStrIn "status" ["Scheduled"; "Confirmed"]%string))
      in Hall; [|isin].
    simpl in Hall. unfold strAt in Hall. rewrite <- Hl in Hall.
    rewrite lookup_insert_ne, lookup_insert_eq in Hall by done.
    by apply bool_decide_eq_true in Hall as [?|[?|?%elem_of_nil]%elem_of_cons]%elem_of_cons.
  - intros e1 e2 s1 s2 Hpop. apply bind_ok in Hpop as (s3 & e3 & H1 & H2).
    apply (populate_ok _ _ _ ["patientId"; "doctorId"]%string) in H1 as [-> ?];
      [|isin].
    apply (populate_ok _ _ _ ["patientId"; "doctorId"]%string) in H2 as [-> ?];
      [|isin].
    eauto using populated_trans.
Qed.

End Upcoming.

(* ===================================================================== *)
(** ** The body checks of the patients router                        *)
(* ===================================================================== *)

Section CheckFacts.
Context `{E : Env}.
Import Odm Api.





End CheckFacts.

(* ===================================================================== *)
(** ** What a creation stores                                        *)
(* ===================================================================== *)

Section CreationFields.
Context `{E : Env}.
Import Odm Api.

(** A path the data leaves out gets its default, if it has one. *)
Lemma newDocument_default (sch : Schema) (oid : N) (t : Z) (data : doc)
    (e : entry) (k : string) (p : Path) :
  newDocument sch oid t data = Some e →
  paths sch !! k = Some p → data !! k = None →
  k ≠ "createdAt"%string → k ≠ "updatedAt"%string → isNested p = false →
  e.2 !! k = defaultOf t p.
Proof.
  intros Hn Hp Hd H1 H2 Hnest.
  destruct (newDocument_lookup _ _ _ _ _ k Hn H1 H2) as (c & Hc & Hk).
  { intros p' Hp'. congruence. }
  rewrite Hk, lookup_union_r.
  - by rewrite lookup_omap, (scalarPaths_lookup _ _ _ Hp Hnest).
  - rewrite (castDoc_lookup _ _ _ k Hc), Hd.
    by destruct (scalarPaths (allPaths sch) !! k).
Qed.

(** The timestamps of a new document: [updatedAt] is [createdAt], and
    both are the current time when the data gives no [createdAt]. *)
Lemma newDocument_updatedAt (sch : Schema) (oid : N) (t : Z) (data : doc)
    (e : entry) :
  newDocument sch oid t data = Some e → timestamps sch = true →
  e.2 !! "updatedAt"%string = e.2 !! "createdAt"%string
  ∧ (paths sch !! "createdAt"%string = None →
     data !! "createdAt"%string = None →
     e.2 !! "updatedAt"%string = Some (VDate t)).
Proof.
  intros Hn Ht. unfold newDocument in Hn.
  destruct (castDoc (scalarPaths (allPaths sch)) data) as [c|] eqn:Hc; [|done].
  destruct (nestedOf (paths sch) data) as [nd|] eqn:Hnd; [|done].
  set (d0 := nd ∪ c ∪ omap (defaultOf t) (scalarPaths (paths sch))) in *.
  assert (Hk : stampNew sch t d0 !! "updatedAt"%string
               = stampNew sch t d0 !! "createdAt"%string
               ∧ (paths sch !! "createdAt"%string = None →
                  data !! "createdAt"%string = None →
                  stampNew sch t d0 !! "updatedAt"%string = Some (VDate t))).
  { unfold stampNew. rewrite Ht.
    rewrite lookup_insert_eq, lookup_insert_ne, lookup_insert_eq by done.
    split; [done|]. intros Hp Hd. unfold createdOf.
    assert (d0 !! "createdAt"%string = None) as ->; [|done].
    unfold d0. rewrite !lookup_union_None. repeat split.
    - eapply nestedOf_scalar; [done|]. intros p' Hp'. congruence.
    - rewrite (castDoc_lookup _ _ _ "createdAt" Hc), Hd.
      by destruct (scalarPaths (allPaths sch) !! "createdAt"%string).
    - by rewrite lookup_omap, (scalarPaths_None _ _ Hp). }
  destruct (data !! "_id"%string) as [w|]; [|by injection Hn as <-].
  destruct (castType TObjectId w) as [[]|]; try done. by injection Hn as <-.
Qed.

Lemma appointment_type_path :
  paths appointmentSchema !! "type"%string
  = Some (withDefault (DefaultValue (VStr "In-Person"))
            (withEnum ["In-Person"; "Virtual"]%string (path TString))).
Proof. reflexivity. Qed.

Lemma appointment_duration_path :
  paths appointmentSchema !! "duration"%string
  = Some (withDefault (DefaultValue (VNum 30)) (path TNumber)).
Proof. reflexivity. Qed.

(** What a successful POST /api/appointments did. *)
Lemma createAppointment_inv (q : Request) (a : Ambient) (s s' : Store)
    (c : Ctx) (resp : Response) :
  rmethod q = POST → rpath q = [] → auth q = inr c →
  api RAppointments q a s = Some (resp, s') → status resp = 201 →
  ∃ e, newDocument appointmentSchema (oid1 a) (now a)
         (<["createdBy"%string := VId (uid (user c))]>
            (<["hospitalId"%string := VStr (hospitalId c)]> (rbody q)))
       = Some e
     ∧ appointments s !! e.1 = None
     ∧ appointments s' = <[e.1 := e.2]> (appointments s).
Proof.
  intros Hm Hp Hauth Hapi H201.
  apply (handle_inv _ _ _ _ _ _ _ c Hauth) in Hapi as (rt & ps & Hd & Hrun).
  rewrite Hm, Hp in Hd. injection Hd as <- <-.
  destruct Hrun as [(_ & -> & _)|[_ Hrun]]; [done|].
  cbn [label checks runChecks fold_left fst snd AppointmentsRouter.handlers]
    in Hrun.
  apply tryCatch_ok in Hrun; [|by rewrite H201].
  cbv beta zeta in Hrun. unwind.
  match goal with
  | H : AppointmentsRouter.populateAll _ _ = _ |- _ =>
      apply populateAll_ok in H as [-> _]
  end.
  match goal with
  | H : save _ _ _ _ _ = _ |- _ =>
      apply save_ok in H as (Hn & Hfree & ->)
  end.
  eexists. split; [exact Hn|]. by split.
Qed.

(** X11.  The appointment a successful POST stores names the requester as its
    creator, whatever [createdBy] the body holds; its [updatedAt] is its
    [createdAt], and both are the time of the request when the body gives
    no [createdAt]. *)
Theorem appointment_creator_is_requester (q : Request) (a : Ambient)
    (s s' : Store) (c : Ctx) (resp : Response) :
  rmethod q = POST → rpath q = [] → auth q = inr c →
  api RAppointments q a s = Some (resp, s') → status resp = 201 →
  ∃ o d, appointments s !! o = None
    ∧ appointments s' = <[o := d]> (appointments s)
    ∧ d !! "createdBy"%string = Some (VId (uid (user c)))
    ∧ d !! "updatedAt"%string = d !! "createdAt"%string
    ∧ (rbody q !! "createdAt"%string = None →
       d !! "updatedAt"%string = Some (VDate (now a))).
Proof.
  intros Hm Hp Hauth Hapi H201.
  destruct (createAppointment_inv _ _ _ _ _ _ Hm Hp Hauth Hapi H201)
    as ([o d] & Hn & Hfree & Hs').
  exists o, d. split; [done|]. split; [done|]. split.
  - destruct (newDocument_field _ _ _ _ _ "createdBy" (req (path TObjectId))
                (VId (uid (user c))) Hn) as (v' & Hv & Hk); try done.
    + apply lookup_insert_eq.
    + by injection Hv as <-.
  - destruct (newDocument_updatedAt _ _ _ _ _ Hn eq_refl) as [Heq Hnow].
    split; [exact Heq|]. intros Hb. apply Hnow; [reflexivity|].
    by rewrite !lookup_insert_ne.
Qed.

(** X12.  The defaults of models/Appointment.js: an appointment created from a
    body that leaves out [status], [type] or [duration] is stored as
    Scheduled, In-Person and of 30 minutes. *)
Theorem appointment_defaults (q : Request) (a : Ambient)
    (s s' : Store) (c : Ctx) (resp : Response) :
  rmethod q = POST → rpath q = [] → auth q = inr c →
  api RAppointments q a s = Some (resp, s') → status resp = 201 →
  ∃ o d, appointments s !! o = None
    ∧ appointments s' = <[o := d]> (appointments s)
    ∧ (rbody q !! "status"%string = None →
       d !! "status"%string = Some (VStr "Scheduled"))
    ∧ (rbody q !! "type"%string = None →
       d !! "type"%string = Some (VStr "In-Person"))
    ∧ (rbody q !! "duration"%string = None →
       d !! "duration"%string = Some (VNum 30)).
Proof.
  intros Hm Hp Hauth Hapi H201.
  destruct (createAppointment_inv _ _ _ _ _ _ Hm Hp Hauth Hapi H201)
    as ([o d] & Hn & Hfree & Hs').
  exists o, d. split; [done|]. split; [done|].
  repeat split; intros Hb.
  - apply (newDocument_default _ _ _ _ _ "status" _ Hn appointment_status_path);
      by rewrite ?lookup_insert_ne.
  - apply (newDocument_default _ _ _ _ _ "type" _ Hn appointment_type_path);
      by rewrite ?lookup_insert_ne.
  - apply (newDocument_default _ _ _ _ _ "duration" _ Hn appointment_duration_path);
      by rewrite ?lookup_insert_ne.
Qed.

End CreationFields.

Section StaffAccounts.
Context `{E : Env}.
Import Odm Api.

(** What a successful POST /api/staff did: a User, then a Staff profile
    built from it. *)
Lemma createStaff_inv (q : Request) (a : Ambient) (s s' : Store)
    (c : Ctx) (resp : Response) :
  rmethod q = POST → rpath q = [] → auth q = inr c →
  api RStaff q a s = Some (resp, s') → status resp = 201 →
  ∃ u e,
    newDocument userSchema (oid1 a) (now a) (StaffRouter.userAccountData q c)
    = Some u
    ∧ newDocument staffSchema (oid2 a) (now a)
        (StaffRouter.staffProfileData q c u) = Some e
    ∧ users s !! u.1 = None ∧ users s' = <[u.1 := u.2]> (users s)
    ∧ staff s !! e.1 = None ∧ staff s' = <[e.1 := e.2]> (staff s).
Proof.
  intros Hm Hp Hauth Hapi H201.
  apply (handle_inv _ _ _ _ _ _ _ c Hauth) in Hapi as (rt & ps & Hd & Hrun).
  rewrite Hm, Hp in Hd. injection Hd as <- <-.
  destruct Hrun as [(_ & -> & _)|[_ Hrun]]; [done|].
  cbn [label checks runChecks fold_left fst snd StaffRouter.handlers] in Hrun.
  apply tryCatch_ok in Hrun; [|by rewrite H201].
  cbv beta zeta in Hrun. unwind.
  match goal with
  | H : StaffRouter.populateUser _ _ = _ |- _ =>
      apply (populate_ok _ _ _ ["userId"%string]) in H as [-> _]; [|isin]
  end.
  repeat match goal with
  | H : save _ _ _ _ _ = _ |- _ =>
      apply save_ok in H as (? & ? & ->)
  end.
  eexists _, _. repeat split; eassumption || done.
Qed.

(** X13.  The account and the profile a successful POST /api/staff stores: the
    User has the role staff, whatever role the body asks for, and the
    Staff profile refers to that User, whatever [userId] the body holds. *)
Theorem staff_account_linked (q : Request) (a : Ambient)
    (s s' : Store) (c : Ctx) (resp : Response) :
  rmethod q = POST → rpath q = [] → auth q = inr c →
  api RStaff q a s = Some (resp, s') → status resp = 201 →
  ∃ uo ud o d,
    users s !! uo = None ∧ users s' = <[uo := ud]> (users s)
    ∧ staff s !! o = None ∧ staff s' = <[o := d]> (staff s)
    ∧ ud !! "role"%string = Some (VStr "staff")
    ∧ d !! "userId"%string = Some (VId uo).
Proof.
  intros Hm Hp Hauth Hapi H201.
  destruct (createStaff_inv _ _ _ _ _ _ Hm Hp Hauth Hapi H201)
    as ([uo ud] & [o d] & Hu & He & Hfu & Hsu & Hfe & Hse).
  exists uo, ud, o, d. repeat (split; [done|]). split.
  - destruct user_role as (p & Hp' & Hplain).
    destruct (newDocument_field _ _ _ _ _ "role" p (VStr "staff") Hu Hp')
      as (v' & Hv & Hk); [| done | done | by apply plainString_scalar |].
    + unfold StaffRouter.userAccountData.
      rewrite lookup_insert_ne by done. apply lookup_insert_eq.
    + rewrite castValue_plain in Hv by done. by injection Hv as <-.
  - destruct (newDocument_field _ _ _ _ _ "userId" (req (path TObjectId))
                (VId uo) He) as (v' & Hv & Hk); try done.
    + unfold StaffRouter.staffProfileData.
      rewrite lookup_insert_ne by done. apply lookup_insert_eq.
    + by injection Hv as <-.
Qed.

(** X14.  The setters of models/Staff.js: the profile a successful
    POST /api/staff stores holds the names trimmed and the e-mail address
    in lower case. *)
Theorem staff_profile_normalised (q : Request) (a : Ambient)
    (s s' : Store) (c : Ctx) (resp : Response) (m : doc) :
  rmethod q = POST → rpath q = [] → auth q = inr c →
  api RStaff q a s = Some (resp, s') → status resp = 201 →
  rbody q !! "staffData"%string = Some (VObj m) →
  ∃ o d, staff s !! o = None ∧ staff s' = <[o := d]> (staff s)
    ∧ (∀ v, m !! "firstName"%string = Some (VStr v) →
            d !! "firstName"%string = Some (VStr (Js.trim v)))
    ∧ (∀ v, m !! "lastName"%string = Some (VStr v) →
            d !! "lastName"%string = Some (VStr (Js.trim v)))
    ∧ (∀ v, m !! "email"%string = Some (VStr v) →
            d !! "email"%string = Some (VStr (toLowerCase v))).
Proof.
  intros Hm Hp Hauth Hapi H201 Hdata.
  destruct (createStaff_inv _ _ _ _ _ _ Hm Hp Hauth Hapi H201)
    as ([uo ud] & [o d] & Hu & He & Hfu & Hsu & Hfe & Hse).
  exists o, d. repeat (split; [done|]).
  assert (Hfield : ∀ k p v, paths staffSchema !! k = Some p →
            k ≠ "hospitalId"%string → k ≠ "userId"%string →
            k ≠ "createdAt"%string → k ≠ "updatedAt"%string →
            isNested p = false → m !! k = Some v →
            ∃ v', castValue p v = Some v' ∧ d !! k = Some v').
  { intros k p v Hk H1 H2 H3 H4 H5 Hv.
    apply (newDocument_field _ _ _ _ _ k p v He Hk); try done.
    unfold StaffRouter.staffProfileData. rewrite Hdata. simpl.
    by rewrite !lookup_insert_ne. }
  repeat split; intros v Hv.
  - destruct (Hfield "firstName"%string (trimmed (req (path TString))) (VStr v))
      as (v' & Hc & Hd); try done. by injection Hc as <-.
  - destruct (Hfield "lastName"%string (trimmed (req (path TString))) (VStr v))
      as (v' & Hc & Hd); try done. by injection Hc as <-.
  - destruct (Hfield "email"%string (lowercased (req (path TString))) (VStr v))
      as (v' & Hc & Hd); try done. by injection Hc as <-.
Qed.

End StaffAccounts.

Section UniqueIndex.
Context `{E : Env}.
Import Odm Api.

Lemma save_unique (m : Model) (oid : N) (t : Z) (data : doc) (s s' : Store)
    (e : entry) :
  save m oid t data s = (s', Ok e) →
  uniqueClash (mschema m) (getColl (mcoll m) s) e.2 = false.
Proof.
  unfold save. destruct (newDocument _ _ _ _) as [[id d]|]; [|done].
  destruct (uniqueClash _ _ d) eqn:Hu.
  - simpl. by rewrite andb_false_r.
  - destruct (_ && _); [|done]. by intros [= <- <-].
Qed.

Lemma uniqueClash_held (sch : Schema) (others : collection) (d d0 : doc)
    (k v : string) (p : Path) (o : N) :
  paths sch !! k = Some p → unique p = true →
  d !! k = Some (VStr v) → others !! o = Some d0 → d0 !! k = Some (VStr v) →
  uniqueClash sch others d = true.
Proof.
  intros Hp Hu Hd Ho Hd0. unfold uniqueClash. apply existsb_exists.
  exists (k, p). split.
  - by apply list_elem_of_In, elem_of_map_to_list.
  - unfold clashOn. simpl. rewrite Hu, Hd. simpl. apply existsb_exists.
    exists (o, d0). split.
    + by apply list_elem_of_In, elem_of_map_to_list.
    + simpl. by apply holds_lookup.
Qed.

Lemma staff_employeeId_path :
  paths staffSchema !! "employeeId"%string = Some (uniq (req (path TString))).
Proof. reflexivity. Qed.

(** X15.  The unique index on [employeeId] spans the tenants: POST /api/staff
    with an employee identifier that some staff member already holds, of
    whatever tenant, is answered 500 and stores no staff profile. *)
Theorem employeeId_is_unique_across_tenants (q : Request) (a : Ambient)
    (s s' : Store) (c : Ctx) (resp : Response) (m d0 : doc) (v : string)
    (o0 : N) :
  rmethod q = POST → rpath q = [] → auth q = inr c →
  urole (user c) = hospitalOwner →
  rbody q !! "staffData"%string = Some (VObj m) →
  m !! "employeeId"%string = Some (VStr v) →
  staff s !! o0 = Some d0 → d0 !! "employeeId"%string = Some (VStr v) →
  api RStaff q a s = Some (resp, s') →
  resp = serverError ∧ staff s' = staff s.
Proof.
  intros Hm Hp Hauth Hrole Hdata Hv Ho0 Hd0 Hapi.
  apply (handle_inv _ _ _ _ _ _ _ c Hauth) in Hapi as (rt & ps & Hd & Hrun).
  rewrite Hm, Hp in Hd. injection Hd as <- <-.
  destruct Hrun as [(Hno & _)|[_ Hrun]].
  { unfold allowed in Hno. simpl in Hno. rewrite Hrole in Hno.
    by rewrite bool_decide_eq_true_2 in Hno by isin. }
  cbn [label checks runChecks fold_left fst snd StaffRouter.handlers] in Hrun.
  unfold StaffRouter.createStaff, tryCatch, bind in Hrun.
  destruct (save User _ _ _ s) as [s1 [u|]] eqn:Hu.
  - assert (Hs1 : staff s1 = staff s).
    { apply save_ok in Hu as (_ & _ & ->). done. }
    destruct (save Staff _ _ _ s1) as [s2 [e|]] eqn:He.
    + exfalso. pose proof (save_unique _ _ _ _ _ _ _ He) as Hfree.
      apply save_ok in He as (Hn & _ & _).
      destruct (newDocument_field _ _ _ _ _ "employeeId"
                  (uniq (req (path TString))) (VStr v) Hn
                  staff_employeeId_path) as (v' & Hc & Hk); [|done|done|done|].
      { unfold StaffRouter.staffProfileData.
        cbn [rbody withBody]. rewrite Hdata. cbn [StaffRouter.spread].
        by rewrite !lookup_insert_ne. }
      injection Hc as <-. simpl in Hfree. rewrite Hs1 in Hfree.
      by rewrite (uniqueClash_held staffSchema (staff s) e.2 d0
                    "employeeId" v _ o0 staff_employeeId_path) in Hfree.
    + apply save_throw in He as ->. injection Hrun as <- <-. done.
  - apply save_throw in Hu as ->. injection Hrun as <- <-. done.
Qed.

End UniqueIndex.

(* ===================================================================== *)
(** ** What an update changes                                        *)
(* ===================================================================== *)

Section PlainUpdates.
Context `{E : Env}.
Import Odm Api.

(** What a successful PUT did: the update of the record the path and the
    tenant of the request select. *)
Lemma put_inv (r : Resource) (q : Request) (a : Ambient) (s s' : Store)
    (c : Ctx) (resp : Response) (x : string) :
  rmethod q = PUT → rpath q = [x] → auth q = inr c →
  api r q a s = Some (resp, s') → status resp = 200 →
  ∃ o e, castId x = Some o
    ∧ findOneAndUpdate (modelOf r) (mkIdFilter o (Some (hospitalId c)))
        (now a) (rbody q) true s = (s', Ok (Some e)).
Proof.
  intros Hm Hp Hauth Hapi H200. unfold api in Hapi.
  destruct r;
    apply (handle_inv _ _ _ _ _ _ _ c Hauth) in Hapi as (rt & ps & Hd & Hrun);
    rewrite Hm, Hp in Hd; injection Hd as <- <-;
    (destruct Hrun as [(_ & -> & _)|[_ Hrun]]; [done|]);
    cbn [label checks runChecks fold_left fst snd PatientsRouter.handlers
         AppointmentsRouter.handlers StaffRouter.handlers
         DoctorsRouter.handlers] in Hrun;
    (apply tryCatch_ok in Hrun; [|by rewrite H200]);
    cbv beta zeta in Hrun; unwind; rewrite param_id in *;
    match goal with
    | H : match ?r with _ => _ end _ = _ |- _ => destruct r as [e|]
    end; unwind; try done;
    repeat match goal with
    | H : AppointmentsRouter.populateAll _ _ = _ |- _ =>
        apply populateAll_ok in H as [-> _]
    | H : StaffRouter.populateUser _ _ = _ |- _ =>
        apply (populate_ok _ _ _ ["userId"%string]) in H as [-> _]; [|isin]
    | H : DoctorsRouter.populateUser _ _ = _ |- _ =>
        apply (populate_ok _ _ _ ["userId"%string]) in H as [-> _]; [|isin]
    end;
    eauto.
Qed.

Lemma castSet_lookup (sch : Schema) (t : Z) (body upd : doc) (k : string) :
  castSet sch t body = Some upd → k ≠ "updatedAt"%string →
  upd !! k
  = match allPaths sch !! k, body !! k with
    | Some p, Some v =>
        if timestamps sch && String.eqb k "createdAt" then None
        else castValue p v
    | _, _ => None
    end.
Proof.
  unfold castSet. intros H Hk. destruct (timestamps sch); simpl.
  - destruct (castDoc _ _) as [c|] eqn:Hc; [|done]. injection H as <-.
    rewrite lookup_insert_ne by done. rewrite (castDoc_lookup _ _ _ k Hc).
    rewrite (lookup_delete_ne _ "updatedAt"%string k) by done.
    destruct (String.eqb_spec k "createdAt") as [->|Hne].
    + rewrite lookup_delete_eq.
      by destruct (allPaths sch !! "createdAt"%string),
                  (body !! "createdAt"%string).
    + by rewrite lookup_delete_ne.
  - by apply castDoc_lookup.
Qed.

Lemma castSet_updatedAt (sch : Schema) (t : Z) (body upd : doc) :
  castSet sch t body = Some upd → timestamps sch = true →
  upd !! "updatedAt"%string = Some (VDate t).
Proof.
  unfold castSet. intros H Ht. rewrite Ht in H.
  destruct (castDoc _ _); [|done].
  injection H as <-. apply lookup_insert_eq.
Qed.

(** What a plain update does to the record it selects. *)
Lemma plain_update_ok (m : Model) (f : IdFilter) (t : Z) (body : doc)
    (s s' : Store) (e : entry) :
  isPlain body = true →
  findOneAndUpdate m f t body true s = (s', Ok (Some e)) →
  ∃ upd old, castSet (mschema m) t body = Some upd
    ∧ validSet (mschema m) upd = true
    ∧ lookupBy f (getColl (mcoll m) s) = Some old
    ∧ e = (f_id f, upd ∪ old)
    ∧ s' = setColl (mcoll m) (<[f_id f := upd ∪ old]> (getColl (mcoll m) s)) s.
Proof.
  intros Hplain Hrun.
  apply findOneAndUpdate_ok in Hrun as (ap & Hprep & old & Hl & Hap & Hid & ->).
  unfold prepareUpdate in Hprep. rewrite Hplain in Hprep.
  destruct (castSet _ _ _) as [upd|]; [|done]. simpl in Hprep.
  destruct (validSet _ _) eqn:Hv; [|done]. injection Hprep as <-.
  injection Hap as Hap. exists upd, old. repeat split; try done.
  - destruct e. simpl in *. congruence.
  - by rewrite Hap.
Qed.

End PlainUpdates.

Section PlainUpdates2.
Context `{E : Env}.
Import Odm Api.

Lemma castSet_lookup_Some (sch : Schema) (t : Z) (body upd : doc) (k : string)
    (p : Path) (v : value) :
  castSet sch t body = Some upd → paths sch !! k = Some p →
  body !! k = Some v → k ≠ "createdAt"%string → k ≠ "updatedAt"%string →
  ∃ v', castValue p v = Some v' ∧ upd !! k = Some v'.
Proof.
  unfold castSet. intros H Hp Hb H1 H2. apply allPaths_lookup in Hp.
  destruct (timestamps sch).
  - destruct (castDoc _ _) as [c|] eqn:Hc; [|done]. injection H as <-.
    destruct (castDoc_lookup_Some _ _ _ k p v Hc Hp) as (v' & Hv & Hk).
    { by rewrite !lookup_delete_ne. }
    exists v'. split; [done|]. by rewrite lookup_insert_ne.
  - by apply (castDoc_lookup_Some _ _ _ k p v H Hp).
Qed.

Lemma validSet_lookup (sch : Schema) (upd : doc) (k : string) (p : Path)
    (v : value) :
  validSet sch upd = true → paths sch !! k = Some p → upd !! k = Some v →
  validValue p v = true.
Proof.
  intros Hv Hp Hk. apply bool_decide_eq_true in Hv.
  specialize (Hv k v Hk). unfold validKey in Hv. by rewrite Hp in Hv.
Qed.

(** What a successful PUT with a plain body did to the record. *)
Lemma plain_put_inv (r : Resource) (q : Request) (a : Ambient) (s s' : Store)
    (c : Ctx) (resp : Response) (x : string) :
  rmethod q = PUT → rpath q = [x] → auth q = inr c →
  isPlain (rbody q) = true →
  api r q a s = Some (resp, s') → status resp = 200 →
  ∃ o old upd, castId x = Some o
    ∧ getColl (collOf r) s !! o = Some old
    ∧ old !! "hospitalId"%string = Some (VStr (hospitalId c))
    ∧ getColl (collOf r) s' = <[o := upd ∪ old]> (getColl (collOf r) s)
    ∧ castSet (schemaOf r) (now a) (rbody q) = Some upd
    ∧ validSet (schemaOf r) upd = true.
Proof.
  intros Hm Hp Hauth Hplain Hapi H200.
  destruct (put_inv _ _ _ _ _ _ _ _ Hm Hp Hauth Hapi H200) as (o & e & Hx & Hrun).
  apply plain_update_ok in Hrun as (upd & old & Hset & Hv & Hl & _ & ->);
    [|done].
  apply lookupBy_Some in Hl as [Hl Ht]. simpl in *.
  apply holds_lookup in Ht.
  exists o, old, upd. repeat split; try done. by destruct r.
Qed.

(** X16.  A successful PUT with a plain body changes, in the one record it
    selects, only fields that the body names and the schema declares:
    each is set to the cast of the value given, which passed the validators
    of its path; every other field is kept, [createdAt] among them, and
    [updatedAt] is set to the time of the request, whatever the body
    gives for the two.  (The version key [__v], which is not represented,
    is left out of the statement.) *)
Theorem update_sets_named_fields_only (r : Resource) (q : Request)
    (a : Ambient) (s s' : Store) (c : Ctx) (resp : Response) (x : string) :
  rmethod q = PUT → rpath q = [x] → auth q = inr c →
  isPlain (rbody q) = true →
  api r q a s = Some (resp, s') → status resp = 200 →
  ∃ o old new, castId x = Some o
    ∧ getColl (collOf r) s !! o = Some old
    ∧ getColl (collOf r) s' = <[o := new]> (getColl (collOf r) s)
    ∧ (∀ k, k ≠ "updatedAt"%string → k ≠ "__v"%string →
            rbody q !! k = None ∨ allPaths (schemaOf r) !! k = None →
            new !! k = old !! k)
    ∧ (timestamps (schemaOf r) = true →
       new !! "createdAt"%string = old !! "createdAt"%string
       ∧ new !! "updatedAt"%string = Some (VDate (now a)))
    ∧ (∀ k p v, paths (schemaOf r) !! k = Some p → rbody q !! k = Some v →
                k ≠ "createdAt"%string → k ≠ "updatedAt"%string →
                k ≠ "__v"%string →
                ∃ v', castValue p v = Some v' ∧ validValue p v' = true
                      ∧ new !! k = Some v').
Proof.
  intros Hm Hp Hauth Hplain Hapi H200.
  destruct (plain_put_inv _ _ _ _ _ _ _ _ Hm Hp Hauth Hplain Hapi H200)
    as (o & old & upd & Hx & Hold & _ & Hs' & Hset & Hv).
  exists o, old, (upd ∪ old). repeat (split; [done|]). split; [|split].
  - intros k Hk _ Hnone. apply lookup_union_r.
    rewrite (castSet_lookup _ _ _ _ k Hset Hk).
    destruct Hnone as [-> | ->]; [by destruct (allPaths _ !! k)|done].
  - intros Ht. split.
    + apply lookup_union_r.
      rewrite (castSet_lookup _ _ _ _ "createdAt" Hset) by done.
      rewrite Ht. simpl.
      by destruct (allPaths (schemaOf r) !! "createdAt"%string),
                  (rbody q !! "createdAt"%string).
    + apply lookup_union_Some_l. by eapply castSet_updatedAt.
  - intros k p v Hk Hb H1 H2 _.
    destruct (castSet_lookup_Some _ _ _ _ k p v Hset Hk Hb H1 H2)
      as (v' & Hc & Hu).
    exists v'. split; [done|]. split.
    + by eapply validSet_lookup.
    + by apply lookup_union_Some_l.
Qed.

Lemma hospitalId_path (r : Resource) :
  r ≠ RPatients →
  paths (schemaOf r) !! "hospitalId"%string = Some hospitalIdPath.
Proof. by destruct r. Qed.

(** X17.  The tenant stamp is not protected from updates: for the three
    schemas at hand (appointments, staff, doctors), a successful PUT whose
    plain body names a [hospitalId] stamps the record with it, and when
    that is another tenant the record is from then on foreign to the
    tenant that held it. *)
Theorem update_can_restamp_tenant (r : Resource) (q : Request)
    (a : Ambient) (s s' : Store) (c : Ctx) (resp : Response) (x t : string) :
  r ≠ RPatients →
  rmethod q = PUT → rpath q = [x] → auth q = inr c →
  isPlain (rbody q) = true →
  rbody q !! "hospitalId"%string = Some (VStr t) →
  api r q a s = Some (resp, s') → status resp = 200 →
  ∃ o old new, castId x = Some o
    ∧ getColl (collOf r) s !! o = Some old
    ∧ old !! "hospitalId"%string = Some (VStr (hospitalId c))
    ∧ getColl (collOf r) s' !! o = Some new
    ∧ new !! "hospitalId"%string = Some (VStr t)
    ∧ (t ≠ hospitalId c → foreign (getColl (collOf r) s') o (hospitalId c)).
Proof.
  intros Hr Hm Hp Hauth Hplain Hbody Hapi H200.
  destruct (plain_put_inv _ _ _ _ _ _ _ _ Hm Hp Hauth Hplain Hapi H200)
    as (o & old & upd & Hx & Hold & Hown & Hs' & Hset & Hv).
  destruct (castSet_lookup_Some _ _ _ _ "hospitalId" hospitalIdPath (VStr t)
              Hset (hospitalId_path r Hr) Hbody) as (v' & Hc & Hu);
    [done | done |].
  injection Hc as <-.
  assert (Hnew : (upd ∪ old) !! "hospitalId"%string = Some (VStr t))
    by (by apply lookup_union_Some_l).
  exists o, old, (upd ∪ old). repeat (split; [done|]).
  rewrite Hs', lookup_insert_eq. repeat split; try done.
  intros Hne. exists (upd ∪ old), t. by rewrite lookup_insert_eq.
Qed.

End PlainUpdates2.

(* ===================================================================== *)
(** ** The enums as an invariant                                     *)
(* ===================================================================== *)

Section EnumFacts.
Context `{E : Env}.
Import Odm Api.

Lemma keepsEnums_preorder (m : Model) : preorder (keepsEnums m).
Proof.
  split; [intros s H; exact H|]. intros s1 s2 s3 H1 H2 H. by apply H2, H1.
Qed.

Lemma touches_keepsEnums (cs : list Coll) (m : Model) (s s' : Store) :
  mcoll m ∉ cs → touches cs s s' → keepsEnums m s s'.
Proof.
  intros Hm Ht Hs o d k p l st Hd. rewrite (Ht _ Hm) in Hd.
  by apply (Hs o d).
Qed.

Lemma keepsEnums_insert (m : Model) (s : Store) (o : N) (d : doc) :
  (∀ k p l st, paths (mschema m) !! k = Some p → enum p = Some l →
               d !! k = Some (VStr st) → st ∈ l) →
  keepsEnums m s (setColl (mcoll m) (<[o := d]> (getColl (mcoll m) s)) s).
Proof.
  intros Hd Hs o' d' k p l st Hl Hp He Hk.
  assert (Hget : getColl (mcoll m) (setColl (mcoll m)
                   (<[o := d]> (getColl (mcoll m) s)) s)
                 = <[o := d]> (getColl (mcoll m) s))
    by (by destruct (mcoll m)).
  rewrite Hget in Hl. destruct (decide (o' = o)) as [->|Hne].
  - rewrite lookup_insert_eq in Hl. injection Hl as <-. by eapply Hd.
  - rewrite lookup_insert_ne in Hl by done. by eapply Hs.
Qed.

Lemma keepsEnums_delete (m : Model) (s : Store) (o : N) :
  keepsEnums m s (setColl (mcoll m) (delete o (getColl (mcoll m) s)) s).
Proof.
  intros Hs o' d' k p l st Hl Hp He Hk.
  assert (Hget : getColl (mcoll m) (setColl (mcoll m)
                   (delete o (getColl (mcoll m) s)) s)
                 = delete o (getColl (mcoll m) s))
    by (by destruct (mcoll m)).
  rewrite Hget in Hl. apply lookup_delete_Some in Hl as [_ Hl]. by eapply Hs.
Qed.

Lemma validValue_enum (p : Path) (l : list string) (st : string) :
  enum p = Some l → validValue p (VStr st) = true → st ∈ l.
Proof.
  intros He Hv. simpl in Hv. apply andb_prop in Hv as [_ Hv].
  unfold inEnum in Hv. rewrite He in Hv. by apply bool_decide_eq_true in Hv.
Qed.

Lemma validate_enum (sch : Schema) (d : doc) (k : string) (p : Path)
    (l : list string) (st : string) :
  validate sch d = true → paths sch !! k = Some p → enum p = Some l →
  d !! k = Some (VStr st) → st ∈ l.
Proof.
  intros Hv Hp He Hk. apply bool_decide_eq_true in Hv.
  specialize (Hv k p Hp). unfold validPath in Hv. rewrite Hk in Hv.
  by eapply validValue_enum.
Qed.

Lemma save_keepsEnums (m : Model) (oid : N) (t : Z) (data : doc) :
  steps (keepsEnums m) (save m oid t data).
Proof.
  intros s s' o. unfold save.
  destruct (newDocument _ _ _ _) as [[id d]|];
    [|intros [= <- _]; apply keepsEnums_preorder].
  destruct (validate _ _) eqn:Hv; simpl;
    [|intros [= <- _]; apply keepsEnums_preorder].
  destruct (_ && _); intros [= <- _]; [|apply keepsEnums_preorder].
  apply keepsEnums_insert. intros k p l st. by apply validate_enum.
Qed.

Lemma update_keepsEnums (m : Model) (f : IdFilter) (t : Z) (body : doc) :
  isPlain body = true →
  steps (keepsEnums m) (findOneAndUpdate m f t body true).
Proof.
  intros Hplain s s' o Hrun. unfold keepsEnums. intros Hs.
  destruct o as [[e|]|].
  - apply plain_update_ok in Hrun as (upd & old & Hset & Hv & Hl & _ & ->);
      [|done].
    apply lookupBy_Some in Hl as [Hl _].
    apply keepsEnums_insert; [|done]. intros k p l st Hp He Hk.
    apply lookup_union_Some_raw in Hk as [Hk|[_ Hk]].
    + eapply validValue_enum; [done|]. by eapply validSet_lookup.
    + by eapply Hs.
  - by apply findOneAndUpdate_None in Hrun as ->.
  - unfold findOneAndUpdate in Hrun.
    destruct (prepareUpdate _ _ _ _) as [ap|]; [|by injection Hrun as <-].
    destruct (lookupBy _ _); [|done].
    destruct (ap _ _); [|by injection Hrun as <-].
    destruct (uniqueClash _ _ _); [by injection Hrun as <-|done].
Qed.

Lemma softDelete_keepsEnums (m : Model) (f : IdFilter) (t : Z) (st : string)
    (p : Path) (l : list string) :
  paths (mschema m) !! "status"%string = Some p →
  castValue p (VStr st) = Some (VStr st) →
  enum p = Some l → st ∈ l →
  steps (keepsEnums m)
    (findOneAndUpdate m f t {[ "status"%string := VStr st ]} false).
Proof.
  intros Hp Hc He Hst s s' o Hrun. unfold keepsEnums. intros Hs.
  unfold findOneAndUpdate in Hrun.
  rewrite (prepareUpdate_single _ t false "status" (VStr st) (VStr st) p)
    in Hrun by done. simpl in Hrun.
  destruct (lookupBy _ _) as [old|] eqn:Hl; [|by injection Hrun as <-].
  destruct (uniqueClash _ _ _); injection Hrun as <- _; [done|].
  apply lookupBy_Some in Hl as [Hl _].
  apply keepsEnums_insert; [|done]. intros k p' l' st' Hp' He' Hk.
  destruct (decide (k = "status"%string)) as [->|Hne].
  - rewrite setOf_lookup in Hk by done. congruence.
  - destruct (decide (k = "updatedAt"%string)) as [->|Hne2].
    + unfold setOf in Hk.
      destruct (timestamps _).
      * rewrite <- insert_union_l, lookup_insert_eq in Hk. done.
      * rewrite lookup_union_r in Hk by (by rewrite lookup_singleton_ne).
        by eapply Hs.
    + rewrite setOf_lookup_other in Hk by done. by eapply Hs.
Qed.

Lemma delete_keepsEnums (m : Model) (f : IdFilter) :
  steps (keepsEnums m) (findOneAndDelete m f).
Proof.
  intros s s' o. unfold findOneAndDelete.
  destruct (lookupBy _ _); intros [= <- _]; [|apply keepsEnums_preorder].
  apply keepsEnums_delete.
Qed.

Lemma foreign_keepsEnums {A} (m : Model) (cs : list Coll) (x : M A) :
  mcoll m ∉ cs → steps (touches cs) x → steps (keepsEnums m) x.
Proof. intros Hm Hx s s' o Hrun. by eapply touches_keepsEnums, Hx. Qed.

End EnumFacts.

(** The writes of a handler, for the enums of the model [m]: a write to
    the users is a write elsewhere; a create validates the whole document,
    a plain update what it sets, and the two soft deletes set a status of
    the list. *)
Ltac enums m Hplain :=
  stepwise (keepsEnums_preorder m)
    ltac:(idtac; lazymatch goal with
      | |- steps _ (Odm.save Odm.User _ _ _) =>
          apply (foreign_keepsEnums _ [Users]); [notin | apply writes_save; isin]
      | |- steps _ (Odm.findOneAndUpdate Odm.User _ _ _ _) =>
          apply (foreign_keepsEnums _ [Users]);
          [notin | apply writes_findOneAndUpdate; isin]
      | |- steps _ (Odm.save _ _ _ _) => apply save_keepsEnums
      | |- steps _ (Odm.findOneAndDelete _ _) => apply delete_keepsEnums
      | |- steps _ (Odm.findOneAndUpdate _ _ _ _ true) =>
          apply update_keepsEnums; apply Hplain; reflexivity
      | |- steps _ (Odm.findOneAndUpdate Odm.Appointment _ _ _ false) =>
          eapply (softDelete_keepsEnums Odm.Appointment _ _ _ _ _
                    appointment_status_path);
          [reflexivity | reflexivity | isin]
      | |- steps _ (Odm.findOneAndUpdate Odm.Staff _ _ _ false) =>
          eapply (softDelete_keepsEnums Odm.Staff _ _ _ _ _ staff_status_path);
          [reflexivity | reflexivity | isin]
      end).

Section EnumInvariant.
Context `{E : Env}.
Import Odm Api.

Lemma patients_keepEnums l q c ps errs a s resp s' :
  (l = PatientsRouter.UpdatePatient → isPlain (rbody q) = true) →
  PatientsRouter.handlers l q c ps errs a s = (resp, s') →
  keepsEnums Patient s s'.
Proof.
  intros Hplain. destruct l; apply tryCatch_steps;
    unfold PatientsRouter.listQuery; enums Patient Hplain.
Qed.

Lemma appointments_keepEnums l q c ps errs a s resp s' :
  (l = AppointmentsRouter.UpdateAppointment → isPlain (rbody q) = true) →
  AppointmentsRouter.handlers l q c ps errs a s = (resp, s') →
  keepsEnums Appointment s s'.
Proof.
  intros Hplain. destruct l; apply tryCatch_steps;
    unfold AppointmentsRouter.listQuery, AppointmentsRouter.populateAll;
    enums Appointment Hplain.
Qed.

Lemma staff_keepEnums l q c ps errs a s resp s' :
  (l = StaffRouter.UpdateStaff → isPlain (rbody q) = true) →
  StaffRouter.handlers l q c ps errs a s = (resp, s') →
  keepsEnums Staff s s'.
Proof.
  intros Hplain. destruct l; apply tryCatch_steps;
    unfold StaffRouter.listQuery, StaffRouter.populateUser;
    enums Staff Hplain.
Qed.

Lemma doctors_keepEnums l q c ps errs a s resp s' :
  (l = DoctorsRouter.UpdateDoctor → isPlain (rbody q) = true) →
  DoctorsRouter.handlers l q c ps errs a s = (resp, s') →
  keepsEnums Doctor s s'.
Proof.
  intros Hplain. destruct l; apply tryCatch_steps;
    unfold DoctorsRouter.populateUser; enums Doctor Hplain.
Qed.

Lemma runRoute_keeps {L} (handlers : L → Handler) (R : Store → Store → Prop)
    (r : Route L) (ps : gmap string string) (q : Request) (a : Ambient)
    (s s' : Store) (resp : Response) :
  (∀ s, R s s) →
  (∀ c, handlers (label r)
          (withBody q (runChecks (checks r) (rbody q)).1) c ps
          (runChecks (checks r) (rbody q)).2 a s = (resp, s') → R s s') →
  runRoute handlers r ps q a s = (resp, s') → R s s'.
Proof.
  intros HR Hh. unfold runRoute.
  destruct (auth q) as [r0|c]; [intros [= _ <-]; apply HR|].
  destruct (from_option _ _ _); [intros [= _ <-]; apply HR|].
  specialize (Hh c). by destruct (runChecks _ _).
Qed.

(** X18.  The enums of the schemas are an invariant of the four routers: if
    every string stored at a path with an enum is one of its values, this
    is so after any request whose update, if it is a PUT, is a plain list
    of fields.  The status of an appointment, of a staff member and of a
    doctor, the type of an appointment and the department of a staff member
    can so never leave their lists. *)
Theorem enums_are_invariant (r : Resource) (q : Request) (a : Ambient)
    (s s' : Store) (resp : Response) :
  (rmethod q = PUT → isPlain (rbody q) = true) →
  api r q a s = Some (resp, s') →
  enumValid (modelOf r) s → enumValid (modelOf r) s'.
Proof.
  intros Hplain Hapi. change (keepsEnums (modelOf r) s s').
  unfold api, handle in Hapi.
  destruct r;
    destruct (dispatch _ _ _) as [[rt ps]|] eqn:Hd; try done;
    injection Hapi as Hrun;
    apply dispatch_In in Hd as (Hin & Hm & _);
    (eapply (runRoute_keeps _ (keepsEnums _));
     [apply keepsEnums_preorder | | exact Hrun]);
    intros c;
    [ apply patients_keepEnums | apply appointments_keepEnums
    | apply staff_keepEnums | apply doctors_keepEnums ];
    intros Hl; routes Hin; try done;
    cbn [checks runChecks fold_left fst rbody withBody];
    apply Hplain; by destruct (rmethod q).
Qed.

End EnumInvariant.

(* ===================================================================== *)
(** ** The further properties on the sample stores                   *)
(* ===================================================================== *)

(** The creation of the sample patient touches the patients only. *)
Lemma requests_write_own_collections_witness :
  appointments Sample.createdPatient.2 = appointments Sample.store
  ∧ staff Sample.createdPatient.2 = staff Sample.store
  ∧ doctors Sample.createdPatient.2 = doctors Sample.store
  ∧ users Sample.createdPatient.2 = users Sample.store.
Proof.
  destruct (requests_write_own_collections (E := Sample.env) Api.RPatients
              Sample.createPatient Sample.ambient Sample.store
              Sample.createdPatient.2 Sample.createdPatient.1) as [Ht _].
  - vm_compute. reflexivity.
  - change (touches [Patients] Sample.store Sample.createdPatient.2) in Ht.
    split; [apply (Ht Appointments)|].
    2: split; [apply (Ht Staffs)|].
    3: split; [apply (Ht Doctors) | apply (Ht Users)].
    all: intros [H|H]%elem_of_cons; first [discriminate H | inversion H].
Defined.

(** Tenant h2 reading a patient of tenant h1: 404, and the store is as it
    was. *)
Lemma client_errors_write_nothing_witness :
  status Cases.readForeignRun.1 = 404
  ∧ Cases.readForeignRun.2 = Sample.store.
Proof.
  split; [reflexivity|].
  apply (client_errors_write_nothing (E := Sample.env) Api.RPatients
           Cases.readForeign Sample.ambient Sample.store
           Cases.readForeignRun.2 Cases.readForeignRun.1).
  - vm_compute. reflexivity.
  - vm_compute. split; [discriminate | reflexivity].
Defined.

(** The second page of the ward, read by tenant h1, holds a record of
    tenant h1. *)
Lemma reads_return_own_tenant_witness :
  dataOfTenant "h1" (data Cases.wardPage.1).
Proof.
  apply (reads_return_own_tenant (E := Sample.env) Api.RPatients
           (Sample.listPage "2" "2") Sample.ambient Sample.ward
           Cases.wardPage.2 Cases.doctorH1 Cases.wardPage.1).
  - reflexivity.
  - reflexivity.
  - intros H. discriminate H.
  - vm_compute. reflexivity.
Defined.

(** The staff of the Nursing department of the sample store. *)
Lemma list_filters_are_honoured_witness :
  Forall (λ d, prop "department" d = Some (VStr "Nursing"))
         (Cases.docsOf Cases.nursing).
Proof.
  apply (list_filters_are_honoured (E := Sample.env) Api.RStaff
           Cases.listNursing Sample.ambient Sample.store Cases.nursing.2
           Sample.ownerCtx Cases.nursing.1 "department" "Nursing").
  - reflexivity.
  - reflexivity.
  - reflexivity.
  - apply list_elem_of_here.
  - reflexivity.
  - intros H. discriminate H.
  - vm_compute. reflexivity.
  - vm_compute. reflexivity.
Defined.

(** The doctors of tenant h1 once the sample doctor was created. *)
Lemma doctors_list_is_complete_witness :
  ∃ docs,
    Cases.doctorsListed.1 = ok 200 None (Some (VArr docs))
    ∧ idOf <$> docs ≡ₚ [Some 500%N].
Proof.
  destruct (doctors_list_is_complete (E := Sample.env) Cases.listDoctors
              Sample.ambient Sample.createdDoctor.2 Cases.doctorsListed.2
              Cases.doctorH1 Cases.doctorsListed.1)
    as (docs & _ & Hresp & Hids).
  - reflexivity.
  - reflexivity.
  - reflexivity.
  - vm_compute. reflexivity.
  - exists docs. split; [exact Hresp | exact Hids].
Defined.

(** The departments of the sample store: one group, counting the one
    active staff member. *)
Lemma departments_partition_active_staff_witness :
  ∃ groups,
    Cases.departmentsListed.1 = ok 200 None (Some (VArr groups))
    ∧ total (countOf <$> groups) = 1.
Proof.
  destruct (departments_partition_active_staff (E := Sample.env)
              Cases.listDepartments Sample.ambient Sample.store
              Cases.departmentsListed.2 Cases.doctorH1
              Cases.departmentsListed.1)
    as (groups & _ & Hresp & _ & _ & Htotal).
  - reflexivity.
  - reflexivity.
  - reflexivity.
  - vm_compute. reflexivity.
  - exists groups. split; [exact Hresp | exact Htotal].
Defined.

(** The sample patient, created and read back. *)
Lemma created_patient_can_be_read_witness :
  Api.api (E := Sample.env) Api.RPatients Cases.readCreated Sample.ambient
    Sample.createdPatient.2
  = Some (ok 200 None (data Sample.createdPatient.1), Sample.createdPatient.2).
Proof.
  apply (created_patient_can_be_read (E := Sample.env) Sample.createPatient
           Cases.readCreated Sample.ambient Sample.ambient Sample.store
           Sample.createdPatient.2 Cases.doctorH1 Cases.doctorH1
           Sample.createdPatient.1 Cases.hex500 500
           (Cases.docOf Sample.createdPatient)).
  - reflexivity.
  - reflexivity.
  - reflexivity.
  - vm_compute. reflexivity.
  - reflexivity.
  - vm_compute. reflexivity.
  - vm_compute. reflexivity.
  - reflexivity.
  - reflexivity.
  - vm_compute. reflexivity.
  - reflexivity.
  - reflexivity.
Defined.

(** The sample patient, deleted by the owner and asked for again. *)
Lemma deleted_patient_is_gone_witness :
  Api.api (E := Sample.env) Api.RPatients Cases.readAnn Sample.ambient
    Cases.deletedAnn.2
  = Some (notFound "Patient", Cases.deletedAnn.2).
Proof.
  apply (deleted_patient_is_gone (E := Sample.env) Cases.deleteAnn
           Cases.readAnn Sample.ambient Sample.ambient Sample.store
           Cases.deletedAnn.2 Sample.ownerCtx Cases.doctorH1
           Cases.deletedAnn.1 Sample.hex100).
  - reflexivity.
  - reflexivity.
  - reflexivity.
  - vm_compute. reflexivity.
  - reflexivity.
  - reflexivity.
  - reflexivity.
  - reflexivity.
Defined.

(** Of the two appointments of the clinic, the one that was cancelled is
    not among the upcoming ones; the other is. *)
Lemma cancelled_appointment_not_upcoming_witness :
  idOf <$> Cases.docsOf Cases.upcoming = [Some 201%N]
  ∧ Forall (λ d, idOf d ≠ Some 200%N) (Cases.docsOf Cases.upcoming).
Proof.
  split; [reflexivity|].
  apply (cancelled_appointment_not_upcoming (E := Sample.env)
           Cases.cancelVisit Cases.listUpcoming Sample.ambient Sample.ambient
           Cases.clinic Cases.cancelled.2 Cases.upcoming.2
           Cases.doctorH1 Cases.doctorH1 Cases.cancelled.1 Cases.upcoming.1
           Sample.hex200 200).
  - reflexivity.
  - reflexivity.
  - vm_compute. reflexivity.
  - reflexivity.
  - vm_compute. reflexivity.
  - reflexivity.
  - reflexivity.
  - reflexivity.
  - reflexivity.
  - vm_compute. reflexivity.
  - vm_compute. reflexivity.
Defined.


(** The appointment created from a body that names user 9 as its creator
    is stored with user 7, the requester, and with the time of the
    request as its two timestamps. *)
Lemma appointment_creator_is_requester_witness :
  Cases.newVisit !! "createdBy"%string = Some (VId 9)
  ∧ ∃ o d, appointments Cases.createdVisit.2
           = <[o := d]> (appointments Sample.store)
           ∧ d !! "createdBy"%string = Some (VId 7)
           ∧ d !! "updatedAt"%string = d !! "createdAt"%string
           ∧ d !! "updatedAt"%string = Some (VDate 1000).
Proof.
  split; [reflexivity|].
  destruct (appointment_creator_is_requester (E := Sample.env)
              Cases.createVisit Sample.ambient Sample.store
              Cases.createdVisit.2 Cases.doctorH1 Cases.createdVisit.1)
    as (o & d & _ & Hs & Hd & Heq & Hnow).
  - reflexivity.
  - reflexivity.
  - reflexivity.
  - vm_compute. reflexivity.
  - reflexivity.
  - exists o, d. split; [exact Hs|]. split; [exact Hd|].
    split; [exact Heq|]. apply Hnow. reflexivity.
Defined.

(** The same appointment, created without a status. *)
Lemma appointment_defaults_witness :
  ∃ o d, appointments Cases.createdVisit.2
         = <[o := d]> (appointments Sample.store)
         ∧ d !! "status"%string = Some (VStr "Scheduled")
         ∧ d !! "type"%string = Some (VStr "In-Person")
         ∧ d !! "duration"%string = Some (VNum 30).
Proof.
  destruct (appointment_defaults (E := Sample.env)
              Cases.createVisit Sample.ambient Sample.store
              Cases.createdVisit.2 Cases.doctorH1 Cases.createdVisit.1)
    as (o & d & _ & Hs & H1 & H2 & H3).
  - reflexivity.
  - reflexivity.
  - reflexivity.
  - vm_compute. reflexivity.
  - reflexivity.
  - exists o, d. split; [exact Hs|]. split; [|split].
    + apply H1. reflexivity.
    + apply H2. reflexivity.
    + apply H3. reflexivity.
Defined.

(** The staff member hired with the role of a hospital owner in the
    body gets an account with the role staff, to which the profile
    refers. *)
Lemma staff_account_linked_witness :
  ∃ uo ud o d,
    users Cases.hired.2 = <[uo := ud]> (users Sample.store)
    ∧ staff Cases.hired.2 = <[o := d]> (staff Sample.store)
    ∧ ud !! "role"%string = Some (VStr "staff")
    ∧ d !! "userId"%string = Some (VId uo).
Proof.
  destruct (staff_account_linked (E := Sample.env) Cases.hire Sample.ambient
              Sample.store Cases.hired.2 Sample.ownerCtx Cases.hired.1)
    as (uo & ud & o & d & _ & Hu & _ & Hs & Hrole & Hlink).
  - reflexivity.
  - reflexivity.
  - reflexivity.
  - vm_compute. reflexivity.
  - reflexivity.
  - exists uo, ud, o, d. repeat split; assumption.
Defined.

(** The same staff member: the names trimmed, the address in lower
    case. *)
Lemma staff_profile_normalised_witness :
  ∃ o d, staff Cases.hired.2 = <[o := d]> (staff Sample.store)
         ∧ d !! "firstName"%string = Some (VStr "Al")
         ∧ d !! "email"%string = Some (VStr "al@h1").
Proof.
  destruct (staff_profile_normalised (E := Sample.env) Cases.hire
              Sample.ambient Sample.store Cases.hired.2 Sample.ownerCtx
              Cases.hired.1 (Cases.profile "E2"))
    as (o & d & _ & Hs & Hfirst & _ & Hmail).
  - reflexivity.
  - reflexivity.
  - reflexivity.
  - vm_compute. reflexivity.
  - reflexivity.
  - reflexivity.
  - exists o, d. split; [exact Hs|]. split.
    + apply (Hfirst " Al "%string). reflexivity.
    + apply (Hmail "AL@H1"%string). reflexivity.
Defined.

(** Tenant h2 hiring with the employee identifier of the staff member
    of tenant h1. *)
Lemma employeeId_is_unique_across_tenants_witness :
  Cases.hiredTaken.1 = serverError
  ∧ staff Cases.hiredTaken.2 = staff Sample.store.
Proof.
  apply (employeeId_is_unique_across_tenants (E := Sample.env)
           Cases.hireTaken Sample.ambient Sample.store Cases.hiredTaken.2
           Cases.ownerH2 Cases.hiredTaken.1 (Cases.profile "E1")
           Sample.nurse "E1" 300).
  - reflexivity.
  - reflexivity.
  - reflexivity.
  - reflexivity.
  - reflexivity.
  - reflexivity.
  - reflexivity.
  - reflexivity.
  - vm_compute. reflexivity.
Defined.

(** Confirming the sample appointment leaves its reason as it was. *)
Lemma update_sets_named_fields_only_witness :
  ∃ o old new,
    appointments Sample.store !! o = Some old
    ∧ appointments Sample.confirmedVisit.2
      = <[o := new]> (appointments Sample.store)
    ∧ new !! "reason"%string = old !! "reason"%string
    ∧ new !! "createdAt"%string = old !! "createdAt"%string.
Proof.
  destruct (update_sets_named_fields_only (E := Sample.env) Api.RAppointments
              Sample.confirmVisit Sample.ambient Sample.store
              Sample.confirmedVisit.2 Cases.doctorH1 Sample.confirmedVisit.1
              Sample.hex200)
    as (o & old & new & _ & Hold & Hs & Hkeep & Hstamp & _).
  - reflexivity.
  - reflexivity.
  - reflexivity.
  - vm_compute. reflexivity.
  - vm_compute. reflexivity.
  - reflexivity.
  - exists o, old, new. split; [exact Hold|]. split; [exact Hs|]. split.
    + apply Hkeep;
        [intros H; discriminate H | intros H; discriminate H | left; reflexivity].
    + apply Hstamp. reflexivity.
Defined.

(** The sample appointment, moved to tenant h2 by a request of tenant
    h1. *)
Lemma update_can_restamp_tenant_witness :
  ∃ o, foreign (appointments Cases.movedVisit.2) o "h1".
Proof.
  destruct (update_can_restamp_tenant (E := Sample.env) Api.RAppointments
              Cases.moveVisit Sample.ambient Sample.store Cases.movedVisit.2
              Cases.doctorH1 Cases.movedVisit.1 Sample.hex200 "h2")
    as (o & old & new & _ & _ & _ & _ & _ & Hforeign).
  - intros H. discriminate H.
  - reflexivity.
  - reflexivity.
  - reflexivity.
  - vm_compute. reflexivity.
  - reflexivity.
  - vm_compute. reflexivity.
  - reflexivity.
  - exists o. apply Hforeign. intros H. discriminate H.
Defined.

(** The appointments of the sample store respect the enums. *)
Lemma sample_store_enums :
  enumValid (Api.modelOf (E := Sample.env) Api.RAppointments) Sample.store.
Proof.
  intros o d k p l st Hd Hp He Hk.
  change ((({[ 200%N := Sample.visit ]} : collection) !! o) = Some d) in Hd.
  apply lookup_singleton_Some in Hd as [<- <-].
  cbn [Api.modelOf mschema Api.schemaOf] in Hp.
  apply elem_of_map_to_list in Hp. vm_compute (map_to_list _) in Hp.
  repeat (apply elem_of_cons in Hp as [Hp|Hp];
          [injection Hp as -> ->; vm_compute in He;
           first [discriminate He | injection He as <-];
           vm_compute in Hk; first [discriminate Hk | injection Hk as <-];
           isin |]).
  by apply elem_of_nil in Hp.
Qed.

(** And still do once the sample appointment is confirmed. *)
Lemma enums_are_invariant_witness :
  enumValid (Api.modelOf (E := Sample.env) Api.RAppointments)
            Sample.confirmedVisit.2.
Proof.
  apply (enums_are_invariant (E := Sample.env) Api.RAppointments
           Sample.confirmVisit Sample.ambient Sample.store
           Sample.confirmedVisit.2 Sample.confirmedVisit.1).
  - intros _. vm_compute. reflexivity.
  - vm_compute. reflexivity.
  - apply sample_store_enums.
Defined.
